(** * The DCUP ledger core: transaction validation, block building, state effects

    A shallow embedding of [Blockchain] from [blockchain/MCoinsBlockChain.py]
    (validator, [add_block], founder bootstrap) and of the earlier
    [Blockchain] of [MCoins.py], followed by the properties of the ledger
    state machine.

    Conventions of the embedding:
    - a transaction is a Python dict with string keys, here [gmap string value];
      its values are JSON values (floats are outside the model);
    - a Python [str] is a Rocq [string], read as its UTF-8 bytes;
    - a Python dict keyed by arbitrary hashable values is a [gmap pykey _]:
      [True] and [1] (and [False] and [0]) are the same key, as in Python;
    - a method of [Blockchain] is a computation [M A]: it receives the object,
      returns a value or raises, and hands back the object as it left it
      (what was mutated before an exception stays mutated);
    - hashing, hex decoding, ECDSA, JSON serialisation and the clock are the
      collaborators of the code and are fields of [Platform]. *)

From Stdlib Require Import ZArith.
From stdpp Require Import base gmap strings list fin_maps pretty countable.

Open Scope string_scope.
Open Scope Z_scope.

(** ** Python values *)

#[warnings="-register-all"]
Inductive value : Type :=
| VNone
| VBool (b : bool)
| VInt (n : Z)
| VStr (s : string)
| VList (l : list value)
| VDict (d : list (string * value)).

(** The keys a dict can hold: [hash(True) == hash(1)] and [True == 1]. *)
Inductive pykey : Type :=
| KNone
| KInt (n : Z)
| KStr (s : string).

#[global] Instance pykey_eq_dec : EqDecision pykey.
Proof. solve_decision. Defined.

Definition pykey_to_sum (k : pykey) : unit + (Z + string) :=
  match k with
  | KNone => inl ()
  | KInt n => inr (inl n)
  | KStr s => inr (inr s)
  end.

Definition pykey_of_sum (x : unit + (Z + string)) : pykey :=
  match x with
  | inl _ => KNone
  | inr (inl n) => KInt n
  | inr (inr s) => KStr s
  end.

#[global] Instance pykey_countable : Countable pykey.
Proof.
  refine (inj_countable' pykey_to_sum pykey_of_sum _).
  intros []; reflexivity.
Defined.

(** Exceptions, by class. [ValueError] carries its message because
    [add_block] raises it with the validator's reason; [OtherError] stands for
    the exceptions of the ECDSA library other than [BadSignatureError]. *)
Inductive exn : Type :=
| KeyError (k : pykey)
| TypeError
| ValueError (msg : string)
| BadSignatureError
| OtherError (text : string).

Inductive result (A : Type) : Type :=
| Return (a : A)
| Raise (e : exn).
Arguments Return {A} a.
Arguments Raise {A} e.

(** [d.get(k)] on the association list of a nested JSON object. *)
Fixpoint dict_get (k : string) (d : list (string * value)) : option value :=
  match d with
  | [] => None
  | (k', v) :: r => if String.eqb k k' then Some v else dict_get k r
  end.

(** Python's [==] on values. *)
Fixpoint py_eq (a b : value) {struct a} : bool :=
  match a, b with
  | VNone, VNone => true
  | VBool x, VBool y => Bool.eqb x y
  | VBool x, VInt n => Z.eqb (Z.b2z x) n
  | VInt n, VBool x => Z.eqb n (Z.b2z x)
  | VInt m, VInt n => Z.eqb m n
  | VStr s, VStr t => String.eqb s t
  | VList l, VList l' =>
      (fix all2 (xs ys : list value) {struct xs} : bool :=
         match xs, ys with
         | [], [] => true
         | x :: xs', y :: ys' => py_eq x y && all2 xs' ys'
         | _, _ => false
         end) l l'
  | VDict d, VDict d' =>
      Nat.eqb (length d) (length d') &&
      (fix sub (kvs : list (string * value)) {struct kvs} : bool :=
         match kvs with
         | [] => true
         | (k, v) :: r =>
             match dict_get k d' with
             | Some v' => py_eq v v'
             | None => false
             end && sub r
         end) d
  | _, _ => false
  end.

(** Truth value of an object in a condition ([not x], [if x]). *)
Definition truthy (v : value) : bool :=
  match v with
  | VNone => false
  | VBool b => b
  | VInt n => negb (Z.eqb n 0)
  | VStr s => negb (String.eqb s "")
  | VList l => negb (bool_decide (length l = 0%nat))
  | VDict d => negb (bool_decide (length d = 0%nat))
  end.

(** [isinstance(v, str)] and [isinstance(v, int)] ([bool] is a subclass of [int]). *)
Definition is_str (v : value) : bool :=
  match v with VStr _ => true | _ => false end.

Definition is_int (v : value) : bool :=
  match v with VInt _ | VBool _ => true | _ => false end.

(** The integer an [int] (or [bool]) stands for in arithmetic. *)
Definition as_int (v : value) : option Z :=
  match v with
  | VInt n => Some n
  | VBool b => Some (Z.b2z b)
  | _ => None
  end.

(** The dict key of a value; lists and dicts are unhashable. *)
Definition py_hash (v : value) : option pykey :=
  match v with
  | VNone => Some KNone
  | VBool b => Some (KInt (Z.b2z b))
  | VInt n => Some (KInt n)
  | VStr s => Some (KStr s)
  | VList _ | VDict _ => None
  end.

(** [f"{v}"] for the values that reach the signed message: strings, integers
    and booleans, the field checks having run first. The rendering of lists
    and dicts is not modelled. *)
Definition py_format (v : value) : string :=
  match v with
  | VNone => "None"
  | VBool true => "True"
  | VBool false => "False"
  | VInt n => pretty n
  | VStr s => s
  | VList _ | VDict _ => ""
  end.

(** ** Collaborators *)

Class Platform : Type := {
  (** what [time.time()] returns *)
  time : Type;
  (** [bytes.fromhex(s)] on a [str]; raises [ValueError] on bad input *)
  bytes_fromhex : string → result (list Byte.byte);
  (** [hashlib.sha256(b).hexdigest()] *)
  sha256_hexdigest : list Byte.byte → string;
  (** [VerifyingKey.from_string(b, curve=SECP256k1)]; the key is kept as its bytes *)
  VerifyingKey_from_string : list Byte.byte → result (list Byte.byte);
  (** [vk.verify(signature, message)]: returns, or raises [BadSignatureError] *)
  vk_verify : list Byte.byte → list Byte.byte → list Byte.byte → result bool;
  (** [json.dumps(block, sort_keys=True)] of a block that has no ['hash'] yet,
      from its index, timestamp, transactions and prev_hash *)
  json_dumps_sorted : Z → time → list (gmap string value) → string → string;
  (** [str(e)] of a caught exception *)
  str_exception : exn → string;
}.

(** A stand-in platform for running the model on concrete inputs: the digest
    is not SHA-256, every text but ["zz"] decodes as hex to its own bytes, and
    a signature verifies exactly when it is the text ["ok"]. *)
Definition demo_platform : Platform := {|
  time := Z;
  bytes_fromhex := λ s,
    if String.eqb s "zz" then Raise (ValueError "non-hexadecimal number found")
    else Return (String.list_byte_of_string s);
  sha256_hexdigest := λ b, "h(" ++ String.string_of_list_byte b ++ ")";
  VerifyingKey_from_string := λ b, Return b;
  vk_verify := λ _ sg _,
    if String.eqb (String.string_of_list_byte sg) "ok" then Return true
    else Raise BadSignatureError;
  json_dumps_sorted := λ i t txs p,
    "{index:" ++ pretty i ++ ",prev_hash:" ++ p ++ ",timestamp:" ++ pretty t ++
    ",transactions:" ++ pretty (length txs) ++ "}";
  str_exception := λ e,
    match e with
    | ValueError m | OtherError m => m
    | KeyError _ => "key"
    | TypeError => "type"
    | BadSignatureError => "bad signature"
    end;
|}.

Definition SUPPLY_TOTAL : Z := 100000000.

(** ** Computations that read and write an object and may raise *)

Definition M (S A : Type) : Type := S → result A * S.

#[global] Instance M_ret {S} : MRet (M S) := λ A a self, (Return a, self).

#[global] Instance M_bind {S} : MBind (M S) :=
  λ A B k m self,
    match m self with
    | (Return a, self') => k a self'
    | (Raise e, self') => (Raise e, self')
    end.

Definition raise {S A} (e : exn) : M S A := λ self, (Raise e, self).

Definition lift {S A} (r : result A) : M S A := λ self, (r, self).

Definition get_self {S} : M S S := λ self, (Return self, self).

(** [try: body  except Exception as e: handler e] *)
Definition try_except {S A} (body : M S A) (handler : exn → M S A) : M S A :=
  λ self,
    match body self with
    | (Return a, self') => (Return a, self')
    | (Raise e, self') => handler e self'
    end.

(** [for x in l: body x] *)
Fixpoint for_each {S A} (body : A → M S unit) (l : list A) : M S unit :=
  match l with
  | [] => mret ()
  | x :: r => body x ;; for_each body r
  end.

(** ** Transactions *)

Abbreviation transaction := (gmap string value).

(** [tx.get(k)], [tx.get(k, d)] and [tx[k]] *)
Definition tx_get (tx : transaction) (k : string) : value := default VNone (tx !! k).

Definition tx_get_or (tx : transaction) (k : string) (d : value) : value :=
  default d (tx !! k).

Definition tx_item {S} (tx : transaction) (k : string) : M S value :=
  match tx !! k with
  | Some v => mret v
  | None => raise (KeyError (KStr k))
  end.

(** [tx.get("type", "token")] *)
Definition tx_type (tx : transaction) : value := tx_get_or tx "type" (VStr "token").

(** A value used as a dict key. *)
Definition key_of {S} (v : value) : M S pykey :=
  match py_hash v with
  | Some k => mret k
  | None => raise TypeError
  end.

(** A value used as the right operand of [int + _], [int - _], [int < _], [_ <= 0]. *)
Definition int_operand {S} (v : value) : M S Z :=
  match as_int v with
  | Some n => mret n
  | None => raise TypeError
  end.

Section Model.
Context `{P : Platform}.

(** ** Ledger data *)

(** A block, once its hash is stored. *)
Record Block : Type := {
  index : Z;
  timestamp : time;
  transactions : list transaction;
  prev_hash : string;
  hash : string;
}.

(** A record of [self.collectibles], with its five entries. *)
Record Collectible : Type := {
  c_id : value;
  c_name : value;
  c_owner : value;
  c_metadata : value;
  c_timestamp : time;
}.

Record Blockchain : Type := {
  chain : list Block;
  balances : gmap pykey Z;
  collectibles : gmap pykey Collectible;
}.

Definition set_balances (b : gmap pykey Z) : M Blockchain unit :=
  λ self, (Return (), {| chain := chain self; balances := b;
                         collectibles := collectibles self |}).

Definition set_collectibles (c : gmap pykey Collectible) : M Blockchain unit :=
  λ self, (Return (), {| chain := chain self; balances := balances self;
                         collectibles := c |}).

Definition set_chain (c : list Block) : M Blockchain unit :=
  λ self, (Return (), {| chain := c; balances := balances self;
                         collectibles := collectibles self |}).

(** Writing the three JSON files; the files are not part of the object. *)
Definition _persist : M Blockchain unit := mret ().

(** ** Utilities *)

(** [is_hex(s)]: [bytes.fromhex] raising anything gives [False]. *)
Definition is_hex (s : value) : bool :=
  match s with
  | VStr s =>
      match bytes_fromhex s with
      | Return _ => true
      | Raise _ => false
      end
  | _ => false
  end.

(** [bytes.fromhex(v)] on an arbitrary value *)
Definition fromhex {S} (v : value) : M S (list Byte.byte) :=
  match v with
  | VStr s => lift (bytes_fromhex s)
  | _ => raise TypeError
  end.

Definition address_from_pubkey_hex {S} (pubkey_hex : value) : M S string :=
  b ← fromhex pubkey_hex;
  mret (sha256_hexdigest b).

(** ** The validator *)

(** The two [except] clauses after the signature check. *)
Definition signature_handler (e : exn) : bool * string :=
  match e with
  | BadSignatureError => (false, "Firma inválida")
  | _ => (false, "Error verificando firma: " ++ str_exception e)
  end.

(** The body of the [if tx_type == "token" and tx['from'] != "GENESIS"] block.
    [Some verdict] is a [return] inside the block, [None] falls through. *)
Definition verify_token (tx : transaction) : M Blockchain (option (bool * string)) :=
  if negb (is_str (tx_get tx "from")) || negb (is_str (tx_get tx "to")) then
    mret (Some (false, "Campos 'from' y 'to' deben ser strings"))
  else
  bad_amount ← (if negb (is_int (tx_get tx "amount")) then mret true
                else amount ← tx_item tx "amount";
                     n ← int_operand amount;
                     mret (Z.leb n 0));
  if (bad_amount : bool) then
    mret (Some (false, "El campo 'amount' debe ser un entero positivo"))
  else
  bad_pubkey ← (if negb (is_str (tx_get tx "pubkey")) then mret true
                else pubkey ← tx_item tx "pubkey"; mret (negb (is_hex pubkey)));
  if (bad_pubkey : bool) then
    mret (Some (false, "El campo 'pubkey' debe ser un hex válido"))
  else
  bad_signature ← (if negb (is_str (tx_get tx "signature")) then mret true
                   else signature ← tx_item tx "signature";
                        mret (negb (is_hex signature)));
  if (bad_signature : bool) then
    mret (Some (false, "El campo 'signature' debe ser un hex válido"))
  else
  pubkey ← tx_item tx "pubkey";
  derived_from ← address_from_pubkey_hex pubkey;
  from ← tx_item tx "from";
  if negb (py_eq (VStr derived_from) from) then
    mret (Some (false, "La dirección 'from' no corresponde a la clave pública 'pubkey'"))
  else
  from ← tx_item tx "from";
  k ← key_of from;
  self ← get_self;
  amount ← tx_item tx "amount";
  n ← int_operand amount;
  if Z.ltb (default 0 (balances self !! k)) n then
    mret (Some (false, "Saldo insuficiente"))
  else
  try_except
    (pubkey ← tx_item tx "pubkey";
     pubkey_bytes ← fromhex pubkey;
     vk ← lift (VerifyingKey_from_string pubkey_bytes);
     from ← tx_item tx "from";
     to ← tx_item tx "to";
     amount ← tx_item tx "amount";
     let message := py_format from ++ py_format to ++ py_format amount in
     signature ← tx_item tx "signature";
     signature_bytes ← fromhex signature;
     _ ← lift (vk_verify vk signature_bytes (String.list_byte_of_string message));
     mret None)
    (λ e, mret (Some (signature_handler e))).

(** The body of the [if tx_type == "collectible_create"] block. *)
Definition verify_collectible_create (tx : transaction)
  : M Blockchain (option (bool * string)) :=
  bad_id ← (if negb (truthy (tx_get tx "id")) then mret true
            else id ← tx_item tx "id";
                 k ← key_of id;
                 self ← get_self;
                 mret (bool_decide (is_Some (collectibles self !! k))));
  if (bad_id : bool) then mret (Some (false, "ID inválido o ya existe"))
  else if negb (truthy (tx_get tx "to")) then mret (Some (false, "Propietario requerido"))
  else mret None.

(** The body of the [if tx_type == "collectible_transfer"] block. *)
Definition verify_collectible_transfer (tx : transaction)
  : M Blockchain (option (bool * string)) :=
  let cid := tx_get tx "id" in
  missing ← (if negb (truthy cid) then mret true
             else k ← key_of cid;
                  self ← get_self;
                  mret (negb (bool_decide (is_Some (collectibles self !! k)))));
  if (missing : bool) then mret (Some (false, "Coleccionable no existe"))
  else
  k ← key_of cid;
  self ← get_self;
  match collectibles self !! k with
  | None => raise (KeyError k)
  | Some c =>
      if negb (py_eq (c_owner c) (tx_get tx "from")) then mret (Some (false, "No eres el dueño"))
      else mret None
  end.

(** A guarded block of the validator: run it when its condition holds. *)
Definition when_block (cond : bool) (body : M Blockchain (option (bool * string)))
  : M Blockchain (option (bool * string)) :=
  if cond then body else mret None.

Definition verify_transaction (tx : transaction) : M Blockchain (bool * string) :=
  let tx_type := tx_type tx in
  is_user_token ← (if py_eq tx_type (VStr "token")
                   then from ← tx_item tx "from"; mret (negb (py_eq from (VStr "GENESIS")))
                   else mret false);
  r ← when_block is_user_token (verify_token tx);
  match r with
  | Some verdict => mret verdict
  | None =>
  r ← when_block (py_eq tx_type (VStr "collectible_create")) (verify_collectible_create tx);
  match r with
  | Some verdict => mret verdict
  | None =>
  r ← when_block (py_eq tx_type (VStr "collectible_transfer")) (verify_collectible_transfer tx);
  match r with
  | Some verdict => mret verdict
  | None => mret (true, "OK")
  end end end.

(** ** Building and applying a block *)

(** The loop body of the validation pass of [add_block]. *)
Definition validate_or_raise (tx : transaction) : M Blockchain unit :=
  '(ok, msg) ← verify_transaction tx;
  if negb ok then raise (ValueError msg) else mret ().

(** [self.balances[tx[who]] = self.balances.get(tx[who], 0) op tx['amount']],
    with [op] one of [-] and [+]. *)
Definition move_balance (tx : transaction) (who : string) (op : Z → Z → Z)
  : M Blockchain unit :=
  party ← tx_item tx who;
  k ← key_of party;
  self ← get_self;
  amount ← tx_item tx "amount";
  n ← int_operand amount;
  set_balances (<[k := op (default 0 (balances self !! k)) n]> (balances self)).

(** The state effect of one transaction; [now] is what [time.time()] returns
    while it is applied. *)
Definition apply_effect (now : time) (tx : transaction) : M Blockchain unit :=
  let tx_type := tx_type tx in
  if py_eq tx_type (VStr "token") then
    from ← tx_item tx "from";
    (if negb (py_eq from (VStr "GENESIS")) then move_balance tx "from" Z.sub else mret ());;
    move_balance tx "to" Z.add
  else if py_eq tx_type (VStr "collectible_create") then
    cid ← tx_item tx "id";
    to ← tx_item tx "to";
    k ← key_of cid;
    self ← get_self;
    set_collectibles
      (<[k := {| c_id := cid; c_name := tx_get tx "name"; c_owner := to;
                 c_metadata := tx_get_or tx "metadata" (VDict []);
                 c_timestamp := now |}]> (collectibles self))
  else if py_eq tx_type (VStr "collectible_transfer") then
    cid ← tx_item tx "id";
    to ← tx_item tx "to";
    k ← key_of cid;
    self ← get_self;
    match collectibles self !! k with
    | None => raise (KeyError k)
    | Some c =>
        set_collectibles
          (<[k := {| c_id := c.(c_id); c_name := c.(c_name); c_owner := to;
                     c_metadata := c.(c_metadata); c_timestamp := c.(c_timestamp) |}]>
             (collectibles self));;
        self ← get_self;
        match collectibles self !! k with
        | None => raise (KeyError k)
        | Some c =>
            set_collectibles
              (<[k := {| c_id := c.(c_id); c_name := c.(c_name); c_owner := c.(c_owner);
                         c_metadata := c.(c_metadata); c_timestamp := now |}]>
                 (collectibles self))
        end
    end
  else mret ().

(** The effect pass: the [i]-th transaction applied reads the clock at [clock i]. *)
Fixpoint apply_effects (clock : nat → time) (i : nat) (txs : list transaction)
  : M Blockchain unit :=
  match txs with
  | [] => mret ()
  | tx :: r => apply_effect (clock i) tx;; apply_effects clock (S i) r
  end.

(** The block of [add_block], with its hash. [clock 0] is the block's own
    reading of the clock. *)
Definition build_block (now : time) (chain : list Block) (txs : list transaction) : Block :=
  let index := Z.of_nat (length chain) + 1 in
  let prev_hash := match list.last chain with Some b => b.(hash) | None => "0" end in
  let block_string :=
    String.list_byte_of_string (json_dumps_sorted index now txs prev_hash) in
  {| index := index; timestamp := now; transactions := txs; prev_hash := prev_hash;
     hash := sha256_hexdigest block_string |}.

Definition add_block (clock : nat → time) (txs : list transaction) : M Blockchain string :=
  for_each validate_or_raise txs;;
  self ← get_self;
  let block := build_block (clock 0%nat) (chain self) txs in
  apply_effects clock 1 txs;;
  self ← get_self;
  set_chain (chain self ++ [block]);;
  _persist;;
  mret block.(hash).

(** ** Founder and genesis *)

(** What the bootstrap uses of the founder's wallet. *)
Record Wallet : Type := {
  address : string;
  public_key_hex : string;
}.

Definition genesis_tx (fundador : Wallet) : transaction :=
  <["type" := VStr "token"]> (
  <["from" := VStr "GENESIS"]> (
  <["to" := VStr fundador.(address)]> (
  <["amount" := VInt SUPPLY_TOTAL]> (
  <["pubkey" := VStr fundador.(public_key_hex)]> (
  <["signature" := VStr "GENESIS"]> ∅))))).

(** The part of [ensure_founder_and_genesis] after the founder's wallet has
    been created or loaded. *)
Definition ensure_founder_and_genesis (clock : nat → time) (fundador : Wallet)
  : M Blockchain unit :=
  self ← get_self;
  if bool_decide (length (chain self) = 0%nat) then
    add_block clock [genesis_tx fundador];;
    self ← get_self;
    set_balances (<[KStr fundador.(address) := SUPPLY_TOTAL]> (balances self));;
    _persist
  else mret ().

(** [sum(self.balances.values())] *)
Definition sum_balances (b : gmap pykey Z) : Z := map_fold (λ _ v acc, v + acc) 0 b.

End Model.

(** ** The earlier ledger of [MCoins.py]

    Its [add_block] builds the block with the same statements as the one
    above ([build_block]), validates nothing and knows only token transfers. *)
Module MCoins.
Section Model.
Context `{P : Platform}.

Record Blockchain : Type := {
  chain : list Block;
  balances : gmap pykey Z;
}.

Definition set_balances (b : gmap pykey Z) : M Blockchain unit :=
  λ self, (Return (), {| chain := chain self; balances := b |}).

Definition set_chain (c : list Block) : M Blockchain unit :=
  λ self, (Return (), {| chain := c; balances := balances self |}).

Definition move_balance (tx : transaction) (who : string) (op : Z → Z → Z)
  : M Blockchain unit :=
  party ← tx_item tx who;
  k ← key_of party;
  self ← get_self;
  amount ← tx_item tx "amount";
  n ← int_operand amount;
  set_balances (<[k := op (default 0 (balances self !! k)) n]> (balances self)).

Definition update_balances (tx : transaction) : M Blockchain unit :=
  from ← tx_item tx "from";
  (if negb (py_eq from (VStr "GENESIS")) then move_balance tx "from" Z.sub else mret ());;
  move_balance tx "to" Z.add.

Definition add_block (now : time) (txs : list transaction) : M Blockchain string :=
  self ← get_self;
  let block := build_block now (chain self) txs in
  for_each update_balances txs;;
  self ← get_self;
  set_chain (chain self ++ [block]);;
  mret block.(hash).

(** [Blockchain(founder_wallet, supply_total)]: the object [__init__] leaves,
    or the exception it raises. *)
Definition init (now : time) (founder_wallet : Wallet) (supply_total : Z)
  : result unit * Blockchain :=
  let self := {| chain := []; balances := {[KStr founder_wallet.(address) := supply_total]} |} in
  (add_block now
     [<["from" := VStr "GENESIS"]> (
      <["to" := VStr founder_wallet.(address)]> (
      <["amount" := VInt supply_total]> (
      <["pubkey" := VStr founder_wallet.(public_key_hex)]> (
      <["signature" := VStr "GENESIS"]> ∅))))];; mret ()) self.

End Model.
End MCoins.

(** ** Properties of computations and ledgers *)

Section Properties.
Context `{P : Platform}.

(** A computation that hands the object back as it received it. *)
Definition readonly {S A} (m : M S A) : Prop := ∀ self, (m self).2 = self.

(** A computation that leaves the chain of the ledger alone. *)
Definition keeps_chain {A} (m : M Blockchain A) : Prop :=
  ∀ self, chain (m self).2 = chain self.

(** A computation that leaves the balances alone. *)
Definition keeps_balances {A} (m : M Blockchain A) : Prop :=
  ∀ self, balances (m self).2 = balances self.

(** The stored hash is the digest of the serialisation of the other fields. *)
Definition stored_hash_ok (b : Block) : Prop :=
  b.(hash) =
  sha256_hexdigest
    (String.list_byte_of_string
       (json_dumps_sorted b.(index) b.(timestamp) b.(transactions) b.(prev_hash))).

(** Position, hash and link of every block of a chain. *)
Definition chain_linked (c : list Block) : Prop :=
  ∀ (i : nat) (b : Block), c !! i = Some b →
    b.(index) = Z.of_nat i + 1 ∧
    stored_hash_ok b ∧
    (i = 0%nat → b.(prev_hash) = "0") ∧
    (∀ (j : nat) (b' : Block), i = S j → c !! j = Some b' → b.(prev_hash) = b'.(hash)).

(** Ledgers reached from an empty chain by calls of [add_block], whatever
    each call returned or raised. *)
Inductive reachable : Blockchain → Prop :=
| reachable_empty self : chain self = [] → reachable self
| reachable_add_block self clock txs r self' :
    reachable self → add_block clock txs self = (r, self') → reachable self'.

(** The same for the ledger of [MCoins.py]. *)
Inductive reachable_legacy : MCoins.Blockchain → Prop :=
| reachable_legacy_empty self : MCoins.chain self = [] → reachable_legacy self
| reachable_legacy_add_block self now txs r self' :
    reachable_legacy self → MCoins.add_block now txs self = (r, self') →
    reachable_legacy self'.

(** A token transaction whose sender is the sentinel ["GENESIS"]. *)
Definition is_genesis_token (tx : transaction) : bool :=
  py_eq (tx_type tx) (VStr "token") && py_eq (tx_get tx "from") (VStr "GENESIS").

(** A transaction that passed the validator against [pre] and is not a
    GENESIS token. *)
Definition conserving (pre : Blockchain) (tx : transaction) : Prop :=
  is_genesis_token tx = false ∧ ∃ m, (verify_transaction tx pre).1 = Return (true, m).

(** Ledgers reached from [self0] by calls of [add_block] (whatever they
    returned) on batches without a GENESIS token transaction. *)
Inductive reachable_without_genesis (self0 : Blockchain) : Blockchain → Prop :=
| rwg_start : reachable_without_genesis self0 self0
| rwg_add_block self clock txs r self' :
    reachable_without_genesis self0 self →
    Forall (λ tx, is_genesis_token tx = false) txs →
    add_block clock txs self = (r, self') →
    reachable_without_genesis self0 self'.

(** Ledgers reached from [self0] by calls of [add_block] that returned a hash. *)
Inductive reachable_by_success (self0 : Blockchain) : Blockchain → Prop :=
| rbs_start : reachable_by_success self0 self0
| rbs_add_block self clock txs h self' :
    reachable_by_success self0 self →
    add_block clock txs self = (Return h, self') →
    reachable_by_success self0 self'.

(** The ledger with one more block. *)
Definition with_block (b : Block) (self : Blockchain) : Blockchain :=
  {| chain := chain self ++ [b]; balances := balances self;
     collectibles := collectibles self |}.

(** A token transaction that gets through the field checks of the validator:
    string parties other than the sentinel, a positive integer amount, and
    hex-decodable public key and signature. *)
Definition well_formed_token (tx : transaction) (from to : string) (amount : Z)
    (pubkey signature : string) : Prop :=
  tx_type tx = VStr "token" ∧
  tx !! "from" = Some (VStr from) ∧ from ≠ "GENESIS" ∧
  tx !! "to" = Some (VStr to) ∧
  tx !! "amount" = Some (VInt amount) ∧ 0 < amount ∧
  tx !! "pubkey" = Some (VStr pubkey) ∧ is_hex (VStr pubkey) = true ∧
  tx !! "signature" = Some (VStr signature) ∧ is_hex (VStr signature) = true.

(** The balances after [amount] has moved from [from] to [to]: the debit
    first, then the credit. *)
Definition transfer (from to : pykey) (amount : Z) (b : gmap pykey Z) : gmap pykey Z :=
  let b1 := <[from := default 0 (b !! from) - amount]> b in
  <[to := default 0 (b1 !! to) + amount]> b1.

(** The ledger with other balances. *)
Definition with_balances (b : gmap pykey Z) (self : Blockchain) : Blockchain :=
  {| chain := chain self; balances := b; collectibles := collectibles self |}.

(** A token transaction between two string parties, the sender not the
    sentinel, for an integer amount ([n] is that integer; the amount may be a
    [bool]). *)
Definition movable_token (tx : transaction) (from to : string) (n : Z) : Prop :=
  tx_type tx = VStr "token" ∧
  tx !! "from" = Some (VStr from) ∧ from ≠ "GENESIS" ∧
  tx !! "to" = Some (VStr to) ∧
  ∃ amount, tx !! "amount" = Some amount ∧ as_int amount = Some n.

(** A transaction that carries a ['type'] other than the three the ledger knows. *)
Definition unknown_type (tx : transaction) : Prop :=
  ∃ v, tx !! "type" = Some v ∧
       v ≠ VStr "token" ∧ v ≠ VStr "collectible_create" ∧ v ≠ VStr "collectible_transfer".

(** The address the validator derives from a hex public key. *)
Definition derived_address (pubkey : string) : option string :=
  match bytes_fromhex pubkey with
  | Return b => Some (sha256_hexdigest b)
  | Raise _ => None
  end.

(** What the [try] block of the validator makes of a signature. *)
Definition signature_verdict (from to : string) (amount : Z) (pubkey signature : string)
  : option (bool * string) :=
  match bytes_fromhex pubkey with
  | Raise e => Some (signature_handler e)
  | Return pkb =>
      match VerifyingKey_from_string pkb with
      | Raise e => Some (signature_handler e)
      | Return vk =>
          match bytes_fromhex signature with
          | Raise e => Some (signature_handler e)
          | Return sgb =>
              match vk_verify vk sgb
                      (String.list_byte_of_string (from ++ to ++ pretty amount)) with
              | Return _ => None
              | Raise e => Some (signature_handler e)
              end
          end
      end
  end.

Definition empty_ledger : Blockchain :=
  {| chain := []; balances := ∅; collectibles := ∅ |}.

End Properties.

(** ** Sample data on the stand-in platform *)

Module Demo.

Definition clock : nat → Z := Z.of_nat.

Definition fundador : Wallet := {| address := "h(pk)"; public_key_hex := "pk" |}.

Definition token (from to : string) (amount : Z) (pubkey signature : string) : transaction :=
  <["type" := VStr "token"]> (
  <["from" := VStr from]> (
  <["to" := VStr to]> (
  <["amount" := VInt amount]> (
  <["pubkey" := VStr pubkey]> (
  <["signature" := VStr signature]> ∅))))).

(** The ledger after the bootstrap of an empty one. *)
Definition bootstrapped : @Blockchain demo_platform :=
  (@ensure_founder_and_genesis demo_platform clock fundador empty_ledger).2.

(** A payment signed by the founder. *)
Definition pay (to : string) (amount : Z) : transaction :=
  token "h(pk)" to amount "pk" "ok".

(** A GENESIS token submitted after the bootstrap, as [/transaction] lets a
    client post it. *)
Definition mint : transaction := token "GENESIS" "mallory" 5 "pk" "GENESIS".

(** A payment in the founder's name under somebody else's key. *)
Definition forged : transaction := token "h(pk)" "mallory" 10 "other" "ok".

Definition create_art : transaction :=
  <["type" := VStr "collectible_create"]> (
  <["id" := VStr "art1"]> (
  <["to" := VStr "A"]> (
  <["name" := VStr "Piece"]> ∅))).

Definition transfer_art : transaction :=
  <["type" := VStr "collectible_transfer"]> (
  <["id" := VStr "art1"]> (
  <["from" := VStr "A"]> (
  <["to" := VStr "B"]> ∅))).

Definition memo : transaction :=
  <["type" := VStr "memo"]> (<["text" := VStr "hello"]> ∅).

Definition paid : @Blockchain demo_platform :=
  (@add_block demo_platform clock [pay "A" 1000] bootstrapped).2.

Definition inflated : @Blockchain demo_platform :=
  (@add_block demo_platform clock [mint] bootstrapped).2.

Definition with_art : @Blockchain demo_platform :=
  (@add_block demo_platform clock [create_art] bootstrapped).2.

(** The record of [art1] in [with_art]; it was created at clock reading 1. *)
Definition art : @Collectible demo_platform :=
  @Build_Collectible demo_platform (VStr "art1") (VStr "Piece") (VStr "A") (VDict []) 1.

Definition art_moved : @Blockchain demo_platform :=
  (@add_block demo_platform clock [transfer_art] with_art).2.

Definition legacy : @MCoins.Blockchain demo_platform :=
  (@MCoins.init demo_platform 0 fundador 50000000).2.

(** Two blocks grown from the empty ledger by [add_block] alone. *)
Definition grown : @Blockchain demo_platform :=
  (@add_block demo_platform clock [pay "A" 1000]
     (@add_block demo_platform clock [genesis_tx fundador] empty_ledger).2).2.

(** One block grown from an empty chain by the [add_block] of [MCoins.py]. *)
Definition legacy_grown : @MCoins.Blockchain demo_platform :=
  (@MCoins.add_block demo_platform 0 [pay "A" 1000]
     {| MCoins.chain := []; MCoins.balances := {[KStr "h(pk)" := 50000000]} |}).2.

End Demo.

(** * More of the ledger: what a sequence of calls keeps *)

Section MoreProperties.
Context `{P : Platform}.

(** Ledgers reached from [self0] by calls of [add_block], whatever each call
    returned or raised. *)
Inductive reachable_from (self0 : Blockchain) : Blockchain → Prop :=
| reachable_from_start : reachable_from self0 self0
| reachable_from_add_block self clock txs r self' :
    reachable_from self0 self →
    add_block clock txs self = (r, self') →
    reachable_from self0 self'.

(** A transaction that passed the validator against [pre]. *)
Definition validated (pre : Blockchain) (tx : transaction) : Prop :=
  ∃ m, (verify_transaction tx pre).1 = Return (true, m).

(** The entries of a collectible that no transfer writes. *)
Definition same_identity (c c' : Collectible) : Prop :=
  c_id c' = c_id c ∧ c_name c' = c_name c ∧ c_metadata c' = c_metadata c.

(** Every collectible of [old] is still there in [new], with the same id,
    name and metadata. *)
Definition collectibles_kept (old new : gmap pykey Collectible) : Prop :=
  ∀ k c, old !! k = Some c → ∃ c', new !! k = Some c' ∧ same_identity c c'.

(** No balance is below zero. *)
Definition solvent (b : gmap pykey Z) : Prop := ∀ k v, b !! k = Some v → 0 ≤ v.

(** The ledger with other collectibles. *)
Definition with_collectibles (c : gmap pykey Collectible) (self : Blockchain) : Blockchain :=
  {| chain := chain self; balances := balances self; collectibles := c |}.

(** The record a collectible_create writes at clock reading [now]. *)
Definition created (now : time) (tx : transaction) (cid to : value) : Collectible :=
  {| c_id := cid; c_name := tx_get tx "name"; c_owner := to;
     c_metadata := tx_get_or tx "metadata" (VDict []); c_timestamp := now |}.

(** The record a collectible_transfer leaves at clock reading [now]. *)
Definition moved (now : time) (to : value) (c : Collectible) : Collectible :=
  {| c_id := c_id c; c_name := c_name c; c_owner := to;
     c_metadata := c_metadata c; c_timestamp := now |}.

(** A transfer as the ledger of [MCoins.py] reads it: it looks at ['from'],
    ['to'] and ['amount'] only. *)
Definition plain_transfer (tx : transaction) (from to : string) (n : Z) : Prop :=
  tx !! "from" = Some (VStr from) ∧ from ≠ "GENESIS" ∧
  tx !! "to" = Some (VStr to) ∧
  ∃ amount, tx !! "amount" = Some amount ∧ as_int amount = Some n.

End MoreProperties.

(** * The HTTP routes of the core

    A route is a computation on the ledger that returns the pair Flask is
    given: the dict handed to [jsonify] and the status code. The request body
    is a JSON object, [request.get_json() or {}] having replaced an absent one
    by the empty dict. *)

Section Routes.
Context `{P : Platform}.

(** The dicts the routes hand to [jsonify]. *)
Inductive body : Type :=
| ErrorBody (message : string)
    (* {"status": "error", "message": ...} *)
| TransactionBody (hash : string) (balances : gmap pykey Z)
    (collectibles : gmap pykey Collectible)
    (* {"status": "success", "hash": ..., "balances": ..., "collectibles": ...} *)
| FundBody (hash : string) (balances : gmap pykey Z).
    (* {"status": "success", "hash": ..., "balances": ...} *)

Definition response : Type := body * Z.

(** What the routes use of the Python runtime and of Flask. *)
Class Runtime : Type := {
  (** [int(s)] on a [str]: the integer, or the [ValueError] *)
  int_of_str : string → result Z;
  (** the exception [jsonify] raises on a success dict, if it raises one (a
      dict whose keys do not sort, for instance) *)
  jsonify_raises : body → option exn;
}.

Context `{R : Runtime}.

(** [int(v)] *)
Definition py_int (v : value) : result Z :=
  match v with
  | VInt n => Return n
  | VBool b => Return (Z.b2z b)
  | VStr s => int_of_str s
  | VNone | VList _ | VDict _ => Raise TypeError
  end.

(** [jsonify(b)]; an error dict, two strings, always serialises. *)
Definition jsonify (b : body) : result body :=
  match b with
  | ErrorBody _ => Return b
  | _ => match jsonify_raises b with
         | Some e => Raise e
         | None => Return b
         end
  end.

(** [[k for k in required if k not in data]] *)
Definition missing_fields (required : list string) (data : transaction) : list string :=
  filter (λ k, data !! k = None) required.

Definition error_response {S} (message : string) (status : Z) : M S response :=
  mret (ErrorBody message, status).

(** The dict of a token transaction as [new_transaction] builds it. *)
Definition token_tx (from to : value) (amount : Z) (pubkey signature : value) : transaction :=
  <["type" := VStr "token"]> (
  <["from" := from]> (
  <["to" := to]> (
  <["amount" := VInt amount]> (
  <["pubkey" := pubkey]> (
  <["signature" := signature]> ∅))))).

Definition collectible_create_tx (id to name metadata : value) : transaction :=
  <["type" := VStr "collectible_create"]> (
  <["id" := id]> (
  <["to" := to]> (
  <["name" := name]> (
  <["metadata" := metadata]> ∅)))).

Definition collectible_transfer_tx (id from to : value) : transaction :=
  <["type" := VStr "collectible_transfer"]> (
  <["id" := id]> (
  <["from" := from]> (
  <["to" := to]> ∅))).

(** The [try] body of [new_transaction] up to the success response:
    [inl] is a response returned early, [inr] the hash of the new block. *)
Definition submit (clock : nat → time) (data : transaction)
  : M Blockchain (response + string) :=
  let tx_type := tx_type data in
  if py_eq tx_type (VStr "token") then
    match missing_fields ["from"; "to"; "amount"; "pubkey"; "signature"] data with
    | (_ :: _) as missing =>
        r ← error_response ("Faltan campos: " ++ String.concat ", " missing) 400;
        mret (inl r)
    | [] =>
        from ← tx_item data "from";
        to ← tx_item data "to";
        amount ← tx_item data "amount";
        amount ← lift (py_int amount);
        pubkey ← tx_item data "pubkey";
        signature ← tx_item data "signature";
        block_hash ← add_block clock [token_tx from to amount pubkey signature];
        mret (inr block_hash)
    end
  else if py_eq tx_type (VStr "collectible_create") then
    match missing_fields ["id"; "to"; "name"] data with
    | (_ :: _) as missing =>
        r ← error_response ("Faltan campos: " ++ String.concat ", " missing) 400;
        mret (inl r)
    | [] =>
        id ← tx_item data "id";
        to ← tx_item data "to";
        name ← tx_item data "name";
        block_hash ← add_block clock
          [collectible_create_tx id to name (tx_get_or data "metadata" (VDict []))];
        mret (inr block_hash)
    end
  else if py_eq tx_type (VStr "collectible_transfer") then
    match missing_fields ["id"; "from"; "to"] data with
    | (_ :: _) as missing =>
        r ← error_response ("Faltan campos: " ++ String.concat ", " missing) 400;
        mret (inl r)
    | [] =>
        id ← tx_item data "id";
        from ← tx_item data "from";
        to ← tx_item data "to";
        block_hash ← add_block clock [collectible_transfer_tx id from to];
        mret (inr block_hash)
    end
  else r ← error_response "Tipo de transacción desconocido" 400; mret (inl r).

(** The two [except] clauses of the routes. *)
Definition route_handler (e : exn) : M Blockchain response :=
  match e with
  | ValueError msg => error_response msg 400
  | _ => error_response ("Error inesperado: " ++ str_exception e) 400
  end.

(** [POST /transaction] *)
Definition new_transaction (clock : nat → time) (data : transaction)
  : M Blockchain response :=
  try_except
    (r ← submit clock data;
     match r with
     | inl early => mret early
     | inr block_hash =>
         self ← get_self;
         b ← lift (jsonify (TransactionBody block_hash (balances self) (collectibles self)));
         mret (b, 201)
     end)
    route_handler.

End Routes.

(** * Wallets

    [class Wallet] of [MCoinsBlockChain.py] and of [WalletServer.py] (the two
    differ in [export] only). Key derivation and signing are the ECDSA
    library's; a signature depends on the randomness [sign] draws. *)

Section Wallets.
Context `{P : Platform}.

Class Ecdsa : Type := {
  (** the randomness one call of [SigningKey.sign] draws *)
  entropy : Type;
  (** [hashlib.sha256(b).digest()] *)
  sha256_digest : list Byte.byte → list Byte.byte;
  (** [SigningKey.from_string(seed, curve=SECP256k1)], the key kept as its bytes *)
  SigningKey_from_string : list Byte.byte → result (list Byte.byte);
  (** [sk.get_verifying_key().to_string()] *)
  verifying_key_bytes : list Byte.byte → list Byte.byte;
  (** [sk.sign(message)] *)
  sk_sign : list Byte.byte → list Byte.byte → entropy → list Byte.byte;
  (** [b.hex()] *)
  bytes_hex : list Byte.byte → string;
}.

Context `{E : Ecdsa}.

(** A [Wallet] object. [w_address] is a value because the callers overwrite
    it with what a JSON file holds. *)
Record WalletObject : Type := {
  w_mnemonic : string;
  w_private_key : list Byte.byte;
  w_public_key : list Byte.byte;
  w_address : value;
}.

(** [Wallet(mnemonic)]. [generated] is what [generate_mnemonic(12)] returns
    when it is called, that is when [mnemonic] is [None], empty or otherwise
    falsy. A truthy mnemonic that is not a string has no [encode]: the
    [AttributeError] is written [OtherError]. *)
Definition Wallet_init (mnemonic : value) (generated : string) : result WalletObject :=
  let chosen :=
    if truthy mnemonic then
      match mnemonic with
      | VStr m => Return m
      | _ => Raise (OtherError "AttributeError")
      end
    else Return generated in
  match chosen with
  | Raise e => Raise e
  | Return m =>
      let seed := sha256_digest (String.list_byte_of_string m) in
      match SigningKey_from_string seed with
      | Raise e => Raise e
      | Return sk =>
          let pk := verifying_key_bytes sk in
          Return {| w_mnemonic := m; w_private_key := sk; w_public_key := pk;
                    w_address := VStr (sha256_hexdigest pk) |}
      end
  end.

(** [w.sign(from_addr, to_addr, amount)] *)
Definition Wallet_sign (w : WalletObject) (from_addr to_addr : value) (amount : Z)
    (k : entropy) : string :=
  let message := py_format from_addr ++ py_format to_addr ++ py_format (VInt amount) in
  bytes_hex (sk_sign w.(w_private_key) (String.list_byte_of_string message) k).

(** [w.public_key.to_string().hex()] *)
Definition Wallet_public_key_hex (w : WalletObject) : string := bytes_hex w.(w_public_key).

(** [w.export()] of [WalletServer.py]; the one of [MCoinsBlockChain.py] has
    ["name": "GenWallet"] besides. *)
Definition Wallet_export (w : WalletObject) : transaction :=
  <["mnemonic" := VStr w.(w_mnemonic)]> (
  <["address" := w.(w_address)]> (
  <["private_key" := VStr (bytes_hex w.(w_private_key))]> (
  <["public_key" := VStr (Wallet_public_key_hex w)]> ∅))).

Context {R : @Runtime P}.

(** [POST /fund]. [fundador_data] is the JSON object that
    [load_json(FOUNDER_WALLET_FILE, None)] returns, [None] when the file is
    missing or unreadable or holds [null] (a file holding a list, a string or
    a number is not modelled); [generated] and [k] are the random draws of
    [Wallet] and of [sign]. *)
Definition fund_user (clock : nat → time) (data : transaction)
    (fundador_data : option transaction) (generated : string) (k : entropy)
  : M Blockchain response :=
  let to_addr := tx_get data "to" in
  let amount := tx_get data "amount" in
  if negb (is_str to_addr) || negb (truthy to_addr) then
    error_response "Campo 'to' requerido (string)" 400
  else
  match py_int amount with
  | Raise _ => error_response "Campo 'amount' debe ser entero positivo" 400
  | Return amount =>
  if Z.leb amount 0 then error_response "Campo 'amount' debe ser entero positivo" 400
  else
  match fundador_data with
  | None => error_response "Wallet del fundador no disponible" 500
  | Some fundador_data =>
  if bool_decide (fundador_data = ∅) ||
     bool_decide (fundador_data !! "mnemonic" = None) ||
     bool_decide (fundador_data !! "address" = None)
  then error_response "Wallet del fundador no disponible" 500
  else
  mnemonic ← tx_item fundador_data "mnemonic";
  fundador ← lift (Wallet_init mnemonic generated);
  address ← tx_item fundador_data "address";
  let signature := Wallet_sign fundador address to_addr amount k in
  let tx := token_tx address to_addr amount
              (VStr (Wallet_public_key_hex fundador)) (VStr signature) in
  try_except
    (block_hash ← add_block clock [tx];
     self ← get_self;
     b ← lift (jsonify (FundBody block_hash (balances self)));
     mret (b, 201))
    route_handler
  end end.

End Wallets.

Section FundProperties.
Context `{P : Platform} {E : Ecdsa}.

(** The founder's wallet file agrees with the wallet its mnemonic gives: the
    mnemonic is a non-empty string, the address is the hash of the public
    key, and the address is not the sentinel. *)
Definition founder_file_of (fundador_data : transaction) (generated : string)
    (w : WalletObject) (address : string) : Prop :=
  ∃ mnemonic,
    fundador_data !! "mnemonic" = Some (VStr mnemonic) ∧ mnemonic ≠ "" ∧
    fundador_data !! "address" = Some (VStr address) ∧
    Wallet_init (VStr mnemonic) generated = Return w ∧
    address = sha256_hexdigest w.(w_public_key) ∧ address ≠ "GENESIS".

(** The library functions behave on this wallet and this message as they
    should: hex text decodes to the bytes it encodes, the public key bytes
    make a verifying key, and that key accepts the signature the private key
    made. *)
Definition ecdsa_agrees (w : WalletObject) (message : string) (k : entropy) : Prop :=
  let signature := sk_sign w.(w_private_key) (String.list_byte_of_string message) k in
  bytes_fromhex (bytes_hex w.(w_public_key)) = Return w.(w_public_key) ∧
  bytes_fromhex (bytes_hex signature) = Return signature ∧
  ∃ vk accepted,
    VerifyingKey_from_string w.(w_public_key) = Return vk ∧
    vk_verify vk signature (String.list_byte_of_string message) = Return accepted.

End FundProperties.

(** * The wallet server ([WalletServer.py])

    The state is the module's [users]: user names to the dicts that
    [export()] made ([users.json] holding anything else is not modelled).
    [requests.post] to the core is a function of the server's surroundings:
    it gives the JSON and the status code of the answer, or raises. *)

Abbreviation Users := (gmap string transaction).

Section WalletServer.
Context `{P : Platform} {E : Ecdsa} {R : @Runtime P}.
Context {core_json : Type} (post : transaction → result (core_json * Z)).

(** The dicts the routes hand to [jsonify]. *)
Inductive WalletBody : Type :=
| WalletError (message : string)
    (* {"status": "error", "message": ...} *)
| UserCreated (username mnemonic : string) (address : value) (public_key : string)
    (* {"status": "success", "username": ..., "mnemonic": ..., "address": ...,
        "public_key": ...} *)
| CoreAnswer (json : core_json).
    (* r.json() *)

(** [username not in users] *)
Definition ensure_username_available (username : string) : M Users bool :=
  users ← get_self;
  mret (bool_decide (users !! username = None)).

(** [get_wallet_by_username(username)]; [generated] is what
    [generate_mnemonic(12)] returns if [Wallet] calls it. *)
Definition get_wallet_by_username (username : value) (generated : string)
  : M Users (option WalletObject) :=
  users ← get_self;
  k ← key_of username;
  match (match k with KStr name => users !! name | _ => None end) with
  | None => mret None
  | Some data =>
      if bool_decide (data = ∅) || bool_decide (data !! "mnemonic" = None) then mret None
      else
        mnemonic ← tx_item data "mnemonic";
        w ← lift (Wallet_init mnemonic generated);
        mret (Some {| w_mnemonic := w.(w_mnemonic);
                      w_private_key := w.(w_private_key);
                      w_public_key := w.(w_public_key);
                      w_address := tx_get_or data "address" w.(w_address) |})
  end.

(** [users[username] = entry], and [save_json(USERS_FILE, users)] *)
Definition set_user (username : string) (entry : transaction) : M Users unit :=
  λ users, (Return (), <[username := entry]> users).

(** [POST /user/create] *)
Definition create_user (data : transaction) (generated : string)
  : M Users (WalletBody * Z) :=
  let username := tx_get data "username" in
  match username with
  | VStr name =>
      if negb (truthy username) then mret (WalletError "username requerido", 400)
      else
        available ← ensure_username_available name;
        if negb available then mret (WalletError "username ya existe", 400)
        else
          wallet ← lift (Wallet_init VNone generated);
          set_user name (Wallet_export wallet);;
          mret (UserCreated name wallet.(w_mnemonic) wallet.(w_address)
                  (Wallet_public_key_hex wallet), 201)
  | _ => mret (WalletError "username requerido", 400)
  end.

(** The dict [send_tx] posts to the core; it carries no ['type']. *)
Definition transfer_request (w : WalletObject) (to_addr : value) (amount : Z)
    (k : entropy) : transaction :=
  <["from" := w.(w_address)]> (
  <["to" := to_addr]> (
  <["amount" := VInt amount]> (
  <["pubkey" := VStr (Wallet_public_key_hex w)]> (
  <["signature" := VStr (Wallet_sign w w.(w_address) to_addr amount k)]> ∅)))).

(** [POST /tx/send] *)
Definition send_tx (data : transaction) (generated : string) (k : entropy)
  : M Users (WalletBody * Z) :=
  let username := tx_get data "username" in
  let to_addr := tx_get data "to" in
  let amount := tx_get data "amount" in
  if negb (truthy username) || negb (truthy to_addr) then
    mret (WalletError "Campos requeridos", 400)
  else
  match py_int amount with
  | Raise _ => mret (WalletError "amount inválido", 400)
  | Return amount =>
  if Z.leb amount 0 then mret (WalletError "amount inválido", 400)
  else
  w ← get_wallet_by_username username generated;
  match w with
  | None => mret (WalletError "usuario no encontrado", 404)
  | Some w =>
      match post (transfer_request w to_addr amount k) with
      | Return (json, status_code) => mret (CoreAnswer json, status_code)
      | Raise e =>
          mret (WalletError ("Error conectando al core: " ++ str_exception e), 502)
      end
  end
  end.


End WalletServer.

(** * The exchange ([ExchangeServer.py])

    The order book and the list of trades are the module's globals; the
    matching engines are computations on them. Prices are floats: they are
    kept abstract, with the one comparison the engines make. An order is a
    distinct object with its own uuid, so [==] between the orders of a book is
    modelled as equality of the records. *)

#[global] Instance value_eq_dec : EqDecision value.
Proof.
  refine (fix go (a b : value) {struct a} : Decision (a = b) :=
    match a, b with
    | VNone, VNone => left _
    | VBool x, VBool y => cast_if (decide (x = y))
    | VInt m, VInt n => cast_if (decide (m = n))
    | VStr s, VStr t => cast_if (decide (s = t))
    | VList l, VList l' => cast_if (@list_eq_dec _ go l l')
    | VDict d, VDict d' => cast_if (@list_eq_dec _ (@prod_eq_dec _ _ _ go) d d')
    | _, _ => right _
    end); congruence.
Defined.

(** [l.remove(x)]: without the first element equal to [x], or [ValueError]. *)
Fixpoint list_remove {A} `{EqDecision A} (x : A) (l : list A) : result (list A) :=
  match l with
  | [] => Raise (ValueError "list.remove(x): x not in list")
  | y :: r =>
      if decide (y = x) then Return r
      else match list_remove x r with
           | Return r' => Return (y :: r')
           | Raise e => Raise e
           end
  end.

Module Exchange.
Section Model.

(** JSON values as the exchange handles them, the results of [time.time()]
    and Python floats: the engine stores them and compares them, no more. *)
Context {json time float : Type}.
Context `{!EqDecision json} `{!EqDecision time} `{!EqDecision float}.

Context
  (** [a == b] on two JSON values *)
  (json_eq : json → json → bool)
  (** [None], a [str] and an [int] as JSON values *)
  (json_null : json) (json_str : string → json) (json_int : Z → json)
  (** [int(v)] and [float(v)] *)
  (int_ : json → result Z) (float_ : json → result float)
  (** [a >= b] on two prices *)
  (price_ge : float → float → bool).

(** An order of the token books. Every order carries a fresh [uuid4] as
    ["id"], so two order dicts are [==] when they are the same order. *)
Record Order : Type := {
  id : string;
  user : json;
  type : json;
  amount : Z;
  price : float;
  timestamp : time;
}.

(** An order of the collectible books. *)
Record CollectibleOrder : Type := {
  c_id : string;
  c_user : json;
  c_type : json;
  collectible_id : json;
  c_price : float;
  c_timestamp : time;
}.

#[global] Instance Order_eq_dec : EqDecision Order.
Proof. solve_decision. Defined.

#[global] Instance CollectibleOrder_eq_dec : EqDecision CollectibleOrder.
Proof. solve_decision. Defined.

(** A trade, with its ["type"] as constructor. *)
Inductive Trade : Type :=
| TokenTrade (buy_user sell_user : json) (amount : Z) (price : float)
    (timestamp : time) (blockchain_result : json)
| CollectibleTrade (buy_user sell_user collectible_id : json) (price : float)
    (timestamp : time) (blockchain_result : json).

(** The globals [orderbook] and [trades]. *)
Record State : Type := {
  buy : list Order;
  sell : list Order;
  collectible_buy : list CollectibleOrder;
  collectible_sell : list CollectibleOrder;
  trades : list Trade;
}.

(** What happens outside the process when a pair is matched: the clock
    reading, and what ends up in ["blockchain_result"] (the JSON the wallet
    server answered, or [{"error": str(e)}]). *)
Context (trade_time : Order → Order → time)
        (wallet_result : Order → Order → json)
        (collectible_trade_time : CollectibleOrder → CollectibleOrder → time)
        (collectible_result : CollectibleOrder → CollectibleOrder → json).

Definition set_books (b s : list Order) : M State unit :=
  λ st, (Return (), {| buy := b; sell := s; collectible_buy := collectible_buy st;
                       collectible_sell := collectible_sell st; trades := trades st |}).

Definition set_collectible_books (b s : list CollectibleOrder) : M State unit :=
  λ st, (Return (), {| buy := buy st; sell := sell st; collectible_buy := b;
                       collectible_sell := s; trades := trades st |}).

Definition append_trade (t : Trade) : M State unit :=
  λ st, (Return (), {| buy := buy st; sell := sell st;
                       collectible_buy := collectible_buy st;
                       collectible_sell := collectible_sell st;
                       trades := trades st ++ [t] |}).

(** The condition of [match_orders]. *)
Definition crosses (b s : Order) : bool :=
  price_ge b.(price) s.(price) && Z.eqb b.(amount) s.(amount).

(** The trade [match_orders] records for a pair. *)
Definition trade_of (b s : Order) : Trade :=
  TokenTrade b.(user) s.(user) b.(amount) s.(price) (trade_time b s) (wallet_result b s).

(** The body of the [if] of [match_orders], up to the [break]. *)
Definition settle (b s : Order) : M State unit :=
  append_trade (trade_of b s);;
  st ← get_self;
  buys ← lift (list_remove b (buy st));
  set_books buys (sell st);;
  st ← get_self;
  sells ← lift (list_remove s (sell st));
  set_books (buy st) sells.

(** [for sell in list(orderbook["sell"]): if ...: ...; break] *)
Fixpoint match_against (b : Order) (sells : list Order) : M State unit :=
  match sells with
  | [] => mret ()
  | s :: rest => if crosses b s then settle b s else match_against b rest
  end.

(** [for buy in list(orderbook["buy"]): ...] *)
Fixpoint match_each (buys : list Order) : M State unit :=
  match buys with
  | [] => mret ()
  | b :: rest =>
      st ← get_self;
      match_against b (sell st);;
      match_each rest
  end.

Definition match_orders : M State unit :=
  st ← get_self;
  match_each (buy st).

(** The condition of [match_collectible_orders]. *)
Definition collectible_crosses (b s : CollectibleOrder) : bool :=
  json_eq b.(collectible_id) s.(collectible_id) && price_ge b.(c_price) s.(c_price).

Definition collectible_trade_of (b s : CollectibleOrder) : Trade :=
  CollectibleTrade b.(c_user) s.(c_user) b.(collectible_id) s.(c_price)
    (collectible_trade_time b s) (collectible_result b s).

Definition collectible_settle (b s : CollectibleOrder) : M State unit :=
  append_trade (collectible_trade_of b s);;
  st ← get_self;
  buys ← lift (list_remove b (collectible_buy st));
  set_collectible_books buys (collectible_sell st);;
  st ← get_self;
  sells ← lift (list_remove s (collectible_sell st));
  set_collectible_books (collectible_buy st) sells.

Fixpoint collectible_match_against (b : CollectibleOrder) (sells : list CollectibleOrder)
  : M State unit :=
  match sells with
  | [] => mret ()
  | s :: rest =>
      if collectible_crosses b s then collectible_settle b s
      else collectible_match_against b rest
  end.

Fixpoint collectible_match_each (buys : list CollectibleOrder) : M State unit :=
  match buys with
  | [] => mret ()
  | b :: rest =>
      st ← get_self;
      collectible_match_against b (collectible_sell st);;
      collectible_match_each rest
  end.

Definition match_collectible_orders : M State unit :=
  st ← get_self;
  collectible_match_each (collectible_buy st).

(** The dicts the routes hand to [jsonify]. *)
Inductive Body : Type :=
| Error (message : string)
    (* {"status": "error", "message": ...} *)
| Success (order : Order)
    (* {"status": "success", "order": ...} *)
| CollectibleSuccess (order : CollectibleOrder).

(** [orderbook[order["type"]].append(order)], for a type that is ["buy"] or
    ["sell"]. *)
Definition append_order (order : Order) : M State unit :=
  st ← get_self;
  if json_eq order.(type) (json_str "buy") then set_books (buy st ++ [order]) (sell st)
  else set_books (buy st) (sell st ++ [order]).

Definition append_collectible_order (order : CollectibleOrder) : M State unit :=
  st ← get_self;
  if json_eq order.(c_type) (json_str "collectible_buy")
  then set_collectible_books (collectible_buy st ++ [order]) (collectible_sell st)
  else set_collectible_books (collectible_buy st) (collectible_sell st ++ [order]).

(** [create_order], on the JSON object of the request ([{}] when the request
    has none), with the [uuid4] and the clock reading it draws. *)
Definition create_order (new_id : string) (now : time) (data : gmap string json)
  : M State (Body * Z) :=
  let user := default json_null (data !! "user") in
  let order_type := default json_null (data !! "type") in
  amount ← lift (int_ (default (json_int 0) (data !! "amount")));
  price ← lift (float_ (default (json_int 0) (data !! "price")));
  if negb (json_eq order_type (json_str "buy") || json_eq order_type (json_str "sell"))
  then mret (Error "Tipo de orden inválido", 400)
  else
    let order := {| id := new_id; user := user; type := order_type; amount := amount;
                    price := price; timestamp := now |} in
    append_order order;;
    match_orders;;
    mret (Success order, 201).

(** [create_collectible_order] *)
Definition create_collectible_order (new_id : string) (now : time)
  (data : gmap string json) : M State (Body * Z) :=
  let user := default json_null (data !! "user") in
  let order_type := default json_null (data !! "type") in
  let cid := default json_null (data !! "id") in
  price ← lift (float_ (default (json_int 0) (data !! "price")));
  if negb (json_eq order_type (json_str "collectible_buy") ||
           json_eq order_type (json_str "collectible_sell"))
  then mret (Error "Tipo de orden inválido", 400)
  else
    let order := {| c_id := new_id; c_user := user; c_type := order_type;
                    collectible_id := cid; c_price := price; c_timestamp := now |} in
    append_collectible_order order;;
    match_collectible_orders;;
    mret (CollectibleSuccess order, 201).

(** What a run of [match_orders] has done so far, from [st0] to [st]: orders
    have only left the token books, one buy and one sell for each new trade,
    and each new trade pairs two orders of [st0] that cross. *)
Definition matched (st0 st : State) : Prop :=
  (∀ b, b ∈ buy st → b ∈ buy st0) ∧
  (∀ s, s ∈ sell st → s ∈ sell st0) ∧
  collectible_buy st = collectible_buy st0 ∧
  collectible_sell st = collectible_sell st0 ∧
  ∃ new,
    trades st = (trades st0 ++ new)%list ∧
    (length (buy st) + length new = length (buy st0))%nat ∧
    (length (sell st) + length new = length (sell st0))%nat ∧
    Forall (λ t, ∃ b s, b ∈ buy st0 ∧ s ∈ sell st0 ∧ crosses b s = true ∧
                        t = trade_of b s) new.

Definition collectible_matched (st0 st : State) : Prop :=
  (∀ b, b ∈ collectible_buy st → b ∈ collectible_buy st0) ∧
  (∀ s, s ∈ collectible_sell st → s ∈ collectible_sell st0) ∧
  buy st = buy st0 ∧ sell st = sell st0 ∧
  ∃ new,
    trades st = (trades st0 ++ new)%list ∧
    (length (collectible_buy st) + length new = length (collectible_buy st0))%nat ∧
    (length (collectible_sell st) + length new = length (collectible_sell st0))%nat ∧
    Forall (λ t, ∃ b s, b ∈ collectible_buy st0 ∧ s ∈ collectible_sell st0 ∧
                        collectible_crosses b s = true ∧
                        t = collectible_trade_of b s) new.

(** No buy order of the token books crosses a sell order. *)
Definition quiet (st : State) : Prop :=
  ∀ b s, b ∈ buy st → s ∈ sell st → crosses b s = false.

Definition collectible_quiet (st : State) : Prop :=
  ∀ b s, b ∈ collectible_buy st → s ∈ collectible_sell st →
         collectible_crosses b s = false.

(** The books with one more token order, on the side its type names. *)
Definition with_order (order : Order) (st : State) : State :=
  (append_order order st).2.

Definition with_collectible_order (order : CollectibleOrder) (st : State) : State :=
  (append_collectible_order order st).2.

End Model.
End Exchange.

(** ** Sample data for the routes and the exchange *)

Module Sample.

(** [int] reads the text ["7"]; [jsonify] never raises. *)
Definition runtime : @Runtime demo_platform := {|
  int_of_str := λ s,
    if String.eqb s "7" then Return 7
    else Raise (ValueError "invalid literal for int() with base 10");
  jsonify_raises := λ _, None;
|}.

(** Keys are their seeds, and every signature is the text ["ok"], which the
    stand-in platform accepts. *)
Definition ecdsa : Ecdsa := {|
  entropy := unit;
  sha256_digest := λ b, b;
  SigningKey_from_string := λ b, Return b;
  verifying_key_bytes := λ sk, sk;
  sk_sign := λ _ _ _, String.list_byte_of_string "ok";
  bytes_hex := String.string_of_list_byte;
|}.

(** The founder's wallet file and the wallet it gives. *)
Definition founder_file : transaction :=
  <["mnemonic" := VStr "pk"]> (<["address" := VStr "h(pk)"]> ∅).

Definition founder_wallet : WalletObject :=
  {| w_mnemonic := "pk";
     w_private_key := String.list_byte_of_string "pk";
     w_public_key := String.list_byte_of_string "pk";
     w_address := VStr "h(pk)" |}.

(** Requests to [/fund]. *)
Definition fund_request (to : string) (amount : Z) : transaction :=
  <["to" := VStr to]> (<["amount" := VInt amount]> ∅).

(** A second creation of [art1], for somebody else and under another name. *)
Definition create_copy : transaction :=
  <["name" := VStr "Copy"]> (<["to" := VStr "B"]> Demo.create_art).

(** A transfer of [art1] by its owner that names no recipient. *)
Definition transfer_nowhere : transaction :=
  <["type" := VStr "collectible_transfer"]> (
  <["id" := VStr "art1"]> (
  <["from" := VStr "A"]> ∅)).

(** A payment by somebody who holds nothing, and one without recipient. *)
Definition overdraft : transaction := Demo.token "nobody" "A" 7 "pk" "ok".

Definition burn : transaction :=
  <["from" := VStr "h(pk)"]> (<["amount" := VInt 5]> ∅).

(** The wallet server with the founder registered as [gen]; the core it
    posts to answers from the bootstrapped ledger. *)
Definition users : Users := {["gen" := founder_file]}.

Definition post (tx : transaction) : result (@body demo_platform * Z) :=
  (@new_transaction demo_platform runtime Demo.clock tx Demo.bootstrapped).1.

Definition send_request (username : value) (to : string) (amount : Z) : transaction :=
  <["username" := username]> (<["to" := VStr to]> (<["amount" := VInt amount]> ∅)).

Definition create_request (username : string) : transaction :=
  <["username" := VStr username]> ∅.

(** The wallet of the mnemonic ["seed"]. *)
Definition new_wallet : WalletObject :=
  {| w_mnemonic := "seed";
     w_private_key := String.list_byte_of_string "seed";
     w_public_key := String.list_byte_of_string "seed";
     w_address := VStr "h(seed)" |}.

(** A token request without ['to'] and ['signature'] (and without ['type']). *)
Definition incomplete : transaction :=
  <["from" := VStr "h(pk)"]> (<["amount" := VInt 1000]> (<["pubkey" := VStr "pk"]> ∅)).

(** The exchange on JSON values as [value], with whole numbers for clock
    readings and prices. *)
Definition float_ (v : value) : result Z :=
  match v with
  | VInt n => Return n
  | VBool b => Return (Z.b2z b)
  | VStr _ => Raise (ValueError "could not convert string to float")
  | VNone | VList _ | VDict _ => Raise TypeError
  end.

Definition order (id : string) (user type : string) (amount price : Z)
  : @Exchange.Order value Z Z :=
  {| Exchange.id := id; Exchange.user := VStr user; Exchange.type := VStr type;
     Exchange.amount := amount; Exchange.price := price; Exchange.timestamp := 0 |}.

Definition collectible_order (id : string) (user type : string) (cid : string) (price : Z)
  : @Exchange.CollectibleOrder value Z Z :=
  {| Exchange.c_id := id; Exchange.c_user := VStr user; Exchange.c_type := VStr type;
     Exchange.collectible_id := VStr cid; Exchange.c_price := price;
     Exchange.c_timestamp := 0 |}.

Definition trade_time (b s : @Exchange.Order value Z Z) : Z := 1.
Definition wallet_result (b s : @Exchange.Order value Z Z) : value :=
  VDict [("status", VStr "success")].
Definition collectible_trade_time (b s : @Exchange.CollectibleOrder value Z Z) : Z := 1.
Definition collectible_result (b s : @Exchange.CollectibleOrder value Z Z) : value :=
  VDict [("error", VStr "connection refused")].

(** One resting sell order for 5 at 9, and one resting offer of [art1] at 30. *)
Definition books : @Exchange.State value Z Z :=
  {| Exchange.buy := [order "b0" "carol" "buy" 3 8];
     Exchange.sell := [order "s1" "bob" "sell" 5 9];
     Exchange.collectible_buy := [collectible_order "cb0" "carol" "collectible_buy" "art2" 50];
     Exchange.collectible_sell := [collectible_order "cs1" "bob" "collectible_sell" "art1" 30];
     Exchange.trades := [] |}.

(** Requests to [/order] and to [/collectible/order]. *)
Definition order_request (user type : string) (amount price : Z) : gmap string value :=
  <["user" := VStr user]> (<["type" := VStr type]> (
  <["amount" := VInt amount]> (<["price" := VInt price]> ∅))).

Definition collectible_order_request (user type cid : string) (price : Z)
  : gmap string value :=
  <["user" := VStr user]> (<["type" := VStr type]> (
  <["id" := VStr cid]> (<["price" := VInt price]> ∅))).

End Sample.

(** * Proofs *)

Ltac py_unfold :=
  unfold mbind, M_bind, mret, M_ret, raise, lift, get_self, try_except,
    tx_item, key_of, int_operand, when_block in *.

Section ReadOnly.
Context {S : Type}.

Lemma readonly_ret {A} (a : A) : readonly (mret a : M S A).
Proof. intros self; reflexivity. Qed.

Lemma readonly_raise {A} (e : exn) : readonly (raise e : M S A).
Proof. intros self; reflexivity. Qed.

Lemma readonly_lift {A} (r : result A) : readonly (lift r : M S A).
Proof. intros self; reflexivity. Qed.

Lemma readonly_get_self : readonly (get_self : M S S).
Proof. intros self; reflexivity. Qed.

Lemma readonly_bind {A B} (m : M S A) (k : A → M S B) :
  readonly m → (∀ a, readonly (k a)) → readonly (m ≫= k).
Proof.
  intros Hm Hk self. unfold mbind, M_bind.
  specialize (Hm self). destruct (m self) as [[a|e] self']; simpl in *; subst.
  - apply Hk.
  - reflexivity.
Qed.

Lemma readonly_try_except {A} (body : M S A) (handler : exn → M S A) :
  readonly body → (∀ e, readonly (handler e)) → readonly (try_except body handler).
Proof.
  intros Hb Hh self. unfold try_except.
  specialize (Hb self). destruct (body self) as [[a|e] self']; simpl in *; subst.
  - reflexivity.
  - apply Hh.
Qed.

Lemma readonly_if {A} (c : bool) (m1 m2 : M S A) :
  readonly m1 → readonly m2 → readonly (if c then m1 else m2).
Proof. destruct c; auto. Qed.

Lemma readonly_tx_item tx k : readonly (tx_item tx k : M S value).
Proof. unfold tx_item. destruct (tx !! k); [apply readonly_ret | apply readonly_raise]. Qed.

Lemma readonly_key_of v : readonly (key_of v : M S pykey).
Proof. unfold key_of. destruct (py_hash v); [apply readonly_ret | apply readonly_raise]. Qed.

Lemma readonly_int_operand v : readonly (int_operand v : M S Z).
Proof. unfold int_operand. destruct (as_int v); [apply readonly_ret | apply readonly_raise]. Qed.

(** What a read-only computation returns is all there is to know about it. *)
Lemma readonly_run {A} (m : M S A) self : readonly m → m self = ((m self).1, self).
Proof. intros Hm. rewrite <- (Hm self) at 3. apply surjective_pairing. Qed.

End ReadOnly.

Create HintDb readonly discriminated.
#[global] Hint Resolve readonly_ret readonly_raise readonly_lift readonly_get_self
  readonly_tx_item readonly_key_of readonly_int_operand : readonly.

Ltac readonly_steps :=
  repeat first
    [ progress eauto 2 with readonly
    | apply readonly_bind; [ | intros ? ]
    | apply readonly_try_except; [ | intros ? ]
    | apply readonly_if
    | match goal with
      | |- readonly (match ?x with _ => _ end) => destruct x
      end ].

Section Validator.
Context `{P : Platform}.

Lemma readonly_fromhex {S} v : readonly (fromhex v : M S (list Byte.byte)).
Proof. unfold fromhex. destruct v; auto with readonly. Qed.

Lemma readonly_address_from_pubkey_hex {S} v :
  readonly (address_from_pubkey_hex v : M S string).
Proof.
  unfold address_from_pubkey_hex.
  apply readonly_bind; [apply readonly_fromhex | auto with readonly].
Qed.

Hint Resolve readonly_fromhex readonly_address_from_pubkey_hex : readonly.

Lemma readonly_verify_token tx : readonly (verify_token tx).
Proof. unfold verify_token. readonly_steps. Qed.

Lemma readonly_verify_collectible_create tx : readonly (verify_collectible_create tx).
Proof. unfold verify_collectible_create. readonly_steps. Qed.

Lemma readonly_verify_collectible_transfer tx : readonly (verify_collectible_transfer tx).
Proof. unfold verify_collectible_transfer. readonly_steps. Qed.

Lemma readonly_verify_transaction tx : readonly (verify_transaction tx).
Proof.
  pose proof (readonly_verify_token tx).
  pose proof (readonly_verify_collectible_create tx).
  pose proof (readonly_verify_collectible_transfer tx).
  unfold verify_transaction, when_block. readonly_steps.
Qed.

(** C8. The validator never mutates the ledger: the object it hands back
    (chain, balances, collectibles) is the one it received; and calling it
    again, on the ledger the first call left and on the same transaction,
    gives the same verdict and reason (or the same exception). *)
Theorem verify_transaction_pure (tx : transaction) (self : Blockchain) :
  (verify_transaction tx self).2 = self ∧
  chain (verify_transaction tx self).2 = chain self ∧
  balances (verify_transaction tx self).2 = balances self ∧
  collectibles (verify_transaction tx self).2 = collectibles self ∧
  (verify_transaction tx (verify_transaction tx self).2).1 = (verify_transaction tx self).1 ∧
  (∀ tx' self', tx' = tx → self' = self →
     (verify_transaction tx' self').1 = (verify_transaction tx self).1).
Proof.
  pose proof (readonly_verify_transaction tx self) as H.
  rewrite !H. repeat split; try reflexivity.
  intros tx' self' -> ->. reflexivity.
Qed.

End Validator.

Section ValidatorCases.
Context `{P : Platform}.

Lemma py_eq_str_true (v : value) (s : string) : py_eq v (VStr s) = true ↔ v = VStr s.
Proof.
  destruct v; simpl; try (split; [discriminate | congruence]).
  rewrite String.eqb_eq. split; congruence.
Qed.

Lemma py_eq_str_false (v : value) (s : string) : py_eq v (VStr s) = false ↔ v ≠ VStr s.
Proof.
  rewrite <- py_eq_str_true. destruct (py_eq v (VStr s)); split; congruence.
Qed.

Lemma py_eq_str_refl (s : string) : py_eq (VStr s) (VStr s) = true.
Proof. apply py_eq_str_true. reflexivity. Qed.

(** C9. A token-typed transaction without a ['from'] key makes the validator
    raise [KeyError('from')] instead of returning a verdict; the ledger is
    left as it was. The same happens when the ['type'] key is absent too. *)
Theorem verify_transaction_raises_without_from (self : Blockchain) :
  verify_transaction {["type" := VStr "token"]} self = (Raise (KeyError (KStr "from")), self) ∧
  verify_transaction ∅ self = (Raise (KeyError (KStr "from")), self).
Proof. split; reflexivity. Qed.

(** A collectible transaction whose id is a non-empty list makes the
    validator raise [TypeError] (the list is unhashable). *)
Lemma verify_transaction_raises_on_list_id (self : Blockchain) (to name : value) :
  verify_transaction
    (<["type" := VStr "collectible_create"]> (
     <["id" := VList [VInt 1]]> (<["to" := to]> (<["name" := name]> ∅)))) self
  = (Raise TypeError, self).
Proof. reflexivity. Qed.

End ValidatorCases.

Section Engine.
Context `{P : Platform}.

Lemma validate_or_raise_ok tx self m :
  (verify_transaction tx self).1 = Return (true, m) →
  validate_or_raise tx self = (Return (), self).
Proof.
  intros H. unfold validate_or_raise. py_unfold.
  rewrite (readonly_run _ self (readonly_verify_transaction tx)), H. reflexivity.
Qed.

Lemma validate_or_raise_rejected tx self reason :
  (verify_transaction tx self).1 = Return (false, reason) →
  validate_or_raise tx self = (Raise (ValueError reason), self).
Proof.
  intros H. unfold validate_or_raise. py_unfold.
  rewrite (readonly_run _ self (readonly_verify_transaction tx)), H. reflexivity.
Qed.

Lemma validate_or_raise_raised tx self e :
  (verify_transaction tx self).1 = Raise e →
  validate_or_raise tx self = (Raise e, self).
Proof.
  intros H. unfold validate_or_raise. py_unfold.
  rewrite (readonly_run _ self (readonly_verify_transaction tx)), H. reflexivity.
Qed.

Lemma readonly_validate_or_raise tx : readonly (validate_or_raise tx).
Proof.
  pose proof (readonly_verify_transaction tx).
  unfold validate_or_raise. readonly_steps.
Qed.

Lemma readonly_for_each {S A} (body : A → M S unit) (l : list A) :
  (∀ x, readonly (body x)) → readonly (for_each body l).
Proof.
  intros Hb. induction l as [|x l IH]; simpl.
  - apply readonly_ret.
  - apply readonly_bind; auto.
Qed.

(** The validation pass on a batch whose transactions all pass. *)
Lemma validation_pass txs self :
  Forall (λ tx, ∃ m, (verify_transaction tx self).1 = Return (true, m)) txs →
  for_each validate_or_raise txs self = (Return (), self).
Proof.
  induction 1 as [|tx txs [m Hm] _ IH]; simpl.
  - reflexivity.
  - unfold mbind, M_bind. rewrite (validate_or_raise_ok _ _ _ Hm). exact IH.
Qed.

(** The validation pass stops at the first transaction that does not pass. *)
Lemma validation_stops pre tx post self r :
  Forall (λ tx, ∃ m, (verify_transaction tx self).1 = Return (true, m)) pre →
  validate_or_raise tx self = (Raise r, self) →
  for_each validate_or_raise (pre ++ tx :: post) self = (Raise r, self).
Proof.
  intros Hpre Htx. induction Hpre as [|tx' pre [m Hm] _ IH]; simpl.
  - unfold mbind, M_bind. rewrite Htx. reflexivity.
  - unfold mbind, M_bind. rewrite (validate_or_raise_ok _ _ _ Hm). exact IH.
Qed.

Lemma validate_or_raise_inv tx self self' :
  validate_or_raise tx self = (Return (), self') →
  ∃ m, (verify_transaction tx self).1 = Return (true, m).
Proof.
  unfold validate_or_raise. py_unfold.
  rewrite (readonly_run _ self (readonly_verify_transaction tx)).
  destruct (verify_transaction tx self).1 as [[[] m]|e]; cbn; [eauto | discriminate..].
Qed.

(** A validation pass that goes through has seen every transaction pass,
    each against the ledger as it was before the batch. *)
Lemma validation_pass_inv txs self self' :
  for_each validate_or_raise txs self = (Return (), self') →
  Forall (λ tx, ∃ m, (verify_transaction tx self).1 = Return (true, m)) txs.
Proof.
  revert self'. induction txs as [|tx txs IH]; intros self'; simpl; [constructor|].
  unfold mbind, M_bind.
  pose proof (readonly_validate_or_raise tx self) as Hro.
  destruct (validate_or_raise tx self) as [[[]|e] s] eqn:Hv; simpl in Hro; subst s.
  - intros Hrest. constructor; [exact (validate_or_raise_inv _ _ _ Hv) | exact (IH _ Hrest)].
  - discriminate.
Qed.

(** [add_block] once the validation pass has gone through. *)
Lemma add_block_validated clock txs self :
  for_each validate_or_raise txs self = (Return (), self) →
  add_block clock txs self =
    match apply_effects clock 1 txs self with
    | (Return _, self') =>
        let b := build_block (clock 0%nat) (chain self) txs in
        (Return b.(hash), with_block b self')
    | (Raise e, self') => (Raise e, self')
    end.
Proof.
  intros Hv. unfold add_block, _persist, set_chain. py_unfold. rewrite Hv.
  destruct (apply_effects clock 1 txs self) as [[[]|e] self']; reflexivity.
Qed.

(** [add_block] when the validation pass raises. *)
Lemma add_block_not_validated clock txs self e :
  for_each validate_or_raise txs self = (Raise e, self) →
  add_block clock txs self = (Raise e, self).
Proof. intros Hv. unfold add_block. py_unfold. rewrite Hv. reflexivity. Qed.

(** The validation pass ends in one of two ways, the ledger untouched. *)
Lemma validation_outcome txs self :
  for_each validate_or_raise txs self = (Return (), self) ∨
  ∃ e, for_each validate_or_raise txs self = (Raise e, self).
Proof.
  rewrite (readonly_run _ self (readonly_for_each _ txs readonly_validate_or_raise)).
  destruct (for_each validate_or_raise txs self).1 as [[]|e]; eauto.
Qed.

End Engine.

Section TokenValidation.
Context `{P : Platform}.

Lemma is_hex_decodes (s : string) :
  is_hex (VStr s) = true → ∃ b, bytes_fromhex s = Return b.
Proof. simpl. destruct (bytes_fromhex s); [eauto | discriminate]. Qed.

(** The verdict on a token transaction that gets through the field checks. *)
Lemma verify_well_formed_token tx from to amount pubkey signature self :
  well_formed_token tx from to amount pubkey signature →
  (verify_transaction tx self).1 =
    if negb (bool_decide (derived_address pubkey = Some from)) then
      Return (false, "La dirección 'from' no corresponde a la clave pública 'pubkey'")
    else if Z.ltb (default 0 (balances self !! KStr from)) amount then
      Return (false, "Saldo insuficiente")
    else match signature_verdict from to amount pubkey signature with
         | Some verdict => Return verdict
         | None => Return (true, "OK")
         end.
Proof.
  intros (Hty & Hfrom & Hgen & Hto & Hamt & Hpos & Hpk & Hpkhex & Hsg & Hsghex).
  destruct (is_hex_decodes _ Hpkhex) as [pkb Hpkb].
  destruct (is_hex_decodes _ Hsghex) as [sgb Hsgb].
  unfold verify_transaction, verify_token, address_from_pubkey_hex, fromhex,
    derived_address, signature_verdict, tx_get, tx_item, key_of, int_operand, when_block.
  rewrite Hty, Hfrom, Hto, Hamt, Hpk, Hsg.
  unfold try_except, get_self, lift, raise, mbind, M_bind, mret, M_ret.
  cbn. rewrite (proj2 (String.eqb_neq from "GENESIS")) by congruence.
  cbn. destruct (Z.leb_spec amount 0) as [?|_]; [lia|].
  cbn. rewrite Hpkb, Hsgb. cbn.
  destruct (String.eqb_spec (sha256_hexdigest pkb) from) as [Heq|Hne].
  - rewrite bool_decide_eq_true_2 by congruence. cbn.
    destruct (Z.ltb _ amount); [reflexivity|].
    destruct (VerifyingKey_from_string pkb) as [vk|e]; cbn; [|reflexivity].
    destruct (vk_verify vk sgb _) as [b|e]; reflexivity.
  - rewrite bool_decide_eq_false_2 by congruence. reflexivity.
Qed.

End TokenValidation.

Section Rejection.
Context `{P : Platform}.

Lemma tx_type_insert_other tx k v : k ≠ "type" → tx_type (<[k := v]> tx) = tx_type tx.
Proof. intros Hk. unfold tx_type, tx_get_or. rewrite lookup_insert_ne by done. reflexivity. Qed.

Lemma well_formed_token_resign tx from to amount pubkey signature signature' :
  well_formed_token tx from to amount pubkey signature →
  is_hex (VStr signature') = true →
  well_formed_token (<["signature" := VStr signature']> tx) from to amount pubkey signature'.
Proof.
  intros (Hty & Hfrom & Hgen & Hto & Hamt & Hpos & Hpk & Hpkhex & Hsg & Hsghex) Hhex.
  unfold well_formed_token. rewrite tx_type_insert_other by done.
  rewrite lookup_insert_eq, !lookup_insert_ne by done. tauto.
Qed.

Lemma verify_address_mismatch tx from to amount pubkey signature self :
  well_formed_token tx from to amount pubkey signature →
  derived_address pubkey ≠ Some from →
  verify_transaction tx self =
    (Return (false, "La dirección 'from' no corresponde a la clave pública 'pubkey'"), self).
Proof.
  intros Hwf Hne.
  rewrite (readonly_run _ self (readonly_verify_transaction tx)).
  rewrite (verify_well_formed_token _ _ _ _ _ _ _ Hwf).
  rewrite bool_decide_eq_false_2 by done. reflexivity.
Qed.

(** C6. A well-formed non-GENESIS token transaction whose public key does
    not hash to its ['from'] is rejected with the address/pubkey reason, on
    every platform (whatever its ECDSA verification answers) and whatever
    hex-decodable signature the transaction carries. *)
Theorem address_binding_precedes_signature
    tx from to amount pubkey signature (self : Blockchain) :
  well_formed_token tx from to amount pubkey signature →
  derived_address pubkey ≠ Some from →
  verify_transaction tx self =
    (Return (false, "La dirección 'from' no corresponde a la clave pública 'pubkey'"), self) ∧
  ∀ signature', is_hex (VStr signature') = true →
    verify_transaction (<["signature" := VStr signature']> tx) self =
      verify_transaction tx self.
Proof.
  intros Hwf Hne. split.
  - exact (verify_address_mismatch _ _ _ _ _ _ _ Hwf Hne).
  - intros signature' Hhex.
    rewrite (verify_address_mismatch _ _ _ _ _ _ _ Hwf Hne).
    exact (verify_address_mismatch _ _ _ _ _ _ _
             (well_formed_token_resign _ _ _ _ _ _ _ Hwf Hhex) Hne).
Qed.

Lemma verify_insufficient_balance tx from to amount pubkey signature self :
  well_formed_token tx from to amount pubkey signature →
  derived_address pubkey = Some from →
  default 0 (balances self !! KStr from) < amount →
  (verify_transaction tx self).1 = Return (false, "Saldo insuficiente").
Proof.
  intros Hwf Haddr Hlt.
  rewrite (verify_well_formed_token _ _ _ _ _ _ _ Hwf).
  rewrite bool_decide_eq_true_2 by done. cbn [negb].
  destruct (Z.ltb_spec (default 0 (balances self !! KStr from)) amount); [reflexivity | lia].
Qed.

(** C2. [add_block] validates in order and stops at the first transaction
    that does not pass: when every transaction before [tx] passes and [tx] is
    rejected with [reason], the call raises [ValueError(reason)] and chain,
    balances and collectibles are as they were; the same holds when the
    validator raises on [tx]. In particular a token transaction that is well
    formed, bound to its sender's key and asks for more than the sender's
    balance is rejected with the insufficient-balance reason. Whatever the
    batch, a rejected transaction anywhere in it makes the call raise and
    leave the ledger as it was. *)
Theorem add_block_rejection_atomic clock pre tx post (self : Blockchain) :
  Forall (λ t, ∃ m, (verify_transaction t self).1 = Return (true, m)) pre →
  (∀ reason, (verify_transaction tx self).1 = Return (false, reason) →
     add_block clock (pre ++ tx :: post) self = (Raise (ValueError reason), self)) ∧
  (∀ e, (verify_transaction tx self).1 = Raise e →
     add_block clock (pre ++ tx :: post) self = (Raise e, self)) ∧
  (∀ from to amount pubkey signature,
     well_formed_token tx from to amount pubkey signature →
     derived_address pubkey = Some from →
     default 0 (balances self !! KStr from) < amount →
     add_block clock (pre ++ tx :: post) self =
       (Raise (ValueError "Saldo insuficiente"), self)) ∧
  (∀ txs t reason, t ∈ txs → (verify_transaction t self).1 = Return (false, reason) →
     ∃ e, add_block clock txs self = (Raise e, self)).
Proof.
  intros Hpre.
  assert (Hrej : ∀ reason, (verify_transaction tx self).1 = Return (false, reason) →
     add_block clock (pre ++ tx :: post) self = (Raise (ValueError reason), self)).
  { intros reason Hr. apply add_block_not_validated, validation_stops; [exact Hpre|].
    apply validate_or_raise_rejected, Hr. }
  split; [exact Hrej | split; [|split]].
  - intros e He. apply add_block_not_validated, validation_stops; [exact Hpre|].
    apply validate_or_raise_raised, He.
  - intros from to amount pubkey signature Hwf Haddr Hlt.
    apply Hrej. exact (verify_insufficient_balance _ _ _ _ _ _ _ Hwf Haddr Hlt).
  - intros txs t reason Hin Hr.
    destruct (validation_outcome txs self) as [Hok|[e He]].
    + pose proof (validation_pass_inv _ _ _ Hok) as Hall.
      rewrite list.Forall_forall in Hall. destruct (Hall _ Hin) as [m Hm]. congruence.
    + exists e. exact (add_block_not_validated clock _ _ _ He).
Qed.

End Rejection.

Section Effects.
Context `{P : Platform}.

Ltac run_effect :=
  unfold apply_effect, move_balance, set_balances, set_collectibles,
    tx_get, tx_item, key_of, int_operand;
  unfold get_self, lift, raise, mbind, M_bind, mret, M_ret.

(** The effect of a token transaction that went through the field checks. *)
Lemma apply_well_formed_token now tx from to amount pubkey signature self :
  well_formed_token tx from to amount pubkey signature →
  apply_effect now tx self =
    (Return (), with_balances (transfer (KStr from) (KStr to) amount (balances self)) self).
Proof.
  intros (Hty & Hfrom & Hgen & Hto & Hamt & _).
  run_effect. rewrite Hty, Hfrom, Hto, Hamt. cbn.
  rewrite (proj2 (String.eqb_neq from "GENESIS")) by congruence. reflexivity.
Qed.

(** No transaction touches the chain while it is applied. *)
Lemma apply_effect_keeps_chain now tx : keeps_chain (apply_effect now tx).
Proof.
  intros self. run_effect.
  repeat first
    [ reflexivity
    | match goal with
      | |- context [match ?x with _ => _ end] =>
          lazymatch x with
          | context [match _ with _ => _ end] => fail
          | _ => destruct x eqn:?; cbn
          end
      end ].
Qed.

Lemma apply_effects_keeps_chain clock i txs : keeps_chain (apply_effects clock i txs).
Proof.
  revert i. induction txs as [|tx txs IH]; intros i self; simpl; [reflexivity|].
  unfold mbind, M_bind.
  pose proof (apply_effect_keeps_chain (clock i) tx self) as H.
  destruct (apply_effect (clock i) tx self) as [[[]|e] s]; simpl in *.
  - rewrite IH. exact H.
  - exact H.
Qed.

End Effects.

Section ChainLinking.
Context `{P : Platform}.

Lemma chain_linked_nil : chain_linked [].
Proof. intros i b Hi. rewrite lookup_nil in Hi. discriminate. Qed.

(** Appending the block [add_block] builds keeps the chain linked. *)
Lemma chain_linked_build_block c now txs :
  chain_linked c → chain_linked (c ++ [build_block now c txs])%list.
Proof.
  intros Hc i b Hi.
  destruct (decide (i < length c)%nat) as [Hlt|Hge].
  - rewrite lookup_app_l in Hi by done.
    destruct (Hc i b Hi) as (Hidx & Hhash & Hfirst & Hprev).
    repeat split; try assumption.
    intros j b' -> Hj. rewrite lookup_app_l in Hj by lia. eauto.
  - rewrite lookup_app_r in Hi by lia.
    destruct (i - length c)%nat as [|n] eqn:Hn; [|destruct n; discriminate].
    assert (i = length c) as -> by lia.
    injection Hi as <-. unfold build_block, stored_hash_ok. cbn.
    repeat split.
    + intros Hlen. destruct c; [reflexivity | discriminate].
    + intros j b' Hlen Hj. rewrite lookup_app_l in Hj by lia.
      rewrite last_lookup, Hlen. cbn. rewrite Hj. reflexivity.
Qed.

(** What a call of [add_block] does to the chain: nothing, or one block more. *)
Lemma add_block_chain clock txs self r self' :
  add_block clock txs self = (r, self') →
  chain self' = chain self ∨
  chain self' = (chain self ++ [build_block (clock 0%nat) (chain self) txs])%list.
Proof.
  intros Hrun.
  destruct (validation_outcome txs self) as [Hok|[e He]].
  - rewrite (add_block_validated clock _ _ Hok) in Hrun.
    pose proof (apply_effects_keeps_chain clock 1 txs self) as Hk.
    destruct (apply_effects clock 1 txs self) as [[[]|e] s]; simpl in *;
      injection Hrun as <- <-; [right | left]; cbn; congruence.
  - rewrite (add_block_not_validated clock _ _ _ He) in Hrun.
    injection Hrun as <- <-. left. reflexivity.
Qed.

Lemma legacy_update_balances_chain tx self :
  MCoins.chain (MCoins.update_balances tx self).2 = MCoins.chain self.
Proof.
  unfold MCoins.update_balances, MCoins.move_balance, MCoins.set_balances,
    tx_item, key_of, int_operand.
  unfold get_self, lift, raise, mbind, M_bind, mret, M_ret.
  repeat first
    [ reflexivity
    | match goal with
      | |- context [match ?x with _ => _ end] =>
          lazymatch x with
          | context [match _ with _ => _ end] => fail
          | _ => destruct x eqn:?; cbn
          end
      end ].
Qed.

Lemma legacy_for_each_chain txs self :
  MCoins.chain (for_each MCoins.update_balances txs self).2 = MCoins.chain self.
Proof.
  revert self. induction txs as [|tx txs IH]; intros self; simpl; [reflexivity|].
  unfold mbind, M_bind.
  pose proof (legacy_update_balances_chain tx self) as H.
  destruct (MCoins.update_balances tx self) as [[[]|e] s]; simpl in *.
  - rewrite IH. exact H.
  - exact H.
Qed.

Lemma legacy_add_block_chain now txs self r self' :
  MCoins.add_block now txs self = (r, self') →
  MCoins.chain self' = MCoins.chain self ∨
  MCoins.chain self' = (MCoins.chain self ++ [build_block now (MCoins.chain self) txs])%list.
Proof.
  unfold MCoins.add_block, MCoins.set_chain.
  unfold get_self, mbind, M_bind, mret, M_ret.
  pose proof (legacy_for_each_chain txs self) as Hk.
  destruct (for_each MCoins.update_balances txs self) as [[[]|e] s]; simpl in *;
    intros Hrun; injection Hrun as <- <-; [right | left]; cbn; congruence.
Qed.

(** C3. In every chain grown from the empty chain by calls of [add_block]
    (of [MCoinsBlockChain.py] and of [MCoins.py] alike), each block's index is
    its 1-based position, its stored hash is the SHA-256 digest of the
    key-sorted JSON serialisation of its index, timestamp, transactions and
    prev_hash, the first block's prev_hash is ["0"] and every later block's
    prev_hash is the stored hash of the block before it. *)
Theorem reachable_chain_linked :
  (∀ self : Blockchain, reachable self → chain_linked (chain self)) ∧
  (∀ self : MCoins.Blockchain, reachable_legacy self → chain_linked (MCoins.chain self)).
Proof.
  split.
  - induction 1 as [self Hnil|self clock txs r self' _ IH Hrun].
    + rewrite Hnil. apply chain_linked_nil.
    + destruct (add_block_chain _ _ _ _ _ Hrun) as [-> | ->];
        [exact IH | apply chain_linked_build_block, IH].
  - induction 1 as [self Hnil|self now txs r self' _ IH Hrun].
    + rewrite Hnil. apply chain_linked_nil.
    + destruct (legacy_add_block_chain _ _ _ _ _ Hrun) as [-> | ->];
        [exact IH | apply chain_linked_build_block, IH].
Qed.

End ChainLinking.

Section UnknownTypes.
Context `{P : Platform}.

Lemma unknown_type_tests tx :
  unknown_type tx →
  py_eq (tx_type tx) (VStr "token") = false ∧
  py_eq (tx_type tx) (VStr "collectible_create") = false ∧
  py_eq (tx_type tx) (VStr "collectible_transfer") = false.
Proof.
  intros (v & Hv & H1 & H2 & H3). unfold tx_type, tx_get_or. rewrite Hv. cbn [default].
  rewrite !py_eq_str_false. auto.
Qed.

Lemma verify_unknown_type tx self :
  unknown_type tx → verify_transaction tx self = (Return (true, "OK"), self).
Proof.
  intros Hu. destruct (unknown_type_tests tx Hu) as (H1 & H2 & H3).
  unfold verify_transaction. py_unfold. rewrite H1, H2, H3. reflexivity.
Qed.

Lemma apply_unknown_type now tx self :
  unknown_type tx → apply_effect now tx self = (Return (), self).
Proof.
  intros Hu. destruct (unknown_type_tests tx Hu) as (H1 & H2 & H3).
  unfold apply_effect. rewrite H1, H2, H3. reflexivity.
Qed.

Lemma apply_effects_unknown_types clock i txs self :
  Forall unknown_type txs → apply_effects clock i txs self = (Return (), self).
Proof.
  intros Hall. revert i. induction Hall as [|tx txs Hu _ IH]; intros i; simpl.
  - reflexivity.
  - unfold mbind, M_bind. rewrite (apply_unknown_type _ _ _ Hu). apply IH.
Qed.

Lemma lookup_retyped (tx : transaction) (k : string) (v : value) :
  k ≠ "type" → <["type" := v]> tx !! k = tx !! k.
Proof. intros Hk. apply lookup_insert_ne. congruence. Qed.

Lemma tx_type_default tx :
  tx !! "type" = None → tx_type tx = VStr "token" ∧ tx_type (<["type" := VStr "token"]> tx) = VStr "token".
Proof.
  intros Hn. unfold tx_type, tx_get_or. rewrite Hn, lookup_insert_eq. split; reflexivity.
Qed.

Ltac retype :=
  repeat match goal with
    | |- context [<["type" := ?v]> ?tx !! ?k] =>
        rewrite (lookup_retyped tx k v) by discriminate
    end.

(** C10. A transaction whose ['type'] is present and is none of ["token"],
    ["collectible_create"], ["collectible_transfer"] passes the validator; a
    batch of such transactions is accepted by [add_block], which appends one
    block holding exactly the batch and leaves balances and collectibles as
    they were; and a transaction without a ['type'] key is validated and
    applied exactly as the same transaction with type ["token"]. *)
Theorem unknown_types_pass_validator :
  (∀ tx (self : Blockchain), unknown_type tx →
     verify_transaction tx self = (Return (true, "OK"), self)) ∧
  (∀ clock txs (self : Blockchain), Forall unknown_type txs →
     let b := build_block (clock 0%nat) (chain self) txs in
     add_block clock txs self = (Return b.(hash), with_block b self) ∧
     b.(transactions) = txs ∧
     balances (with_block b self) = balances self ∧
     collectibles (with_block b self) = collectibles self) ∧
  (∀ now tx (self : Blockchain), tx !! "type" = None →
     verify_transaction tx self = verify_transaction (<["type" := VStr "token"]> tx) self ∧
     apply_effect now tx self = apply_effect now (<["type" := VStr "token"]> tx) self).
Proof.
  split; [|split].
  - intros tx self. apply verify_unknown_type.
  - intros clock txs self Hall b. repeat split.
    rewrite add_block_validated.
    + rewrite (apply_effects_unknown_types _ _ _ _ Hall). reflexivity.
    + apply validation_pass. eapply list.Forall_impl; [exact Hall|].
      intros tx Hu. exists "OK". rewrite (verify_unknown_type _ _ Hu). reflexivity.
  - intros now tx self Hn. destruct (tx_type_default tx Hn) as [Ht Ht']. split.
    + unfold verify_transaction, verify_token, verify_collectible_create,
        verify_collectible_transfer, tx_get, tx_item.
      rewrite Ht, Ht'. retype. reflexivity.
    + unfold apply_effect, move_balance, tx_get, tx_get_or, tx_item.
      rewrite Ht, Ht'. retype. reflexivity.
Qed.

End UnknownTypes.

Section Collectibles.
Context `{P : Platform}.

(** A transfer of an existing collectible by its owner passes the validator. *)
Lemma verify_collectible_transfer_ok tx self cid k c :
  tx_type tx = VStr "collectible_transfer" →
  tx !! "id" = Some cid → truthy cid = true → py_hash cid = Some k →
  collectibles self !! k = Some c →
  py_eq (c_owner c) (tx_get tx "from") = true →
  verify_transaction tx self = (Return (true, "OK"), self).
Proof.
  intros Hty Hid Htruthy Hk Hc Howner.
  unfold verify_transaction, verify_collectible_transfer, when_block, key_of.
  rewrite Hty. unfold tx_get in *. rewrite Hid.
  unfold get_self, raise, mbind, M_bind, mret, M_ret. cbn.
  rewrite Htruthy, Hk. cbn. rewrite bool_decide_eq_true_2 by eauto. cbn.
  rewrite Hc, Howner. reflexivity.
Qed.

(** C7. Applying a collectible_transfer whose id exists and whose stored
    owner equals the transaction's ['from'] sets the owner of that collectible
    to the transaction's ['to'] and its timestamp to the clock reading, keeps
    its id, name and metadata, keeps every other collectible, and keeps the
    balances (and the chain); submitted alone to [add_block], such a
    transaction is accepted with exactly that effect. *)
Theorem collectible_transfer_frame now tx (self : Blockchain) cid k c to :
  tx_type tx = VStr "collectible_transfer" →
  tx !! "id" = Some cid → py_hash cid = Some k →
  collectibles self !! k = Some c →
  py_eq (c_owner c) (tx_get tx "from") = true →
  tx !! "to" = Some to →
  ∃ self' c',
    apply_effect now tx self = (Return (), self') ∧
    collectibles self' !! k = Some c' ∧
    c_owner c' = to ∧ c_timestamp c' = now ∧
    c_id c' = c_id c ∧ c_name c' = c_name c ∧ c_metadata c' = c_metadata c ∧
    (∀ k', k' ≠ k → collectibles self' !! k' = collectibles self !! k') ∧
    balances self' = balances self ∧
    chain self' = chain self ∧
    (truthy cid = true →
     ∀ clock, clock 1%nat = now →
       let b := build_block (clock 0%nat) (chain self) [tx] in
       add_block clock [tx] self = (Return b.(hash), with_block b self')).
Proof.
  intros Hty Hid Hk Hc Howner Hto.
  assert (Hrun : apply_effect now tx self =
    (Return (),
     {| chain := chain self; balances := balances self;
        collectibles :=
          <[k := {| c_id := c_id c; c_name := c_name c; c_owner := to;
                    c_metadata := c_metadata c; c_timestamp := now |}]>
            (<[k := {| c_id := c_id c; c_name := c_name c; c_owner := to;
                       c_metadata := c_metadata c; c_timestamp := c_timestamp c |}]>
               (collectibles self)) |})).
  { unfold apply_effect, set_collectibles, tx_item, key_of.
    rewrite Hty, Hid, Hto.
    unfold get_self, raise, mbind, M_bind, mret, M_ret. cbn. rewrite Hk. cbn.
    rewrite Hc. cbn. rewrite lookup_insert_eq. reflexivity. }
  eexists _, _. split; [exact Hrun|].
  cbn [collectibles balances chain c_id c_name c_owner c_metadata c_timestamp].
  split; [apply lookup_insert_eq|].
  do 5 (split; [reflexivity|]).
  split; [intros k' Hne; rewrite !lookup_insert_ne by congruence; reflexivity|].
  do 2 (split; [reflexivity|]).
  intros Htruthy clock Hclock.
  rewrite add_block_validated.
  - cbn. unfold mbind, M_bind. rewrite Hclock, Hrun. reflexivity.
  - apply validation_pass. constructor; [|constructor].
    exists "OK". rewrite (verify_collectible_transfer_ok _ _ _ _ _ Hty Hid Htruthy Hk Hc Howner).
    reflexivity.
Qed.

End Collectibles.

Section Supply.
Context `{P : Platform}.

Lemma sum_balances_empty : sum_balances ∅ = 0.
Proof. unfold sum_balances. apply map_fold_empty. Qed.

Lemma sum_balances_insert_fresh (b : gmap pykey Z) k v :
  b !! k = None → sum_balances (<[k := v]> b) = v + sum_balances b.
Proof.
  intros Hk. unfold sum_balances.
  rewrite map_fold_insert_L; [reflexivity | intros; cbv beta; lia | exact Hk].
Qed.

Lemma sum_balances_delete (b : gmap pykey Z) k x :
  b !! k = Some x → sum_balances b = x + sum_balances (delete k b).
Proof.
  intros Hk. unfold sum_balances.
  rewrite (map_fold_delete_L _ _ k x b); [reflexivity | intros; cbv beta; lia | exact Hk].
Qed.

(** Assigning one entry changes the total by the difference of that entry. *)
Lemma sum_balances_insert (b : gmap pykey Z) k v :
  sum_balances (<[k := v]> b) = sum_balances b - default 0 (b !! k) + v.
Proof.
  destruct (b !! k) as [x|] eqn:Hk; cbn [default id].
  - rewrite <- insert_delete_eq, sum_balances_insert_fresh by apply lookup_delete_eq.
    rewrite (sum_balances_delete b k x Hk). lia.
  - rewrite sum_balances_insert_fresh by exact Hk. lia.
Qed.

(** A debit followed by the credit of the same amount is zero-sum. *)
Lemma sum_balances_transfer from to amount (b : gmap pykey Z) :
  sum_balances (transfer from to amount b) = sum_balances b.
Proof. unfold transfer. cbn zeta. rewrite !sum_balances_insert. lia. Qed.

Lemma transfer_sender from to amount (b : gmap pykey Z) :
  to ≠ from → transfer from to amount b !! from = Some (default 0 (b !! from) - amount).
Proof.
  intros Hne. unfold transfer. cbn zeta.
  rewrite lookup_insert_ne by done. apply lookup_insert_eq.
Qed.

Lemma transfer_other from to amount (b : gmap pykey Z) k :
  k ≠ from → k ≠ to → transfer from to amount b !! k = b !! k.
Proof.
  intros Hf Ht. unfold transfer. cbn zeta. rewrite !lookup_insert_ne by done. reflexivity.
Qed.

End Supply.

Section SupplyEffects.
Context `{P : Platform}.

Lemma well_formed_token_movable tx from to amount pubkey signature :
  well_formed_token tx from to amount pubkey signature → movable_token tx from to amount.
Proof.
  intros (Hty & Hfrom & Hgen & Hto & Hamt & _). unfold movable_token.
  repeat split; try assumption. exists (VInt amount). split; [assumption | reflexivity].
Qed.

(** The effect of a token transaction between string parties. *)
Lemma apply_movable_token now tx from to n self :
  movable_token tx from to n →
  apply_effect now tx self =
    (Return (), with_balances (transfer (KStr from) (KStr to) n (balances self)) self).
Proof.
  intros (Hty & Hfrom & Hgen & Hto & amount & Hamt & Hn).
  unfold apply_effect, move_balance, set_balances, tx_get, tx_item, key_of, int_operand.
  unfold get_self, lift, raise, mbind, M_bind, mret, M_ret.
  rewrite Hty, Hfrom, Hto, Hamt, Hn. cbn.
  rewrite (proj2 (String.eqb_neq from "GENESIS")) by congruence. reflexivity.
Qed.

(** A token transaction that the validator let through, its sender not the
    sentinel, moves an integer between two string parties. *)
Lemma validated_token_movable tx pre m :
  tx_type tx = VStr "token" →
  py_eq (tx_get tx "from") (VStr "GENESIS") = false →
  (verify_transaction tx pre).1 = Return (true, m) →
  ∃ from to n, movable_token tx from to n.
Proof.
  intros Hty Hgen Hv.
  unfold verify_transaction, when_block, verify_token, tx_item, tx_get in *.
  rewrite Hty in Hv.
  unfold get_self, lift, raise, mbind, M_bind, mret, M_ret in Hv.
  destruct (tx !! "from") as [vf|] eqn:Hf; [|discriminate Hv].
  cbn in Hgen. cbn in Hv. rewrite Hgen in Hv. cbn in Hv.
  destruct vf as [| | |from| |]; try discriminate Hv.
  destruct (tx !! "to") as [[| | |to| |]|] eqn:Ht; try discriminate Hv.
  destruct (tx !! "amount") as [amount|] eqn:Ha; [|discriminate Hv].
  destruct (as_int amount) as [n|] eqn:Hn;
    [|destruct amount; try discriminate Hn; discriminate Hv].
  exists from, to, n. unfold movable_token. rewrite Hf, Ht.
  split; [exact Hty|]. split; [reflexivity|]. split.
  { intros ->. cbn in Hgen. discriminate. }
  split; [reflexivity|]. eauto.
Qed.

End SupplyEffects.

Section SupplyConservation.
Context `{P : Platform}.

(** Only token transactions write balances. *)
Lemma apply_non_token_keeps_balances now tx :
  py_eq (tx_type tx) (VStr "token") = false → keeps_balances (apply_effect now tx).
Proof.
  intros Hty self. unfold apply_effect. rewrite Hty.
  unfold set_collectibles, tx_get, tx_item, key_of.
  unfold get_self, lift, raise, mbind, M_bind, mret, M_ret.
  repeat first
    [ reflexivity
    | match goal with
      | |- context [match ?x with _ => _ end] =>
          lazymatch x with
          | context [match _ with _ => _ end] => fail
          | _ => destruct x eqn:?; cbn
          end
      end ].
Qed.

Lemma apply_conserving now tx pre self :
  conserving pre tx →
  sum_balances (balances (apply_effect now tx self).2) = sum_balances (balances self).
Proof.
  intros [Hgen [m Hv]]. unfold is_genesis_token in Hgen.
  destruct (py_eq (tx_type tx) (VStr "token")) eqn:Hty.
  - cbn [andb] in Hgen. apply py_eq_str_true in Hty.
    destruct (validated_token_movable tx pre m Hty Hgen Hv) as (from & to & n & Hmov).
    rewrite (apply_movable_token now _ _ _ _ self Hmov). cbn.
    apply sum_balances_transfer.
  - rewrite (apply_non_token_keeps_balances now tx Hty self). reflexivity.
Qed.

Lemma apply_effects_conserving clock i txs pre self :
  Forall (conserving pre) txs →
  sum_balances (balances (apply_effects clock i txs self).2) = sum_balances (balances self).
Proof.
  intros Hall. revert i self.
  induction Hall as [|tx txs Htx _ IH]; intros i self; simpl; [reflexivity|].
  unfold mbind, M_bind.
  pose proof (apply_conserving (clock i) tx pre self Htx) as H.
  destruct (apply_effect (clock i) tx self) as [[[]|e] s]; simpl in *.
  - rewrite IH. exact H.
  - exact H.
Qed.

(** A call of [add_block] on a batch without GENESIS tokens keeps the total
    of the balances, whether it returns a hash or raises. *)
Lemma add_block_conserves clock txs self r self' :
  Forall (λ tx, is_genesis_token tx = false) txs →
  add_block clock txs self = (r, self') →
  sum_balances (balances self') = sum_balances (balances self).
Proof.
  intros Hgen Hrun.
  destruct (validation_outcome txs self) as [Hok|[e He]].
  - pose proof (validation_pass_inv _ _ _ Hok) as Hall.
    assert (Hcons : Forall (conserving self) txs).
    { rewrite list.Forall_forall in *. intros tx Hin. split; auto. }
    rewrite (add_block_validated clock _ _ Hok) in Hrun.
    pose proof (apply_effects_conserving clock 1 txs self self Hcons) as Hsum.
    destruct (apply_effects clock 1 txs self) as [[[]|e] s]; simpl in *;
      injection Hrun as <- <-; exact Hsum.
  - rewrite (add_block_not_validated clock _ _ _ He) in Hrun.
    injection Hrun as <- <-. reflexivity.
Qed.

Lemma genesis_free_or_not (txs : list transaction) :
  Forall (λ tx, is_genesis_token tx = false) txs ∨
  Exists (λ tx, is_genesis_token tx = true) txs.
Proof.
  induction txs as [|tx txs [IH|IH]].
  - left. constructor.
  - destruct (is_genesis_token tx) eqn:Hg.
    + right. constructor. exact Hg.
    + left. constructor; assumption.
  - right. apply Exists_cons_tl. exact IH.
Qed.

(** The validator lets every GENESIS token through, in any ledger. *)
Lemma verify_genesis_token tx self :
  is_genesis_token tx = true → verify_transaction tx self = (Return (true, "OK"), self).
Proof.
  unfold is_genesis_token. intros Hg. apply andb_true_iff in Hg as [Hty Hfrom].
  apply py_eq_str_true in Hty.
  unfold verify_transaction, when_block, tx_item. unfold tx_get in Hfrom.
  rewrite Hty. destruct (tx !! "from") as [vf|]; [|discriminate Hfrom].
  cbn in Hfrom. unfold mbind, M_bind, mret, M_ret. cbn. rewrite Hfrom. reflexivity.
Qed.

(** The effect of the genesis transaction: a credit without a debit. *)
Lemma apply_genesis_tx now fundador self :
  apply_effect now (genesis_tx fundador) self =
    (Return (),
     with_balances
       (<[KStr fundador.(address) :=
            default 0 (balances self !! KStr fundador.(address)) + SUPPLY_TOTAL]>
          (balances self)) self).
Proof. reflexivity. Qed.

(** The bootstrap of an empty ledger. *)
Lemma bootstrap_empty clock fundador :
  ensure_founder_and_genesis clock fundador empty_ledger =
    (Return (),
     {| chain := [build_block (clock 0%nat) [] [genesis_tx fundador]];
        balances := {[KStr fundador.(address) := SUPPLY_TOTAL]};
        collectibles := ∅ |}).
Proof.
  unfold ensure_founder_and_genesis, empty_ledger.
  unfold get_self, mbind at 1, M_bind at 1. cbn [chain length bool_decide decide_rel].
  rewrite bool_decide_eq_true_2 by reflexivity.
  unfold mbind at 1, M_bind at 1.
  rewrite add_block_validated.
  2:{ apply validation_pass. constructor; [|constructor].
      exists "OK". rewrite verify_genesis_token; reflexivity. }
  cbn [apply_effects]. unfold mbind at 1 2, M_bind at 1 2. rewrite apply_genesis_tx.
  unfold mbind, M_bind, mret, M_ret, set_balances, _persist, with_block, with_balances.
  cbn. rewrite insert_insert_eq. reflexivity.
Qed.

End SupplyConservation.

Section LedgerTheorems.
Context `{P : Platform}.

(** C1 (amended). The bootstrap of an empty ledger leaves the founder with
    SUPPLY_TOTAL and a total of SUPPLY_TOTAL. From any ledger whose balances
    sum to SUPPLY_TOTAL, every ledger reached by calls of [add_block] on
    batches that contain no GENESIS token transaction (whether the calls
    return or raise) still sums to SUPPLY_TOTAL. Applying a token transaction
    that passed the validator and whose sender is not GENESIS succeeds and is
    zero-sum; applying a collectible_create or a collectible_transfer changes
    no balance. *)
Theorem supply_conserved_without_genesis :
  (∀ clock fundador, ∃ self1 : Blockchain,
     ensure_founder_and_genesis clock fundador empty_ledger = (Return (), self1) ∧
     balances self1 !! KStr fundador.(address) = Some SUPPLY_TOTAL ∧
     sum_balances (balances self1) = SUPPLY_TOTAL) ∧
  (∀ self0 self : Blockchain,
     sum_balances (balances self0) = SUPPLY_TOTAL →
     reachable_without_genesis self0 self →
     sum_balances (balances self) = SUPPLY_TOTAL) ∧
  (∀ now tx (pre self : Blockchain),
     tx_type tx = VStr "token" → conserving pre tx →
     ∃ self', apply_effect now tx self = (Return (), self') ∧
              sum_balances (balances self') = sum_balances (balances self)) ∧
  (∀ now tx (self : Blockchain),
     tx_type tx = VStr "collectible_create" ∨ tx_type tx = VStr "collectible_transfer" →
     balances (apply_effect now tx self).2 = balances self).
Proof.
  split; [|split; [|split]].
  - intros clock fundador. eexists. split; [apply bootstrap_empty|]. cbn [balances].
    split; [apply lookup_singleton_eq|].
    rewrite <- insert_empty, sum_balances_insert_fresh by apply lookup_empty.
    rewrite sum_balances_empty. lia.
  - intros self0 self Hsum Hreach.
    induction Hreach as [|self clock txs r self' _ IH Hgen Hrun]; [exact Hsum|].
    rewrite (add_block_conserves _ _ _ _ _ Hgen Hrun). exact IH.
  - intros now tx pre self Hty [Hgen [m Hv]].
    unfold is_genesis_token in Hgen. rewrite Hty in Hgen. cbn in Hgen.
    destruct (validated_token_movable tx pre m Hty Hgen Hv) as (from & to & n & Hmov).
    eexists. split; [exact (apply_movable_token now _ _ _ _ self Hmov)|].
    cbn. apply sum_balances_transfer.
  - intros now tx self Hty. apply apply_non_token_keeps_balances.
    destruct Hty as [-> | ->]; reflexivity.
Qed.

(** C5 (amended). The bootstrap submits the GENESIS transaction only when the
    chain is empty: on a ledger whose chain is not empty it changes nothing,
    and on the empty ledger it appends one block holding that transaction
    and leaves the founder with the total supply. The validator itself
    accepts a GENESIS token transaction in any ledger; GENESIS token
    transactions are the only ones through which the total of the balances
    changes: a call of [add_block] that changes the total was given a batch
    containing one. *)
Theorem genesis_is_the_only_issuance :
  (∀ clock fundador (self : Blockchain), chain self ≠ [] →
     ensure_founder_and_genesis clock fundador self = (Return (), self)) ∧
  (∀ clock fundador,
     ensure_founder_and_genesis clock fundador empty_ledger =
       (Return (),
        {| chain := [build_block (clock 0%nat) [] [genesis_tx fundador]];
           balances := {[KStr fundador.(address) := SUPPLY_TOTAL]};
           collectibles := ∅ |})) ∧
  (∀ tx (self : Blockchain), is_genesis_token tx = true →
     verify_transaction tx self = (Return (true, "OK"), self)) ∧
  (∀ clock txs (self : Blockchain) r self',
     add_block clock txs self = (r, self') →
     sum_balances (balances self') ≠ sum_balances (balances self) →
     Exists (λ tx, is_genesis_token tx = true) txs).
Proof.
  split; [|split; [|split]].
  - intros clock fundador self Hne. unfold ensure_founder_and_genesis.
    unfold get_self, mbind, M_bind.
    rewrite bool_decide_eq_false_2; [reflexivity|].
    destruct (chain self); [congruence | discriminate].
  - apply bootstrap_empty.
  - apply verify_genesis_token.
  - intros clock txs self r self' Hrun Hne.
    destruct (genesis_free_or_not txs) as [Hfree|Hex]; [|exact Hex].
    contradict Hne. exact (add_block_conserves _ _ _ _ _ Hfree Hrun).
Qed.

(** C4. [add_block] validates every transaction of a batch against the
    ledger as it is before the batch: a call that returns a hash has seen
    each transaction pass against that ledger, and a batch whose
    transactions all pass against it goes on to the effect pass. So two
    well-formed, correctly signed token transactions of one sender, each for
    at most the sender's balance but together for more, are both accepted and
    both applied; when the sender is neither recipient, the sender's balance
    ends below zero. *)
Theorem snapshot_batch_validation :
  (∀ clock txs (self : Blockchain) h self',
     add_block clock txs self = (Return h, self') →
     Forall (λ tx, ∃ m, (verify_transaction tx self).1 = Return (true, m)) txs) ∧
  (∀ clock txs (self : Blockchain),
     Forall (λ tx, ∃ m, (verify_transaction tx self).1 = Return (true, m)) txs →
     add_block clock txs self =
       match apply_effects clock 1 txs self with
       | (Return _, self') =>
           (Return (build_block (clock 0%nat) (chain self) txs).(hash),
            with_block (build_block (clock 0%nat) (chain self) txs) self')
       | (Raise e, self') => (Raise e, self')
       end) ∧
  (∀ clock (self : Blockchain) tx1 tx2 from to1 to2 n1 n2 pk1 pk2 sg1 sg2,
     well_formed_token tx1 from to1 n1 pk1 sg1 →
     well_formed_token tx2 from to2 n2 pk2 sg2 →
     derived_address pk1 = Some from → derived_address pk2 = Some from →
     signature_verdict from to1 n1 pk1 sg1 = None →
     signature_verdict from to2 n2 pk2 sg2 = None →
     n1 ≤ default 0 (balances self !! KStr from) →
     n2 ≤ default 0 (balances self !! KStr from) →
     default 0 (balances self !! KStr from) < n1 + n2 →
     let b := build_block (clock 0%nat) (chain self) [tx1; tx2] in
     let after := transfer (KStr from) (KStr to2) n2
                    (transfer (KStr from) (KStr to1) n1 (balances self)) in
     add_block clock [tx1; tx2] self =
       (Return b.(hash), with_block b (with_balances after self)) ∧
     (to1 ≠ from → to2 ≠ from →
      ∃ left, after !! KStr from = Some left ∧
              left = default 0 (balances self !! KStr from) - n1 - n2 ∧ left < 0)).
Proof.
  split; [|split].
  - intros clock txs self h self' Hrun.
    destruct (validation_outcome txs self) as [Hok|[e He]].
    + exact (validation_pass_inv _ _ _ Hok).
    + rewrite (add_block_not_validated clock _ _ _ He) in Hrun. discriminate.
  - intros clock txs self Hall.
    rewrite (add_block_validated clock _ _ (validation_pass _ _ Hall)).
    destruct (apply_effects clock 1 txs self) as [[[]|e] s]; reflexivity.
  - intros clock self tx1 tx2 from to1 to2 n1 n2 pk1 pk2 sg1 sg2
      Hwf1 Hwf2 Ha1 Ha2 Hs1 Hs2 Hle1 Hle2 Hlt b after.
    assert (Hv : ∀ tx to n pk sg, well_formed_token tx from to n pk sg →
              derived_address pk = Some from → signature_verdict from to n pk sg = None →
              n ≤ default 0 (balances self !! KStr from) →
              (verify_transaction tx self).1 = Return (true, "OK")).
    { intros tx to n pk sg Hwf Ha Hs Hle.
      rewrite (verify_well_formed_token _ _ _ _ _ _ _ Hwf), Hs.
      rewrite bool_decide_eq_true_2 by done. cbn [negb].
      destruct (Z.ltb_spec (default 0 (balances self !! KStr from)) n); [lia | reflexivity]. }
    split.
    + rewrite add_block_validated.
      * cbn [apply_effects]. unfold mbind, M_bind.
        rewrite (apply_well_formed_token _ _ _ _ _ _ _ _ Hwf1).
        rewrite (apply_well_formed_token _ _ _ _ _ _ _ _ Hwf2). reflexivity.
      * apply validation_pass. repeat constructor; exists "OK"; eauto.
    + intros Hne1 Hne2. eexists. split; [|split; [reflexivity|lia]].
      subst after. rewrite transfer_sender by congruence.
      rewrite transfer_sender by congruence. cbn [default id]. f_equal.
Qed.

End LedgerTheorems.

(** * The properties at concrete ledgers *)

Section Scenarios.
#[local] Existing Instance demo_platform.

(** Genesis grants the founder 100,000,000; the founder pays 1,000 to [A]. *)
Example scenario_payment :
  length (chain Demo.paid) = 2%nat ∧
  balances Demo.paid !! KStr "h(pk)" = Some 99999000 ∧
  balances Demo.paid !! KStr "A" = Some 1000 ∧
  (prev_hash <$> chain Demo.paid !! 1%nat) = (hash <$> chain Demo.paid !! 0%nat).
Proof. vm_compute. repeat split; reflexivity. Qed.

(** [art1] is created for [A] and then transferred to [B]. *)
Example scenario_collectible :
  (c_owner <$> collectibles Demo.art_moved !! KStr "art1") = Some (VStr "B") ∧
  (c_name <$> collectibles Demo.art_moved !! KStr "art1") = Some (VStr "Piece").
Proof. vm_compute. split; reflexivity. Qed.

(** A second creation of [art1] and a transfer by a non-owner are rejected. *)
Example scenario_collectible_rejections :
  (verify_transaction Demo.create_art Demo.with_art).1 =
    Return (false, "ID inválido o ya existe") ∧
  (verify_transaction (<["from" := VStr "C"]> Demo.transfer_art) Demo.with_art).1 =
    Return (false, "No eres el dueño").
Proof. vm_compute. split; reflexivity. Qed.

(** [MCoins.py]: the founder is credited twice, by the initial dict and by
    the genesis block. *)
Example scenario_legacy_init :
  MCoins.balances Demo.legacy !! KStr "h(pk)" = Some 100000000 ∧
  length (MCoins.chain Demo.legacy) = 1%nat.
Proof. vm_compute. split; reflexivity. Qed.

End Scenarios.

Section Instances.
#[local] Existing Instance demo_platform.

Lemma demo_pay_well_formed to amount :
  0 < amount → well_formed_token (Demo.pay to amount) "h(pk)" to amount "pk" "ok".
Proof. intros Hpos. unfold well_formed_token. repeat split; try reflexivity; [discriminate | exact Hpos]. Defined.

(** After the bootstrap the validator and [add_block] accept a GENESIS token,
    and the total of the balances is no longer SUPPLY_TOTAL. *)
Lemma supply_inflated_after_bootstrap :
  balances Demo.bootstrapped !! KStr "h(pk)" = Some SUPPLY_TOTAL ∧
  sum_balances (balances Demo.bootstrapped) = SUPPLY_TOTAL ∧
  reachable_by_success Demo.bootstrapped Demo.inflated ∧
  sum_balances (balances Demo.inflated) = SUPPLY_TOTAL + 5 ∧
  ¬ (∀ self, reachable_by_success Demo.bootstrapped self →
             sum_balances (balances self) = SUPPLY_TOTAL).
Proof.
  assert (Hrun : (add_block Demo.clock [Demo.mint] Demo.bootstrapped).1 =
                 Return (build_block (Demo.clock 0%nat) (chain Demo.bootstrapped)
                           [Demo.mint]).(hash)) by (vm_compute; reflexivity).
  assert (Hreach : reachable_by_success Demo.bootstrapped Demo.inflated).
  { eapply rbs_add_block with (clock := Demo.clock) (txs := [Demo.mint]);
      [apply rbs_start|].
    rewrite <- Hrun. apply surjective_pairing. }
  split; [vm_compute; reflexivity|]. split; [vm_compute; reflexivity|].
  split; [exact Hreach|]. split; [vm_compute; reflexivity|].
  intros Hall. specialize (Hall _ Hreach). vm_compute in Hall. discriminate Hall.
Qed.

Lemma supply_conserved_witness :
  sum_balances (balances Demo.bootstrapped) = SUPPLY_TOTAL ∧
  reachable_without_genesis Demo.bootstrapped Demo.paid ∧
  sum_balances (balances Demo.paid) = SUPPLY_TOTAL.
Proof.
  assert (H0 : sum_balances (balances Demo.bootstrapped) = SUPPLY_TOTAL)
    by (vm_compute; reflexivity).
  assert (H1 : reachable_without_genesis Demo.bootstrapped Demo.paid).
  { eapply rwg_add_block with (clock := Demo.clock) (txs := [Demo.pay "A" 1000]);
      [apply rwg_start | repeat constructor | apply surjective_pairing]. }
  split; [exact H0|]. split; [exact H1|].
  exact (proj1 (proj2 (@supply_conserved_without_genesis demo_platform)) _ _ H0 H1).
Defined.

Lemma add_block_rejection_witness :
  well_formed_token (Demo.pay "A" 100000001) "h(pk)" "A" 100000001 "pk" "ok" ∧
  derived_address "pk" = Some "h(pk)" ∧
  default 0 (balances Demo.bootstrapped !! KStr "h(pk)") < 100000001 ∧
  add_block Demo.clock ([] ++ Demo.pay "A" 100000001 :: [Demo.pay "B" 1]) Demo.bootstrapped =
    (Raise (ValueError "Saldo insuficiente"), Demo.bootstrapped).
Proof.
  assert (Hwf : well_formed_token (Demo.pay "A" 100000001) "h(pk)" "A" 100000001 "pk" "ok")
    by (apply demo_pay_well_formed; lia).
  assert (Ha : derived_address "pk" = Some "h(pk)") by reflexivity.
  assert (Hlt : default 0 (balances Demo.bootstrapped !! KStr "h(pk)") < 100000001)
    by (vm_compute; reflexivity).
  split; [exact Hwf|]. split; [exact Ha|]. split; [exact Hlt|].
  exact (proj1 (proj2 (proj2
           ((@add_block_rejection_atomic demo_platform) Demo.clock [] _ [Demo.pay "B" 1] Demo.bootstrapped
              (Forall_nil _))))
           _ _ _ _ _ Hwf Ha Hlt).
Defined.

Lemma reachable_chain_linked_witness :
  reachable Demo.grown ∧ chain_linked (chain Demo.grown) ∧
  reachable_legacy Demo.legacy_grown ∧ chain_linked (MCoins.chain Demo.legacy_grown).
Proof.
  assert (H1 : reachable Demo.grown).
  { eapply reachable_add_block with (clock := Demo.clock) (txs := [Demo.pay "A" 1000]);
      [|apply surjective_pairing].
    eapply reachable_add_block with (clock := Demo.clock) (txs := [genesis_tx Demo.fundador])
      (self := empty_ledger); [apply reachable_empty; reflexivity | apply surjective_pairing]. }
  assert (H2 : reachable_legacy Demo.legacy_grown).
  { eapply reachable_legacy_add_block with (now := 0) (txs := [Demo.pay "A" 1000])
      (self := {| MCoins.chain := []; MCoins.balances := {[KStr "h(pk)" := 50000000]} |});
      [apply reachable_legacy_empty; reflexivity | apply surjective_pairing]. }
  split; [exact H1|]. split; [exact (proj1 (@reachable_chain_linked demo_platform) _ H1)|].
  split; [exact H2 | exact (proj2 (@reachable_chain_linked demo_platform) _ H2)].
Defined.

Lemma snapshot_batch_witness :
  let bal := default 0 (balances Demo.bootstrapped !! KStr "h(pk)") in
  60000000 ≤ bal ∧ 70000000 ≤ bal ∧ bal < 60000000 + 70000000 ∧
  (add_block Demo.clock [Demo.pay "A" 60000000; Demo.pay "B" 70000000] Demo.bootstrapped).1 =
    Return (build_block (Demo.clock 0%nat) (chain Demo.bootstrapped)
              [Demo.pay "A" 60000000; Demo.pay "B" 70000000]).(hash) ∧
  balances (add_block Demo.clock [Demo.pay "A" 60000000; Demo.pay "B" 70000000]
              Demo.bootstrapped).2 !! KStr "h(pk)" = Some (-30000000).
Proof.
  intros bal.
  assert (Hwf1 := demo_pay_well_formed "A" 60000000 eq_refl).
  assert (Hwf2 := demo_pay_well_formed "B" 70000000 eq_refl).
  assert (H1 : 60000000 ≤ bal) by (vm_compute; discriminate).
  assert (H2 : 70000000 ≤ bal) by (vm_compute; discriminate).
  assert (H3 : bal < 60000000 + 70000000) by (vm_compute; reflexivity).
  destruct (proj2 (proj2 (@snapshot_batch_validation demo_platform)) Demo.clock Demo.bootstrapped
              _ _ _ _ _ _ _ _ _ _ _ Hwf1 Hwf2 eq_refl eq_refl eq_refl eq_refl H1 H2 H3)
    as [Hrun Hneg].
  split; [exact H1|]. split; [exact H2|]. split; [exact H3|].
  rewrite Hrun. split; [reflexivity|].
  destruct Hneg as (left & Hleft & -> & _); [discriminate..|].
  exact Hleft.
Defined.

(** After the bootstrap, on a chain that is not empty, the validator accepts
    a GENESIS token transaction and [add_block] applies it: the total of the
    balances grows by its amount. *)
Lemma genesis_accepted_after_bootstrap :
  chain Demo.bootstrapped ≠ [] ∧
  is_genesis_token Demo.mint = true ∧
  (verify_transaction Demo.mint Demo.bootstrapped).1 = Return (true, "OK") ∧
  (add_block Demo.clock [Demo.mint] Demo.bootstrapped).1 =
    Return (build_block (Demo.clock 0%nat) (chain Demo.bootstrapped) [Demo.mint]).(hash) ∧
  sum_balances (balances (add_block Demo.clock [Demo.mint] Demo.bootstrapped).2) =
    sum_balances (balances Demo.bootstrapped) + 5.
Proof.
  split; [intros Hnil; apply (f_equal length) in Hnil; vm_compute in Hnil; discriminate|].
  split; [reflexivity|].
  split; [vm_compute; reflexivity|]. split; vm_compute; reflexivity.
Qed.

Lemma genesis_issuance_witness :
  chain Demo.paid ≠ [] ∧
  ensure_founder_and_genesis Demo.clock Demo.fundador Demo.paid = (Return (), Demo.paid) ∧
  is_genesis_token Demo.mint = true ∧
  verify_transaction Demo.mint Demo.paid = (Return (true, "OK"), Demo.paid).
Proof.
  assert (Hne : chain Demo.paid ≠ []).
  { intros Hnil. apply (f_equal length) in Hnil. vm_compute in Hnil. discriminate. }
  assert (Hg : is_genesis_token Demo.mint = true) by reflexivity.
  split; [exact Hne|].
  split; [exact (proj1 (@genesis_is_the_only_issuance demo_platform) Demo.clock Demo.fundador _ Hne)|].
  split; [exact Hg|].
  exact (proj1 (proj2 (proj2 (@genesis_is_the_only_issuance demo_platform))) _ Demo.paid Hg).
Defined.

Lemma address_binding_witness :
  well_formed_token Demo.forged "h(pk)" "mallory" 10 "other" "ok" ∧
  derived_address "other" ≠ Some "h(pk)" ∧
  verify_transaction Demo.forged Demo.bootstrapped =
    (Return (false, "La dirección 'from' no corresponde a la clave pública 'pubkey'"),
     Demo.bootstrapped).
Proof.
  assert (Hwf : well_formed_token Demo.forged "h(pk)" "mallory" 10 "other" "ok").
  { unfold well_formed_token. repeat split; try reflexivity; discriminate. }
  assert (Hne : derived_address "other" ≠ Some "h(pk)") by discriminate.
  split; [exact Hwf|]. split; [exact Hne|].
  exact (proj1 ((@address_binding_precedes_signature demo_platform) _ _ _ _ _ _ Demo.bootstrapped Hwf Hne)).
Defined.

Lemma collectible_transfer_witness :
  collectibles Demo.with_art !! KStr "art1" = Some Demo.art ∧
  py_eq (c_owner Demo.art) (tx_get Demo.transfer_art "from") = true ∧
  ∃ self' c',
    apply_effect 7 Demo.transfer_art Demo.with_art = (Return (), self') ∧
    collectibles self' !! KStr "art1" = Some c' ∧
    c_owner c' = VStr "B" ∧ c_timestamp c' = 7 ∧
    c_id c' = VStr "art1" ∧ c_name c' = VStr "Piece" ∧ c_metadata c' = VDict [] ∧
    balances self' = balances Demo.with_art.
Proof.
  assert (Hc : collectibles Demo.with_art !! KStr "art1" = Some Demo.art)
    by reflexivity.
  assert (Howner : py_eq (c_owner Demo.art) (tx_get Demo.transfer_art "from") = true)
    by reflexivity.
  split; [exact Hc|]. split; [exact Howner|].
  destruct ((@collectible_transfer_frame demo_platform) 7 Demo.transfer_art Demo.with_art
              (VStr "art1") (KStr "art1") Demo.art (VStr "B")
              eq_refl eq_refl eq_refl Hc Howner eq_refl)
    as (self' & c' & Hrun & Hk & Ho & Ht & Hi & Hn & Hm & _ & Hb & _).
  exists self', c'. repeat split; assumption.
Defined.

Lemma validator_purity_witness :
  (verify_transaction Demo.forged Demo.bootstrapped).2 = Demo.bootstrapped.
Proof. exact (proj1 ((@verify_transaction_pure demo_platform) Demo.forged Demo.bootstrapped)). Defined.

Lemma unknown_types_witness :
  unknown_type Demo.memo ∧
  verify_transaction Demo.memo Demo.bootstrapped = (Return (true, "OK"), Demo.bootstrapped) ∧
  balances (add_block Demo.clock [Demo.memo] Demo.bootstrapped).2 = balances Demo.bootstrapped.
Proof.
  assert (Hu : unknown_type Demo.memo).
  { exists (VStr "memo"). repeat split; try reflexivity; discriminate. }
  split; [exact Hu|].
  split; [exact (proj1 (@unknown_types_pass_validator demo_platform) _ Demo.bootstrapped Hu)|].
  destruct (proj1 (proj2 (@unknown_types_pass_validator demo_platform)) Demo.clock [Demo.memo]
              Demo.bootstrapped (Forall_cons _ _ _ Hu (Forall_nil _)))
    as (Hrun & _ & Hb & _).
  rewrite Hrun. exact Hb.
Defined.

End Instances.

(** * More properties of the ledger *)

Section BlockContract.
Context `{P : Platform}.


(** X2. The empty batch is accepted: [add_block([])] returns the hash of a
    block without transactions, which it appends, and leaves balances and
    collectibles as they were. *)
Theorem add_block_empty_batch clock (self : Blockchain) :
  let b := build_block (clock 0%nat) (chain self) [] in
  add_block clock [] self = (Return b.(hash), with_block b self) ∧
  b.(transactions) = [] ∧
  balances (with_block b self) = balances self ∧
  collectibles (with_block b self) = collectibles self ∧
  length (chain (with_block b self)) = S (length (chain self)).
Proof.
  intros b. split; [reflexivity|]. cbn. rewrite length_app. cbn.
  repeat split; try reflexivity. lia.
Qed.

End BlockContract.

Section ValidatorInversion.
Context `{P : Platform}.

(** What the validator has checked of a token transaction it let through,
    the sender not being the sentinel: string parties, a positive integer
    amount, and a balance that covers it. *)
Lemma validated_token_funded tx pre :
  tx_type tx = VStr "token" →
  py_eq (tx_get tx "from") (VStr "GENESIS") = false →
  validated pre tx →
  ∃ from to n, movable_token tx from to n ∧ 0 < n ∧
               n ≤ default 0 (balances pre !! KStr from).
Proof.
  intros Hty Hgen [m Hv].
  unfold verify_transaction, when_block, verify_token, address_from_pubkey_hex, fromhex,
    tx_item, tx_get, key_of, int_operand in *.
  rewrite Hty in Hv.
  unfold get_self, lift, raise, mbind, M_bind, mret, M_ret in Hv.
  destruct (tx !! "from") as [vf|] eqn:Hf; [|discriminate Hv].
  cbn in Hgen. cbn in Hv. rewrite Hgen in Hv. cbn in Hv.
  destruct vf as [| | |from| |]; try discriminate Hv.
  destruct (tx !! "to") as [[| | |to| |]|] eqn:Ht; try discriminate Hv.
  destruct (tx !! "amount") as [amount|] eqn:Ha; [|discriminate Hv].
  destruct (as_int amount) as [n|] eqn:Hn;
    [|destruct amount; try discriminate Hn; discriminate Hv].
  assert (Hint : is_int amount = true) by (destruct amount; try discriminate Hn; reflexivity).
  cbn in Hv. rewrite Hint in Hv. cbn in Hv.
  destruct (Z.leb_spec n 0) as [?|Hpos]; [discriminate Hv|]. cbn in Hv.
  destruct (tx !! "pubkey") as [[| | |pk| |]|] eqn:Hpk; try discriminate Hv. cbn in Hv.
  destruct (bytes_fromhex pk) as [pkb|?] eqn:Hpkb; [|discriminate Hv]. cbn in Hv.
  destruct (tx !! "signature") as [[| | |sg| |]|] eqn:Hsg; try discriminate Hv. cbn in Hv.
  destruct (bytes_fromhex sg) as [sgb|?] eqn:Hsgb; [|discriminate Hv]. cbn in Hv.
  destruct (String.eqb (sha256_hexdigest pkb) from); [|discriminate Hv]. cbn in Hv.
  destruct (Z.ltb_spec (default 0 (balances pre !! KStr from)) n) as [?|Hle];
    [discriminate Hv|].
  exists from, to, n. split; [|split; [exact Hpos | exact Hle]].
  unfold movable_token. rewrite Hf, Ht.
  split; [exact Hty|]. split; [reflexivity|]. split.
  { intros ->. cbn in Hgen. discriminate. }
  split; [reflexivity|]. eauto.
Qed.

(** What the validator has checked of a collectible_create it let through. *)
Lemma validated_create_fresh tx pre :
  tx_type tx = VStr "collectible_create" →
  validated pre tx →
  ∃ id k to, tx !! "id" = Some id ∧ truthy id = true ∧ py_hash id = Some k ∧
             collectibles pre !! k = None ∧
             tx !! "to" = Some to ∧ truthy to = true.
Proof.
  intros Hty [m Hv].
  unfold verify_transaction, when_block, verify_collectible_create,
    tx_item, tx_get, key_of in *.
  rewrite Hty in Hv.
  unfold get_self, lift, raise, mbind, M_bind, mret, M_ret in Hv. cbn in Hv.
  destruct (tx !! "id") as [id|] eqn:Hid; [|discriminate Hv]. cbn in Hv.
  destruct (truthy id) eqn:Htr; [|discriminate Hv]. cbn in Hv.
  destruct (py_hash id) as [k|] eqn:Hk; [|discriminate Hv]. cbn in Hv.
  destruct (collectibles pre !! k) as [c|] eqn:Hc.
  { rewrite bool_decide_eq_true_2 in Hv by eauto. discriminate Hv. }
  rewrite bool_decide_eq_false_2 in Hv by (intros [? ?]; discriminate). cbn in Hv.
  destruct (tx !! "to") as [to|] eqn:Hto; [|discriminate Hv]. cbn in Hv.
  destruct (truthy to) eqn:Htt; [|discriminate Hv].
  exists id, k, to. auto 10.
Qed.

(** What the validator has checked of a collectible_transfer it let through. *)
Lemma validated_transfer_owned tx pre :
  tx_type tx = VStr "collectible_transfer" →
  validated pre tx →
  ∃ id k c, tx !! "id" = Some id ∧ truthy id = true ∧ py_hash id = Some k ∧
            collectibles pre !! k = Some c ∧
            py_eq (c_owner c) (tx_get tx "from") = true.
Proof.
  intros Hty [m Hv].
  unfold verify_transaction, when_block, verify_collectible_transfer,
    tx_item, tx_get, key_of in *.
  rewrite Hty in Hv.
  unfold get_self, lift, raise, mbind, M_bind, mret, M_ret in Hv. cbn in Hv.
  destruct (tx !! "id") as [id|] eqn:Hid; [|discriminate Hv]. cbn in Hv.
  destruct (truthy id) eqn:Htr; [|discriminate Hv]. cbn in Hv.
  destruct (py_hash id) as [k|] eqn:Hk; [|discriminate Hv]. cbn in Hv.
  destruct (collectibles pre !! k) as [c|] eqn:Hc.
  2:{ rewrite bool_decide_eq_false_2 in Hv by (intros [? ?]; discriminate).
      cbn in Hv. discriminate Hv. }
  rewrite bool_decide_eq_true_2 in Hv by eauto. cbn in Hv. rewrite Hc in Hv.
  destruct (py_eq (c_owner c) (default VNone (tx !! "from"))) eqn:Ho;
    [|cbn in Hv; discriminate Hv].
  exists id, k, c. auto 10.
Qed.

End ValidatorInversion.

Section CollectibleEffects.
Context `{P : Platform}.

Lemma apply_create now tx id k to self :
  tx_type tx = VStr "collectible_create" →
  tx !! "id" = Some id → py_hash id = Some k → tx !! "to" = Some to →
  apply_effect now tx self =
    (Return (), with_collectibles (<[k := created now tx id to]> (collectibles self)) self).
Proof.
  intros Hty Hid Hk Hto.
  unfold apply_effect, set_collectibles, tx_item, key_of.
  rewrite Hty, Hid, Hto. unfold get_self, raise, mbind, M_bind, mret, M_ret. cbn.
  rewrite Hk. reflexivity.
Qed.

Lemma apply_transfer now tx id k c to self :
  tx_type tx = VStr "collectible_transfer" →
  tx !! "id" = Some id → py_hash id = Some k → collectibles self !! k = Some c →
  tx !! "to" = Some to →
  apply_effect now tx self =
    (Return (), with_collectibles (<[k := moved now to c]> (collectibles self)) self).
Proof.
  intros Hty Hid Hk Hc Hto.
  unfold apply_effect, set_collectibles, tx_item, key_of.
  rewrite Hty, Hid, Hto. unfold get_self, raise, mbind, M_bind, mret, M_ret. cbn.
  rewrite Hk. cbn. rewrite Hc. cbn. rewrite lookup_insert_eq, insert_insert_eq. reflexivity.
Qed.

(** A transfer without ['to'] raises before it has written anything. *)
Lemma apply_transfer_without_to now tx id self :
  tx_type tx = VStr "collectible_transfer" →
  tx !! "id" = Some id → tx !! "to" = None →
  apply_effect now tx self = (Raise (KeyError (KStr "to")), self).
Proof.
  intros Hty Hid Hto. unfold apply_effect, tx_item. rewrite Hty, Hid, Hto. reflexivity.
Qed.

(** Only the two collectible transactions write collectibles. *)
Lemma apply_other_keeps_collectibles now tx self :
  py_eq (tx_type tx) (VStr "collectible_create") = false →
  py_eq (tx_type tx) (VStr "collectible_transfer") = false →
  collectibles (apply_effect now tx self).2 = collectibles self.
Proof.
  intros H1 H2. unfold apply_effect. rewrite H1, H2.
  unfold move_balance, set_balances, tx_get, tx_item, key_of, int_operand.
  unfold get_self, lift, raise, mbind, M_bind, mret, M_ret.
  repeat first
    [ reflexivity
    | match goal with
      | |- context [match ?x with _ => _ end] =>
          lazymatch x with
          | context [match _ with _ => _ end] => fail
          | _ => destruct x eqn:?; cbn
          end
      end ].
Qed.

Lemma collectibles_kept_refl (m : gmap pykey Collectible) : collectibles_kept m m.
Proof. intros k c Hk. exists c. repeat split; [exact Hk | reflexivity..]. Qed.

Lemma collectibles_kept_trans (m1 m2 m3 : gmap pykey Collectible) :
  collectibles_kept m1 m2 → collectibles_kept m2 m3 → collectibles_kept m1 m3.
Proof.
  intros H12 H23 k c Hk.
  destruct (H12 k c Hk) as (c2 & Hk2 & Hi1 & Hn1 & Hm1).
  destruct (H23 k c2 Hk2) as (c3 & Hk3 & Hi2 & Hn2 & Hm2).
  exists c3. split; [exact Hk3|]. unfold same_identity. repeat split; congruence.
Qed.

(** One validated transaction keeps the collectibles the batch started with. *)
Lemma apply_effect_keeps_collectibles now tx pre self :
  validated pre tx →
  collectibles_kept (collectibles pre) (collectibles self) →
  collectibles_kept (collectibles pre) (collectibles (apply_effect now tx self).2).
Proof.
  intros Hv Hinv.
  destruct (py_eq (tx_type tx) (VStr "collectible_create")) eqn:Hc.
  { apply py_eq_str_true in Hc.
    destruct (validated_create_fresh tx pre Hc Hv) as (id & k & to & Hid & _ & Hk & Hfresh & Hto & _).
    rewrite (apply_create now tx id k to self Hc Hid Hk Hto). cbn.
    intros k0 c0 Hk0. destruct (Hinv k0 c0 Hk0) as (c' & Hk' & Hsame).
    exists c'. split; [|exact Hsame].
    rewrite lookup_insert_ne; [exact Hk'|]. intros ->. congruence. }
  destruct (py_eq (tx_type tx) (VStr "collectible_transfer")) eqn:Ht.
  { apply py_eq_str_true in Ht.
    destruct (validated_transfer_owned tx pre Ht Hv) as (id & k & c & Hid & _ & Hk & Hpre & _).
    destruct (Hinv k c Hpre) as (c1 & Hk1 & Hi & Hn & Hm).
    destruct (tx !! "to") as [to|] eqn:Hto.
    - rewrite (apply_transfer now tx id k c1 to self Ht Hid Hk Hk1 Hto). cbn.
      intros k0 c0 Hk0. destruct (decide (k0 = k)) as [->|Hne].
      + rewrite lookup_insert_eq. eexists. split; [reflexivity|].
        assert (c0 = c) as -> by congruence. unfold same_identity. cbn. auto.
      + rewrite lookup_insert_ne by congruence. exact (Hinv k0 c0 Hk0).
    - rewrite (apply_transfer_without_to now tx id self Ht Hid Hto). exact Hinv. }
  rewrite (apply_other_keeps_collectibles now tx self Hc Ht). exact Hinv.
Qed.

Lemma apply_effects_keeps_collectibles clock i txs pre self :
  Forall (validated pre) txs →
  collectibles_kept (collectibles pre) (collectibles self) →
  collectibles_kept (collectibles pre) (collectibles (apply_effects clock i txs self).2).
Proof.
  intros Hall. revert i self.
  induction Hall as [|tx txs Htx _ IH]; intros i self Hinv; simpl; [exact Hinv|].
  unfold mbind, M_bind.
  pose proof (apply_effect_keeps_collectibles (clock i) tx pre self Htx Hinv) as H.
  destruct (apply_effect (clock i) tx self) as [[[]|e] s]; simpl in *.
  - apply IH. exact H.
  - exact H.
Qed.

(** A call of [add_block], returning or raising, keeps every collectible. *)
Lemma add_block_keeps_collectibles clock txs self r self' :
  add_block clock txs self = (r, self') →
  collectibles_kept (collectibles self) (collectibles self').
Proof.
  intros Hrun.
  destruct (validation_outcome txs self) as [Hok|[e He]].
  - pose proof (validation_pass_inv _ _ _ Hok) as Hall.
    rewrite (add_block_validated clock _ _ Hok) in Hrun.
    pose proof (apply_effects_keeps_collectibles clock 1 txs self self Hall
                  (collectibles_kept_refl _)) as Hk.
    destruct (apply_effects clock 1 txs self) as [[[]|e] s]; simpl in *;
      injection Hrun as <- <-; exact Hk.
  - rewrite (add_block_not_validated clock _ _ _ He) in Hrun.
    injection Hrun as <- <-. apply collectibles_kept_refl.
Qed.

(** X3. Collectibles are permanent: over any sequence of calls of
    [add_block], returning or raising, a collectible that is in the registry
    stays in it with the same id, name and metadata (only owner and
    timestamp can change), and the validator rejects every later
    collectible_create for its id with the duplicate-id reason. *)
Theorem collectibles_are_permanent (self0 self : Blockchain) :
  reachable_from self0 self →
  collectibles_kept (collectibles self0) (collectibles self) ∧
  (∀ tx id k, tx_type tx = VStr "collectible_create" →
     tx !! "id" = Some id → py_hash id = Some k →
     is_Some (collectibles self0 !! k) →
     verify_transaction tx self = (Return (false, "ID inválido o ya existe"), self)).
Proof.
  intros Hreach.
  assert (Hkept : collectibles_kept (collectibles self0) (collectibles self)).
  { induction Hreach as [|self clock txs r self' _ IH Hrun].
    - apply collectibles_kept_refl.
    - eapply collectibles_kept_trans; [exact IH|].
      exact (add_block_keeps_collectibles _ _ _ _ _ Hrun). }
  split; [exact Hkept|].
  intros tx id k Hty Hid Hk [c Hc].
  destruct (Hkept k c Hc) as (c' & Hc' & _).
  unfold verify_transaction, when_block, verify_collectible_create, tx_item, tx_get, key_of.
  rewrite Hty, Hid. unfold get_self, raise, mbind, M_bind, mret, M_ret. cbn.
  destruct (truthy id); cbn; [|reflexivity].
  rewrite Hk. cbn. rewrite bool_decide_eq_true_2 by eauto. reflexivity.
Qed.

End CollectibleEffects.

Section BatchEdges.
Context `{P : Platform}.

Lemma verify_create_ok tx id k to self :
  tx_type tx = VStr "collectible_create" →
  tx !! "id" = Some id → truthy id = true → py_hash id = Some k →
  collectibles self !! k = None →
  tx !! "to" = Some to → truthy to = true →
  validated self tx.
Proof.
  intros Hty Hid Htr Hk Hfresh Hto Htt. exists "OK".
  unfold verify_transaction, when_block, verify_collectible_create, tx_item, tx_get, key_of.
  rewrite Hty, Hid, Hto. unfold get_self, raise, mbind, M_bind, mret, M_ret. cbn.
  rewrite Htr. cbn. rewrite Hk. cbn.
  rewrite bool_decide_eq_false_2 by (rewrite Hfresh; intros [? ?]; discriminate).
  cbn. rewrite Htt. reflexivity.
Qed.

(** X4. Two collectible_create transactions for the same fresh id in one
    batch both pass, because each is validated against the registry before
    the batch; the block is appended and the registry keeps only the record
    of the second, so the first one's name, owner and metadata are lost. *)
Theorem duplicate_create_in_one_batch clock tx1 tx2 id1 id2 k to1 to2 (self : Blockchain) :
  tx_type tx1 = VStr "collectible_create" → tx_type tx2 = VStr "collectible_create" →
  tx1 !! "id" = Some id1 → tx2 !! "id" = Some id2 →
  truthy id1 = true → truthy id2 = true →
  py_hash id1 = Some k → py_hash id2 = Some k →
  collectibles self !! k = None →
  tx1 !! "to" = Some to1 → tx2 !! "to" = Some to2 →
  truthy to1 = true → truthy to2 = true →
  let b := build_block (clock 0%nat) (chain self) [tx1; tx2] in
  add_block clock [tx1; tx2] self =
    (Return b.(hash),
     with_block b
       (with_collectibles
          (<[k := created (clock 2%nat) tx2 id2 to2]> (collectibles self)) self)).
Proof.
  intros Hty1 Hty2 Hid1 Hid2 Htr1 Htr2 Hk1 Hk2 Hfresh Hto1 Hto2 Htt1 Htt2 b.
  rewrite add_block_validated.
  - cbn [apply_effects]. unfold mbind, M_bind.
    rewrite (apply_create _ tx1 id1 k to1 self Hty1 Hid1 Hk1 Hto1).
    rewrite (apply_create _ tx2 id2 k to2 _ Hty2 Hid2 Hk2 Hto2).
    cbn. unfold with_collectibles, with_block. cbn. rewrite insert_insert_eq. reflexivity.
  - apply validation_pass. repeat constructor.
    + exact (verify_create_ok tx1 id1 k to1 self Hty1 Hid1 Htr1 Hk1 Hfresh Hto1 Htt1).
    + exact (verify_create_ok tx2 id2 k to2 self Hty2 Hid2 Htr2 Hk2 Hfresh Hto2 Htt2).
Qed.

(** X5. The effect pass is not undone when it fails: in a batch of a
    validated payment followed by a collectible_transfer that passed the
    validator but has no ['to'], [add_block] raises [KeyError('to')] after the
    payment has been applied; no block is appended, yet the balances are those
    after the payment. *)
Theorem effect_failure_keeps_earlier_effects clock tx1 tx2 from to n (self : Blockchain) :
  movable_token tx1 from to n → validated self tx1 →
  tx_type tx2 = VStr "collectible_transfer" → validated self tx2 →
  tx2 !! "to" = None →
  add_block clock [tx1; tx2] self =
    (Raise (KeyError (KStr "to")),
     with_balances (transfer (KStr from) (KStr to) n (balances self)) self).
Proof.
  intros Hmov Hv1 Hty2 Hv2 Hto.
  destruct (validated_transfer_owned tx2 self Hty2 Hv2) as (id & k & c & Hid & _).
  rewrite add_block_validated.
  - cbn [apply_effects]. unfold mbind, M_bind.
    rewrite (apply_movable_token _ _ _ _ _ self Hmov).
    rewrite (apply_transfer_without_to _ tx2 id _ Hty2 Hid Hto). reflexivity.
  - apply validation_pass. repeat constructor; assumption.
Qed.

End BatchEdges.

Section TokenEffects.
Context `{P : Platform}.

(** X6. Applying a token transaction that passed the validator, the sender
    not being GENESIS, succeeds and touches two balances only. The parties
    are strings and the amount is a positive integer that the sender's
    balance covered in the ledger of the validation; the sender's balance
    goes down and the recipient's goes up by the amount; every other
    balance, the collectibles and the chain stay as they were. When the
    sender pays itself, its balance is what it was. *)
Theorem token_transfer_frame now tx (pre self : Blockchain) :
  tx_type tx = VStr "token" →
  py_eq (tx_get tx "from") (VStr "GENESIS") = false →
  validated pre tx →
  ∃ from to n self',
    movable_token tx from to n ∧
    0 < n ∧ n ≤ default 0 (balances pre !! KStr from) ∧
    apply_effect now tx self = (Return (), self') ∧
    chain self' = chain self ∧ collectibles self' = collectibles self ∧
    (∀ k, k ≠ KStr from → k ≠ KStr to → balances self' !! k = balances self !! k) ∧
    (from ≠ to →
       balances self' !! KStr from = Some (default 0 (balances self !! KStr from) - n) ∧
       balances self' !! KStr to = Some (default 0 (balances self !! KStr to) + n)) ∧
    (from = to →
       balances self' !! KStr from = Some (default 0 (balances self !! KStr from))).
Proof.
  intros Hty Hgen Hv.
  destruct (validated_token_funded tx pre Hty Hgen Hv) as (from & to & n & Hmov & Hpos & Hle).
  exists from, to, n. eexists.
  split; [exact Hmov|]. split; [exact Hpos|]. split; [exact Hle|].
  split; [exact (apply_movable_token now _ _ _ _ self Hmov)|]. cbn.
  split; [reflexivity|]. split; [reflexivity|]. split; [|split].
  - intros k Hkf Hkt. apply transfer_other; assumption.
  - intros Hne. split.
    + apply transfer_sender. congruence.
    + unfold transfer. cbn zeta. rewrite lookup_insert_eq.
      rewrite lookup_insert_ne by congruence. reflexivity.
  - intros ->. unfold transfer. cbn zeta. rewrite !lookup_insert_eq. cbn. f_equal. lia.
Qed.

Lemma solvent_transfer from to n (b : gmap pykey Z) :
  solvent b → 0 < n → n ≤ default 0 (b !! from) → solvent (transfer from to n b).
Proof.
  intros Hs Hpos Hle k v. unfold transfer. cbn zeta.
  assert (Hget : ∀ j, 0 ≤ default 0 (b !! j)).
  { intros j. destruct (b !! j) as [x|] eqn:Hj; cbn; [exact (Hs j x Hj) | lia]. }
  destruct (decide (k = to)) as [->|Hkt].
  - rewrite lookup_insert_eq. intros [= <-].
    destruct (decide (to = from)) as [->|Hne].
    + rewrite lookup_insert_eq. cbn. lia.
    + rewrite lookup_insert_ne by congruence. pose proof (Hget to). lia.
  - rewrite lookup_insert_ne by congruence.
    destruct (decide (k = from)) as [->|Hkf].
    + rewrite lookup_insert_eq. intros [= <-]. lia.
    + rewrite lookup_insert_ne by congruence. apply Hs.
Qed.

(** X7. A batch of one transaction that is not a GENESIS token keeps the
    ledger solvent: when no balance is below zero before the call of
    [add_block], none is after it, whether the call returns or raises. *)
Theorem single_transaction_keeps_solvent clock tx (self : Blockchain) r self' :
  is_genesis_token tx = false →
  solvent (balances self) →
  add_block clock [tx] self = (r, self') →
  solvent (balances self').
Proof.
  intros Hgen Hs Hrun.
  destruct (validation_outcome [tx] self) as [Hok|[e He]].
  - pose proof (validation_pass_inv _ _ _ Hok) as Hall.
    apply Forall_cons_1 in Hall as [Hv _].
    rewrite (add_block_validated clock _ _ Hok) in Hrun.
    assert (Hs' : solvent (balances (apply_effects clock 1 [tx] self).2)).
    { cbn [apply_effects]. unfold mbind, M_bind.
      assert (Hone : solvent (balances (apply_effect (clock 1%nat) tx self).2)).
      { unfold is_genesis_token in Hgen.
        destruct (py_eq (tx_type tx) (VStr "token")) eqn:Hty.
        - cbn [andb] in Hgen. apply py_eq_str_true in Hty.
          destruct (validated_token_funded tx self Hty Hgen Hv)
            as (from & to & n & Hmov & Hpos & Hle).
          rewrite (apply_movable_token _ _ _ _ _ self Hmov). cbn.
          apply solvent_transfer; assumption.
        - rewrite (apply_non_token_keeps_balances _ tx Hty self). exact Hs. }
      destruct (apply_effect (clock 1%nat) tx self) as [[[]|e] s]; exact Hone. }
    destruct (apply_effects clock 1 [tx] self) as [[[]|e] s]; simpl in *;
      injection Hrun as <- <-; exact Hs'.
  - rewrite (add_block_not_validated clock _ _ _ He) in Hrun.
    injection Hrun as <- <-. exact Hs.
Qed.

(** X8. On any ledger whose chain is empty, whatever balances and
    collectibles it was loaded with, the bootstrap appends the genesis block
    and sets the founder's balance to SUPPLY_TOTAL (discarding what the
    founder had, keeping every other balance and every collectible); run
    again on the ledger it left, it changes nothing. *)
Theorem bootstrap_on_empty_chain clock clock' fundador (self : Blockchain) :
  chain self = [] →
  let b := build_block (clock 0%nat) [] [genesis_tx fundador] in
  let self' :=
    {| chain := [b];
       balances := <[KStr fundador.(address) := SUPPLY_TOTAL]> (balances self);
       collectibles := collectibles self |} in
  ensure_founder_and_genesis clock fundador self = (Return (), self') ∧
  ensure_founder_and_genesis clock' fundador self' = (Return (), self') ∧
  b.(transactions) = [genesis_tx fundador] ∧ b.(prev_hash) = "0" ∧ b.(index) = 1.
Proof.
  intros Hnil b self'. split; [|split; [|repeat split]].
  - unfold ensure_founder_and_genesis.
    unfold get_self, mbind at 1, M_bind at 1.
    rewrite bool_decide_eq_true_2 by (rewrite Hnil; reflexivity).
    unfold mbind at 1, M_bind at 1.
    rewrite add_block_validated.
    2:{ apply validation_pass. constructor; [|constructor].
        exists "OK". rewrite verify_genesis_token; reflexivity. }
    cbn [apply_effects]. unfold mbind at 1 2, M_bind at 1 2. rewrite apply_genesis_tx.
    unfold mbind, M_bind, mret, M_ret, set_balances, _persist, with_block, with_balances.
    cbn. rewrite insert_insert_eq, Hnil. reflexivity.
  - unfold ensure_founder_and_genesis. unfold get_self, mbind, M_bind.
    rewrite bool_decide_eq_false_2; [reflexivity | discriminate].
Qed.

End TokenEffects.

Section LegacyLedger.
Context `{P : Platform}.

Lemma legacy_apply_plain_transfer tx from to n (self : MCoins.Blockchain) :
  plain_transfer tx from to n →
  MCoins.update_balances tx self =
    (Return (),
     {| MCoins.chain := MCoins.chain self;
        MCoins.balances := transfer (KStr from) (KStr to) n (MCoins.balances self) |}).
Proof.
  intros (Hfrom & Hgen & Hto & amount & Hamt & Hn).
  unfold MCoins.update_balances, MCoins.move_balance, MCoins.set_balances,
    tx_item, key_of, int_operand.
  unfold get_self, lift, raise, mbind, M_bind, mret, M_ret.
  rewrite Hfrom, Hto, Hamt, Hn. cbn.
  rewrite (proj2 (String.eqb_neq from "GENESIS")) by congruence. reflexivity.
Qed.

Lemma legacy_for_each_plain_transfers txs (self : MCoins.Blockchain) :
  Forall (λ tx, ∃ from to n, plain_transfer tx from to n) txs →
  ∃ b, for_each MCoins.update_balances txs self =
         (Return (), {| MCoins.chain := MCoins.chain self; MCoins.balances := b |}) ∧
       sum_balances b = sum_balances (MCoins.balances self).
Proof.
  intros Hall. revert self.
  induction Hall as [|tx txs (from & to & n & Htx) _ IH]; intros self; simpl.
  - exists (MCoins.balances self). destruct self; split; reflexivity.
  - unfold mbind, M_bind. rewrite (legacy_apply_plain_transfer _ _ _ _ self Htx).
    destruct (IH {| MCoins.chain := MCoins.chain self;
                    MCoins.balances :=
                      transfer (KStr from) (KStr to) n (MCoins.balances self) |})
      as (b & Hrun & Hsum).
    exists b. split; [exact Hrun|]. rewrite Hsum. cbn. apply sum_balances_transfer.
Qed.

(** X9. The ledger of [MCoins.py] validates nothing: a batch of transfers
    between string parties for integer amounts is always accepted, whatever
    the senders hold (the amounts may exceed the balances, or be negative);
    it appends one block holding the batch, returns its hash and keeps the
    total of the balances. A single transfer to somebody else leaves the
    sender with its balance minus the amount, below zero if it had less. *)
Theorem legacy_add_block_never_rejects now txs (self : MCoins.Blockchain) :
  Forall (λ tx, ∃ from to n, plain_transfer tx from to n) txs →
  let b := build_block now (MCoins.chain self) txs in
  (∃ bal, MCoins.add_block now txs self =
            (Return b.(hash),
             {| MCoins.chain := MCoins.chain self ++ [b]; MCoins.balances := bal |}) ∧
          sum_balances bal = sum_balances (MCoins.balances self)) ∧
  (∀ tx from to n, txs = [tx] → plain_transfer tx from to n → from ≠ to →
     MCoins.balances (MCoins.add_block now txs self).2 !! KStr from =
       Some (default 0 (MCoins.balances self !! KStr from) - n)).
Proof.
  intros Hall b. split.
  - destruct (legacy_for_each_plain_transfers txs self Hall) as (bal & Hrun & Hsum).
    exists bal. split; [|exact Hsum].
    unfold MCoins.add_block, MCoins.set_chain. unfold get_self, mbind, M_bind, mret, M_ret.
    rewrite Hrun. reflexivity.
  - intros tx from to n -> Htx Hne.
    unfold MCoins.add_block, MCoins.set_chain. unfold get_self, mbind, M_bind, mret, M_ret.
    cbn [for_each]. unfold mbind, M_bind, mret, M_ret.
    rewrite (legacy_apply_plain_transfer _ _ _ _ self Htx). cbn.
    apply transfer_sender. congruence.
Qed.

(** X10. In the ledger of [MCoins.py] a transfer without ['to'] destroys
    what it debits: [add_block] raises [KeyError('to')] after the sender has
    been debited, no block is appended, and the total of the balances has
    dropped by the amount. *)
Theorem legacy_missing_recipient_burns now tx from amount n (self : MCoins.Blockchain) :
  tx !! "from" = Some (VStr from) → from ≠ "GENESIS" →
  tx !! "amount" = Some amount → as_int amount = Some n →
  tx !! "to" = None →
  let debited := <[KStr from := default 0 (MCoins.balances self !! KStr from) - n]>
                   (MCoins.balances self) in
  MCoins.add_block now [tx] self =
    (Raise (KeyError (KStr "to")),
     {| MCoins.chain := MCoins.chain self; MCoins.balances := debited |}) ∧
  sum_balances debited = sum_balances (MCoins.balances self) - n.
Proof.
  intros Hfrom Hgen Hamt Hn Hto debited. split.
  - unfold MCoins.add_block, MCoins.update_balances, MCoins.move_balance,
      MCoins.set_balances, MCoins.set_chain, tx_item, key_of, int_operand.
    cbn [for_each]. unfold get_self, lift, raise, mbind, M_bind, mret, M_ret.
    rewrite Hfrom, Hto, Hamt, Hn. cbn.
    rewrite (proj2 (String.eqb_neq from "GENESIS")) by congruence. reflexivity.
  - unfold debited. rewrite sum_balances_insert. lia.
Qed.

(** The genesis transaction of [MCoins.py] credits without a debit. *)
Lemma legacy_genesis_effect founder_wallet supply_total (self : MCoins.Blockchain) :
  MCoins.update_balances
    (<["from" := VStr "GENESIS"]> (
     <["to" := VStr founder_wallet.(address)]> (
     <["amount" := VInt supply_total]> (
     <["pubkey" := VStr founder_wallet.(public_key_hex)]> (
     <["signature" := VStr "GENESIS"]> ∅))))) self =
    (Return (),
     {| MCoins.chain := MCoins.chain self;
        MCoins.balances :=
          <[KStr founder_wallet.(address) :=
              default 0 (MCoins.balances self !! KStr founder_wallet.(address)) +
              supply_total]> (MCoins.balances self) |}).
Proof. reflexivity. Qed.

(** X11. [Blockchain(founder_wallet, supply_total)] of [MCoins.py] credits the
    founder twice, once by the initial balances and once by the genesis
    block: the new ledger has one block and the founder holds twice the
    supply. *)
Theorem legacy_init_credits_twice now founder_wallet supply_total :
  ∃ b, MCoins.init now founder_wallet supply_total =
         (Return (),
          {| MCoins.chain := [b];
             MCoins.balances :=
               {[KStr founder_wallet.(address) := supply_total + supply_total]} |}) ∧
       b.(index) = 1 ∧ b.(prev_hash) = "0" ∧ length b.(transactions) = 1%nat.
Proof.
  eexists. split.
  { unfold MCoins.init, MCoins.add_block, MCoins.set_chain.
    cbn [for_each]. unfold get_self, mbind, M_bind, mret, M_ret.
    rewrite legacy_genesis_effect. cbn [MCoins.chain MCoins.balances].
    rewrite lookup_singleton_eq. cbn [default id]. rewrite insert_singleton_eq.
    reflexivity. }
  repeat split.
Qed.

End LegacyLedger.

Section SingleBatch.
Context `{P : Platform}.





(** What a batch of one transaction comes to. *)
Lemma add_block_single clock tx (self : Blockchain) :
  add_block clock [tx] self =
    match (verify_transaction tx self).1 with
    | Return (true, _) =>
        match apply_effect (clock 1%nat) tx self with
        | (Return _, s) =>
            (Return (build_block (clock 0%nat) (chain self) [tx]).(hash),
             with_block (build_block (clock 0%nat) (chain self) [tx]) s)
        | (Raise e, s) => (Raise e, s)
        end
    | Return (false, msg) => (Raise (ValueError msg), self)
    | Raise e => (Raise e, self)
    end.
Proof.
  destruct (verify_transaction tx self).1 as [[[] m]|e] eqn:Hv.
  - rewrite add_block_validated.
    + cbn [apply_effects]. unfold mbind, M_bind.
      destruct (apply_effect (clock 1%nat) tx self) as [[[]|e] s]; reflexivity.
    + apply validation_pass. repeat constructor. eauto.
  - apply add_block_not_validated. cbn [for_each]. unfold mbind, M_bind.
    rewrite (validate_or_raise_rejected _ _ _ Hv). reflexivity.
  - apply add_block_not_validated. cbn [for_each]. unfold mbind, M_bind.
    rewrite (validate_or_raise_raised _ _ _ Hv). reflexivity.
Qed.



End SingleBatch.

Section TransactionRoute.
Context `{P : Platform} {R : @Runtime P}.






End TransactionRoute.

Section TransactionRouteCases.
Context `{P : Platform} {R : @Runtime P}.

Lemma token_tx_fields from to n pubkey signature :
  tx_type (token_tx from to n pubkey signature) = VStr "token" ∧
  token_tx from to n pubkey signature !! "from" = Some from ∧
  token_tx from to n pubkey signature !! "to" = Some to ∧
  token_tx from to n pubkey signature !! "amount" = Some (VInt n) ∧
  token_tx from to n pubkey signature !! "pubkey" = Some pubkey ∧
  token_tx from to n pubkey signature !! "signature" = Some signature.
Proof. repeat split; reflexivity. Qed.

(** What [new_transaction] does with a token request that has its five fields. *)
Lemma new_transaction_token clock data from to amount n pubkey signature (self : Blockchain) :
  py_eq (tx_type data) (VStr "token") = true →
  data !! "from" = Some from → data !! "to" = Some to →
  data !! "amount" = Some amount → py_int amount = Return n →
  data !! "pubkey" = Some pubkey → data !! "signature" = Some signature →
  new_transaction clock data self =
    match add_block clock [token_tx from to n pubkey signature] self with
    | (Return h, s) =>
        match jsonify (TransactionBody h (balances s) (collectibles s)) with
        | Return b => (Return (b, 201), s)
        | Raise e => route_handler e s
        end
    | (Raise e, s) => route_handler e s
    end.
Proof.
  intros Hty Hfrom Hto Hamount Hn Hpk Hsg.
  unfold new_transaction, submit, missing_fields, tx_item. rewrite Hty.
  rewrite !filter_cons, filter_nil, Hfrom, Hto, Hamount, Hpk, Hsg.
  repeat (rewrite decide_False by discriminate).
  unfold try_except, get_self, lift, mbind, M_bind, mret, M_ret. cbv beta iota.
  rewrite Hn. cbv beta iota.
  destruct (add_block clock _ self) as [[h|e] s]; [|reflexivity].
  destruct (jsonify _); reflexivity.
Qed.

(** X14. The refusals of [POST /transaction], each with status 400 and the
    ledger untouched: a type other than the three known ones is refused as
    unknown before any validation (the validator alone would let it
    through); a token request that lacks some of its five fields is refused
    with the list of the missing ones, in the order from, to, amount, pubkey,
    signature; and a token request that the validator rejects is refused
    with the validator's reason. *)
Theorem new_transaction_refusals clock data (self : Blockchain) :
  (py_eq (tx_type data) (VStr "token") = false →
   py_eq (tx_type data) (VStr "collectible_create") = false →
   py_eq (tx_type data) (VStr "collectible_transfer") = false →
   new_transaction clock data self =
     (Return (ErrorBody "Tipo de transacción desconocido", 400), self)) ∧
  (py_eq (tx_type data) (VStr "token") = true →
   missing_fields ["from"; "to"; "amount"; "pubkey"; "signature"] data ≠ [] →
   new_transaction clock data self =
     (Return (ErrorBody ("Faltan campos: " ++
                String.concat ", "
                  (missing_fields ["from"; "to"; "amount"; "pubkey"; "signature"] data)),
              400), self)) ∧
  (∀ from to amount n pubkey signature reason,
     py_eq (tx_type data) (VStr "token") = true →
     data !! "from" = Some from → data !! "to" = Some to →
     data !! "amount" = Some amount → py_int amount = Return n →
     data !! "pubkey" = Some pubkey → data !! "signature" = Some signature →
     (verify_transaction (token_tx from to n pubkey signature) self).1 =
       Return (false, reason) →
     new_transaction clock data self = (Return (ErrorBody reason, 400), self)).
Proof.
  split; [|split].
  - intros H1 H2 H3. unfold new_transaction, submit. rewrite H1, H2, H3. reflexivity.
  - intros Hty Hmiss. unfold new_transaction, submit. rewrite Hty.
    destruct (missing_fields _ data) as [|k ks]; [congruence|]. reflexivity.
  - intros from to amount n pubkey signature reason Hty Hfrom Hto Hamount Hn Hpk Hsg Hv.
    rewrite (new_transaction_token clock data _ _ _ _ _ _ self Hty Hfrom Hto Hamount Hn Hpk Hsg).
    rewrite add_block_single, Hv. reflexivity.
Qed.

(** X15. [POST /transaction] lets any client issue currency: a token request
    whose ['from'] is ["GENESIS"], with any hashable ['to'], any ['amount']
    that [int] accepts and any ['pubkey'] and ['signature'], is answered 201
    in every ledger (provided [jsonify] does not raise on the answer); one
    block is appended and the balance of ['to'] has grown by the amount,
    every other balance being as it was. *)
Theorem new_transaction_issues_for_genesis
    clock data to k amount n pubkey signature (self : Blockchain) :
  py_eq (tx_type data) (VStr "token") = true →
  data !! "from" = Some (VStr "GENESIS") →
  data !! "to" = Some to → py_hash to = Some k →
  data !! "amount" = Some amount → py_int amount = Return n →
  data !! "pubkey" = Some pubkey → data !! "signature" = Some signature →
  let tx := token_tx (VStr "GENESIS") to n pubkey signature in
  let blk := build_block (clock 0%nat) (chain self) [tx] in
  let after := <[k := default 0 (balances self !! k) + n]> (balances self) in
  jsonify_raises (TransactionBody blk.(hash) after (collectibles self)) = None →
  new_transaction clock data self =
    (Return (TransactionBody blk.(hash) after (collectibles self), 201),
     with_block blk (with_balances after self)) ∧
  sum_balances after = sum_balances (balances self) + n.
Proof.
  intros Hty Hfrom Hto Hk Hamount Hn Hpk Hsg tx blk after Hjson. split.
  - rewrite (new_transaction_token clock data _ _ _ _ _ _ self Hty Hfrom Hto Hamount Hn Hpk Hsg).
    rewrite add_block_single.
    rewrite (verify_genesis_token (token_tx (VStr "GENESIS") to n pubkey signature) self)
      by reflexivity. cbn [fst].
    assert (Hrun : apply_effect (clock 1%nat) tx self = (Return (), with_balances after self)).
    { destruct (token_tx_fields (VStr "GENESIS") to n pubkey signature)
        as (Ht & Hf & Hto' & Ha & _).
      unfold apply_effect, move_balance, set_balances, tx_item, key_of, int_operand.
      subst tx. rewrite Ht, Hf, Hto', Ha.
      unfold get_self, mbind, M_bind, mret, M_ret. cbn. rewrite Hk. reflexivity. }
    fold tx. rewrite Hrun. fold blk. unfold jsonify. cbn [balances collectibles with_block with_balances].
    rewrite Hjson. reflexivity.
  - unfold after. rewrite sum_balances_insert. lia.
Qed.

End TransactionRouteCases.

Section FundRoute.
Context `{P : Platform} {R : @Runtime P} {E : Ecdsa}.

(** What [fund_user] does once the request and the founder's file have been
    accepted. *)
Lemma fund_user_submits clock data fundador_data generated k w address to n
    (self : Blockchain) :
  data !! "to" = Some (VStr to) → to ≠ "" →
  py_int (tx_get data "amount") = Return n → 0 < n →
  founder_file_of fundador_data generated w address →
  let tx := token_tx (VStr address) (VStr to) n (VStr (Wallet_public_key_hex w))
              (VStr (Wallet_sign w (VStr address) (VStr to) n k)) in
  fund_user clock data (Some fundador_data) generated k self =
    match add_block clock [tx] self with
    | (Return h, s) =>
        match jsonify (FundBody h (balances s)) with
        | Return b => (Return (b, 201), s)
        | Raise e => route_handler e s
        end
    | (Raise e, s) => route_handler e s
    end.
Proof.
  intros Hto Hne Hn Hpos (mnemonic & Hm & Hmne & Ha & Hw & _ & _) tx.
  assert (Hto' : tx_get data "to" = VStr to) by (unfold tx_get; rewrite Hto; reflexivity).
  unfold fund_user. rewrite !Hto'. cbn [is_str truthy negb orb].
  rewrite (proj2 (String.eqb_neq to "")) by exact Hne. cbn [negb].
  rewrite Hn. destruct (Z.leb_spec n 0) as [?|_]; [lia|].
  assert (Hnonempty : fundador_data ≠ ∅).
  { intros ->. rewrite lookup_empty in Hm. discriminate. }
  rewrite (bool_decide_eq_false_2 (fundador_data = ∅)) by exact Hnonempty.
  rewrite !bool_decide_eq_false_2 by (rewrite ?Hm, ?Ha; discriminate).
  cbn [orb]. unfold tx_item. rewrite Hm, Ha.
  unfold try_except, get_self, lift, mbind, M_bind, mret, M_ret. cbv beta iota.
  rewrite Hw. cbv beta iota. fold tx.
  destruct (add_block clock [tx] self) as [[h|e] s]; [|reflexivity].
  destruct (jsonify _); reflexivity.
Qed.

(** The transaction [fund_user] builds gets through the field checks. *)
Lemma fund_tx_well_formed w address to n k :
  address ≠ "GENESIS" → 0 < n →
  ecdsa_agrees w (address ++ to ++ pretty n) k →
  well_formed_token
    (token_tx (VStr address) (VStr to) n (VStr (Wallet_public_key_hex w))
       (VStr (Wallet_sign w (VStr address) (VStr to) n k)))
    address to n (Wallet_public_key_hex w) (Wallet_sign w (VStr address) (VStr to) n k).
Proof.
  intros Hgen Hpos (Hpk & Hsg & _).
  unfold well_formed_token.
  split; [reflexivity|]. split; [reflexivity|]. split; [exact Hgen|].
  split; [reflexivity|]. split; [reflexivity|]. split; [exact Hpos|].
  split; [reflexivity|]. split.
  { unfold is_hex, Wallet_public_key_hex. rewrite Hpk. reflexivity. }
  split; [reflexivity|].
  unfold is_hex, Wallet_sign. cbn [py_format]. rewrite Hsg. reflexivity.
Qed.

(** The validator's verdict on the transaction [fund_user] builds. *)
Lemma fund_tx_verdict w address to n k (self : Blockchain) :
  address = sha256_hexdigest w.(w_public_key) → address ≠ "GENESIS" → 0 < n →
  ecdsa_agrees w (address ++ to ++ pretty n) k →
  (verify_transaction
     (token_tx (VStr address) (VStr to) n (VStr (Wallet_public_key_hex w))
        (VStr (Wallet_sign w (VStr address) (VStr to) n k))) self).1 =
    if Z.ltb (default 0 (balances self !! KStr address)) n
    then Return (false, "Saldo insuficiente") else Return (true, "OK").
Proof.
  intros Haddr Hgen Hpos Hag.
  rewrite (verify_well_formed_token _ _ _ _ _ _ self
             (fund_tx_well_formed w address to n k Hgen Hpos Hag)).
  destruct Hag as (Hpk & Hsg & vk & accepted & Hvk & Hver).
  assert (Hd : derived_address (Wallet_public_key_hex w) = Some address).
  { unfold derived_address, Wallet_public_key_hex. rewrite Hpk, Haddr. reflexivity. }
  rewrite bool_decide_eq_true_2 by exact Hd. cbn [negb].
  destruct (Z.ltb _ n); [reflexivity|].
  unfold signature_verdict, Wallet_public_key_hex, Wallet_sign. cbn [py_format].
  rewrite Hpk, Hvk, Hsg, Hver. reflexivity.
Qed.


(** X17. The refusals of [POST /fund], the ledger untouched in each: a ['to']
    that is not a non-empty string and an ['amount'] that [int] rejects or
    that is not positive are answered 400 before the founder's file is
    looked at; a founder file that is missing or lacks ['mnemonic'] or
    ['address'] is answered 500; and an amount above the founder's balance
    is answered 400 with the validator's insufficient-balance reason. *)
Theorem fund_user_refusals clock data generated k (self : Blockchain) :
  (∀ fundador_data,
     is_str (tx_get data "to") = false ∨ truthy (tx_get data "to") = false →
     fund_user clock data fundador_data generated k self =
       (Return (ErrorBody "Campo 'to' requerido (string)", 400), self)) ∧
  (∀ fundador_data to,
     data !! "to" = Some (VStr to) → to ≠ "" →
     (∃ e, py_int (tx_get data "amount") = Raise e) ∨
     (∃ n, py_int (tx_get data "amount") = Return n ∧ n ≤ 0) →
     fund_user clock data fundador_data generated k self =
       (Return (ErrorBody "Campo 'amount' debe ser entero positivo", 400), self)) ∧
  (∀ fundador_data to n,
     data !! "to" = Some (VStr to) → to ≠ "" →
     py_int (tx_get data "amount") = Return n → 0 < n →
     match fundador_data with
     | None => True
     | Some d => d !! "mnemonic" = None ∨ d !! "address" = None
     end →
     fund_user clock data fundador_data generated k self =
       (Return (ErrorBody "Wallet del fundador no disponible", 500), self)) ∧
  (∀ fundador_data w address to n,
     data !! "to" = Some (VStr to) → to ≠ "" →
     py_int (tx_get data "amount") = Return n → 0 < n →
     founder_file_of fundador_data generated w address →
     ecdsa_agrees w (address ++ to ++ pretty n) k →
     default 0 (balances self !! KStr address) < n →
     fund_user clock data (Some fundador_data) generated k self =
       (Return (ErrorBody "Saldo insuficiente", 400), self)).
Proof.
  split; [|split; [|split]].
  - intros fundador_data Hbad. unfold fund_user.
    destruct Hbad as [-> | ->]; [reflexivity|].
    rewrite orb_true_r. reflexivity.
  - intros fundador_data to Hto Hne Hbad. unfold fund_user.
    assert (Hto' : tx_get data "to" = VStr to) by (unfold tx_get; rewrite Hto; reflexivity).
    rewrite !Hto'. cbn [is_str truthy negb orb].
    rewrite (proj2 (String.eqb_neq to "")) by exact Hne. cbn [negb].
    destruct Hbad as [[e ->]|[n [-> Hle]]]; [reflexivity|].
    destruct (Z.leb_spec n 0) as [_|?]; [reflexivity | lia].
  - intros fundador_data to n Hto Hne Hn Hpos Hfile. unfold fund_user.
    assert (Hto' : tx_get data "to" = VStr to) by (unfold tx_get; rewrite Hto; reflexivity).
    rewrite !Hto'. cbn [is_str truthy negb orb].
    rewrite (proj2 (String.eqb_neq to "")) by exact Hne. cbn [negb].
    rewrite Hn. destruct (Z.leb_spec n 0) as [?|_]; [lia|].
    destruct fundador_data as [d|]; [|reflexivity].
    destruct Hfile as [Hm | Ha].
    + rewrite (bool_decide_eq_true_2 _ Hm), orb_true_r. reflexivity.
    + rewrite (bool_decide_eq_true_2 _ Ha), orb_true_r. reflexivity.
  - intros fundador_data w address to n Hto Hne Hn Hpos Hfile Hag Hlt.
    rewrite (fund_user_submits clock data fundador_data generated k w address to n self
               Hto Hne Hn Hpos Hfile).
    destruct Hfile as (mnemonic & _ & _ & _ & _ & Haddr & Hgen).
    rewrite add_block_single.
    rewrite (fund_tx_verdict w address to n k self Haddr Hgen Hpos Hag).
    destruct (Z.ltb_spec (default 0 (balances self !! KStr address)) n) as [_|?]; [|lia].
    reflexivity.
Qed.

End FundRoute.

(** * The matching engine of the exchange *)

Section ListRemove.
Context {A : Type} `{!EqDecision A}.

Lemma list_remove_elem (x : A) (l : list A) :
  x ∈ l →
  ∃ l', list_remove x l = Return l' ∧
        length l = S (length l') ∧
        (∀ y, y ∈ l' → y ∈ l) ∧
        (∀ y, y ∈ l → y ≠ x → y ∈ l') ∧
        (NoDup l → NoDup l' ∧ x ∉ l').
Proof.
  induction l as [|y r IH]; intros Hin.
  - inversion Hin.
  - cbn [list_remove]. destruct (decide (y = x)) as [->|Hne].
    + exists r. split; [reflexivity|]. split; [reflexivity|].
      split; [intros z Hz; right; exact Hz|].
      split.
      * intros z Hz Hzx. apply elem_of_cons in Hz as [?|?]; [congruence | assumption].
      * intros Hnd. apply list.NoDup_cons in Hnd as [? ?]. split; assumption.
    + apply elem_of_cons in Hin as [?|Hin]; [congruence|].
      destruct (IH Hin) as (r' & -> & Hlen & Hsub & Hkeep & Hnd).
      exists (y :: r'). split; [reflexivity|].
      split; [cbn; rewrite Hlen; reflexivity|].
      split.
      * intros z Hz. apply elem_of_cons in Hz as [->|Hz]; [left | right; apply Hsub, Hz].
      * split.
        -- intros z Hz Hzx. apply elem_of_cons in Hz as [->|Hz]; [left|].
           right. apply Hkeep; assumption.
        -- intros Hnd'. apply list.NoDup_cons in Hnd' as [Hy Hr].
           destruct (Hnd Hr) as [Hr' Hx]. split.
           ++ apply list.NoDup_cons. split; [|exact Hr'].
              intros Hy'. apply Hy, Hsub, Hy'.
           ++ intros Hx'. apply elem_of_cons in Hx' as [?|?]; [congruence | auto].
Qed.

(** [l.remove(x)] raises exactly when [x] is not in [l]. *)
Lemma list_remove_missing (x : A) (l : list A) :
  x ∉ l → list_remove x l = Raise (ValueError "list.remove(x): x not in list").
Proof.
  induction l as [|y r IH]; intros Hnin; [reflexivity|].
  cbn [list_remove]. destruct (decide (y = x)) as [->|Hne].
  - exfalso. apply Hnin. left.
  - rewrite IH; [reflexivity|]. intros ?. apply Hnin. right. assumption.
Qed.

End ListRemove.

Section ExchangeMatching.
Context {json time float : Type}.
Context `{!EqDecision json} `{!EqDecision time} `{!EqDecision float}.
Context (json_eq : json → json → bool)
        (json_null : json) (json_str : string → json) (json_int : Z → json)
        (int_ : json → result Z) (float_ : json → result float)
        (price_ge : float → float → bool).
Context (trade_time : @Exchange.Order json time float → @Exchange.Order json time float → time)
        (wallet_result : @Exchange.Order json time float → @Exchange.Order json time float → json).

#[local] Abbreviation Order := (@Exchange.Order json time float).
#[local] Abbreviation State := (@Exchange.State json time float).
#[local] Abbreviation crosses := (Exchange.crosses price_ge).
#[local] Abbreviation trade_of := (Exchange.trade_of trade_time wallet_result).
#[local] Abbreviation settle := (Exchange.settle trade_time wallet_result).
#[local] Abbreviation match_against := (Exchange.match_against price_ge trade_time wallet_result).
#[local] Abbreviation match_each := (Exchange.match_each price_ge trade_time wallet_result).
#[local] Abbreviation match_orders := (Exchange.match_orders price_ge trade_time wallet_result).
#[local] Abbreviation matched := (Exchange.matched price_ge trade_time wallet_result).
#[local] Abbreviation quiet := (Exchange.quiet price_ge).
#[local] Abbreviation append_order := (Exchange.append_order json_eq json_str).
#[local] Abbreviation with_order := (Exchange.with_order json_eq json_str).
#[local] Abbreviation create_order :=
  (Exchange.create_order json_eq json_null json_str json_int int_ float_ price_ge
     trade_time wallet_result).

Lemma settle_present (b s : Order) (st : State) :
  b ∈ Exchange.buy st → s ∈ Exchange.sell st →
  ∃ bs ss,
    list_remove b (Exchange.buy st) = Return bs ∧
    list_remove s (Exchange.sell st) = Return ss ∧
    settle b s st =
      (Return (), {| Exchange.buy := bs; Exchange.sell := ss;
                     Exchange.collectible_buy := Exchange.collectible_buy st;
                     Exchange.collectible_sell := Exchange.collectible_sell st;
                     Exchange.trades := Exchange.trades st ++ [trade_of b s] |}).
Proof.
  intros Hb Hs.
  destruct (list_remove_elem b _ Hb) as (bs & Hbs & _).
  destruct (list_remove_elem s _ Hs) as (ss & Hss & _).
  exists bs, ss. split; [exact Hbs|]. split; [exact Hss|].
  unfold Exchange.settle, Exchange.append_trade, Exchange.set_books, get_self, lift,
    mbind, M_bind.
  cbn. rewrite Hbs. cbn. rewrite Hss. reflexivity.
Qed.

Lemma match_against_cases (b : Order) (sells : list Order) (st : State) :
  b ∈ Exchange.buy st → (∀ s, s ∈ sells → s ∈ Exchange.sell st) →
  (match_against b sells st = (Return (), st) ∧ ∀ s, s ∈ sells → crosses b s = false) ∨
  (∃ s bs ss,
     s ∈ sells ∧ crosses b s = true ∧
     list_remove b (Exchange.buy st) = Return bs ∧
     list_remove s (Exchange.sell st) = Return ss ∧
     match_against b sells st =
       (Return (), {| Exchange.buy := bs; Exchange.sell := ss;
                      Exchange.collectible_buy := Exchange.collectible_buy st;
                      Exchange.collectible_sell := Exchange.collectible_sell st;
                      Exchange.trades := Exchange.trades st ++ [trade_of b s] |})).
Proof.
  intros Hb. induction sells as [|s rest IH]; intros Hsub.
  - left. split; [reflexivity|]. intros s Hs. inversion Hs.
  - cbn [Exchange.match_against]. destruct (crosses b s) eqn:Hc.
    + right. destruct (settle_present b s st Hb) as (bs & ss & Hbs & Hss & Hrun).
      { apply Hsub. left. }
      exists s, bs, ss. split; [left|]. auto.
    + destruct IH as [[Hrun Hno]|(s' & bs & ss & Hs' & Hc' & Hbs & Hss & Hrun)].
      { intros s' Hs'. apply Hsub. right. exact Hs'. }
      * left. split; [exact Hrun|].
        intros s' Hs'. apply elem_of_cons in Hs' as [->|Hs']; [exact Hc | auto].
      * right. exists s', bs, ss. split; [right; exact Hs'|]. auto.
Qed.

Lemma matched_refl (st : State) : matched st st.
Proof.
  split; [auto|]. split; [auto|]. split; [reflexivity|]. split; [reflexivity|].
  exists []. split; [symmetry; apply app_nil_r|].
  split; [cbn; lia|]. split; [cbn; lia|]. constructor.
Qed.

Lemma match_each_settles (todo : list Order) :
  ∀ st0 st : State,
    matched st0 st →
    NoDup (Exchange.buy st) → NoDup todo →
    (∀ b, b ∈ todo → b ∈ Exchange.buy st) →
    (∀ b s, b ∈ Exchange.buy st → s ∈ Exchange.sell st →
            b ∈ todo ∨ crosses b s = false) →
    ∃ st', match_each todo st = (Return (), st') ∧ matched st0 st' ∧ quiet st'.
Proof.
  induction todo as [|b rest IH]; intros st0 st Hm Hnd Hndt Hsub Hdone.
  - exists st. split; [reflexivity|]. split; [exact Hm|].
    intros b s Hb Hs. destruct (Hdone b s Hb Hs) as [Hin|?]; [inversion Hin | assumption].
  - apply list.NoDup_cons in Hndt as [Hbrest Hndrest].
    assert (Hb : b ∈ Exchange.buy st) by (apply Hsub; left).
    cbn [Exchange.match_each]. unfold mbind, M_bind, get_self at 1. cbv beta iota.
    destruct (match_against_cases b (Exchange.sell st) st Hb (λ _ H, H))
      as [[Hrun Hno]|(s & bs & ss & Hs & Hc & Hbs & Hss & Hrun)]; rewrite Hrun.
    + apply (IH st0 st Hm Hnd Hndrest).
      * intros x Hx. apply Hsub. right. exact Hx.
      * intros x s Hx Hs. destruct (Hdone x s Hx Hs) as [Hin|?]; [|right; assumption].
        apply elem_of_cons in Hin as [->|Hin]; [right; apply Hno, Hs | left; exact Hin].
    + destruct (list_remove_elem b _ Hb) as (bs' & Hbs' & Hlenb & Hsubb & Hkeepb & Hndb).
      rewrite Hbs in Hbs'. injection Hbs' as <-.
      destruct (list_remove_elem s _ Hs) as (ss' & Hss' & Hlens & Hsubs & _).
      rewrite Hss in Hss'. injection Hss' as <-.
      destruct (Hndb Hnd) as [Hndbs Hbbs].
      apply IH.
      * destruct Hm as (Hmb & Hms & Hcb & Hcs & new & Htr & Hlb & Hls & Hall).
        split; [intros x Hx; apply Hmb, Hsubb, Hx|].
        split; [intros x Hx; apply Hms, Hsubs, Hx|].
        split; [exact Hcb|]. split; [exact Hcs|].
        exists (new ++ [trade_of b s])%list. cbn.
        split; [rewrite Htr, <- app_assoc; reflexivity|].
        rewrite length_app. cbn.
        split; [lia|]. split; [lia|].
        apply Forall_app. split; [exact Hall|].
        constructor; [|constructor].
        exists b, s. auto.
      * exact Hndbs.
      * exact Hndrest.
      * intros x Hx. cbn. apply Hkeepb; [apply Hsub; right; exact Hx|].
        intros ->. contradiction.
      * cbn. intros x s' Hx Hs'.
        destruct (Hdone x s' (Hsubb _ Hx) (Hsubs _ Hs')) as [Hin|?]; [|right; assumption].
        apply elem_of_cons in Hin as [->|Hin]; [contradiction | left; exact Hin].
Qed.

Lemma match_orders_settles (st : State) :
  NoDup (Exchange.buy st) →
  ∃ st', match_orders st = (Return (), st') ∧ matched st st' ∧ quiet st'.
Proof.
  intros Hnd.
  unfold Exchange.match_orders, mbind, M_bind, get_self. cbv beta iota.
  apply match_each_settles; auto using matched_refl.
Qed.

Lemma append_order_runs (order : Order) (st : State) :
  append_order order st = (Return (), with_order order st).
Proof.
  unfold Exchange.with_order, Exchange.append_order, mbind, M_bind, get_self.
  cbv beta iota. destruct (json_eq _ _); reflexivity.
Qed.

Lemma with_order_fresh (order : Order) (st : State) :
  NoDup (Exchange.id <$> Exchange.buy st) →
  Exchange.id order ∉ (Exchange.id <$> Exchange.buy st) →
  NoDup (Exchange.buy (with_order order st)).
Proof.
  intros Hnd Hfresh.
  apply (list.NoDup_fmap_1 Exchange.id).
  unfold Exchange.with_order, Exchange.append_order, mbind, M_bind, get_self.
  cbv beta iota. destruct (json_eq _ _); cbn; [|exact Hnd].
  rewrite fmap_app. apply list.NoDup_app. split; [exact Hnd|].
  split; [|apply NoDup_singleton].
  intros x Hx Hx'. apply list_elem_of_singleton in Hx'. subst x. contradiction.
Qed.

(** X18. [match_orders] on books whose buy orders have pairwise different ids
    never raises; it only takes orders out of the token books, one buy and one
    sell for each trade it appends, every new trade pairs a buy and a sell
    order of the books that cross (buy price >= sell price, equal amounts)
    and is recorded at the sell price, and no buy order left crosses a sell
    order left. *)
Theorem match_orders_clears_the_book (st : State) :
  NoDup (Exchange.id <$> Exchange.buy st) →
  ∃ st', match_orders st = (Return (), st') ∧ matched st st' ∧ quiet st'.
Proof.
  intros Hnd. apply match_orders_settles. exact (list.NoDup_fmap_1 _ _ Hnd).
Qed.

(** X19. [create_order] converts the amount and the price before it looks at
    the order type: when [int(...)] or [float(...)] raises, the route raises
    and the books are untouched, whatever the type; with both converted, a
    type other than "buy" and "sell" is answered 400 with the books untouched;
    and a "buy" or "sell" order with a fresh id is answered 201 with the order
    as built from the request, after the order was appended to its book and
    the matching engine ran on the result, so that no buy order left crosses a
    sell order left. *)
Theorem create_order_answers (new_id : string) (now : time) (data : gmap string json)
    (st : State) :
  NoDup (Exchange.id <$> Exchange.buy st) →
  new_id ∉ (Exchange.id <$> Exchange.buy st) →
  let order_type := default json_null (data !! "type") in
  (∀ e, int_ (default (json_int 0) (data !! "amount")) = Raise e →
        create_order new_id now data st = (Raise e, st)) ∧
  (∀ n e, int_ (default (json_int 0) (data !! "amount")) = Return n →
          float_ (default (json_int 0) (data !! "price")) = Raise e →
          create_order new_id now data st = (Raise e, st)) ∧
  (∀ n p, int_ (default (json_int 0) (data !! "amount")) = Return n →
          float_ (default (json_int 0) (data !! "price")) = Return p →
          json_eq order_type (json_str "buy") = false →
          json_eq order_type (json_str "sell") = false →
          create_order new_id now data st =
            (Return (Exchange.Error "Tipo de orden inválido", 400), st)) ∧
  (∀ n p, int_ (default (json_int 0) (data !! "amount")) = Return n →
          float_ (default (json_int 0) (data !! "price")) = Return p →
          json_eq order_type (json_str "buy") || json_eq order_type (json_str "sell") = true →
          let order := {| Exchange.id := new_id;
                          Exchange.user := default json_null (data !! "user");
                          Exchange.type := order_type;
                          Exchange.amount := n; Exchange.price := p;
                          Exchange.timestamp := now |} in
          ∃ st', create_order new_id now data st = (Return (Exchange.Success order, 201), st') ∧
                 matched (with_order order st) st' ∧ quiet st').
Proof.
  intros Hnd Hfresh order_type.
  split; [|split; [|split]].
  - intros e Hn. unfold Exchange.create_order, mbind, M_bind, lift.
    rewrite Hn. reflexivity.
  - intros n e Hn Hp. unfold Exchange.create_order, mbind, M_bind, lift.
    rewrite Hn, Hp. reflexivity.
  - intros n p Hn Hp Hb Hs. unfold Exchange.create_order, mbind, M_bind, lift.
    rewrite Hn, Hp. fold order_type. rewrite Hb, Hs. reflexivity.
  - intros n p Hn Hp Hty order.
    destruct (match_orders_settles (with_order order st)) as (st' & Hrun & Hm & Hq).
    { apply with_order_fresh; assumption. }
    exists st'. split; [|split; assumption].
    unfold Exchange.create_order, mbind, M_bind, lift.
    rewrite Hn, Hp. fold order_type. rewrite Hty. cbn [negb]. fold order.
    rewrite append_order_runs, Hrun. reflexivity.
Qed.

End ExchangeMatching.

Section CollectibleMatching.
Context {json time float : Type}.
Context `{!EqDecision json} `{!EqDecision time} `{!EqDecision float}.
Context (json_eq : json → json → bool)
        (json_null : json) (json_str : string → json) (json_int : Z → json)
        (int_ : json → result Z) (float_ : json → result float)
        (price_ge : float → float → bool).
Context (collectible_trade_time : @Exchange.CollectibleOrder json time float → @Exchange.CollectibleOrder json time float → time)
        (collectible_result : @Exchange.CollectibleOrder json time float → @Exchange.CollectibleOrder json time float → json).

#[local] Abbreviation CollectibleOrder := (@Exchange.CollectibleOrder json time float).
#[local] Abbreviation State := (@Exchange.State json time float).
#[local] Abbreviation collectible_crosses := (Exchange.collectible_crosses json_eq price_ge).
#[local] Abbreviation collectible_trade_of := (Exchange.collectible_trade_of collectible_trade_time collectible_result).
#[local] Abbreviation collectible_settle := (Exchange.collectible_settle collectible_trade_time collectible_result).
#[local] Abbreviation collectible_match_against := (Exchange.collectible_match_against json_eq price_ge collectible_trade_time collectible_result).
#[local] Abbreviation collectible_match_each := (Exchange.collectible_match_each json_eq price_ge collectible_trade_time collectible_result).
#[local] Abbreviation match_collectible_orders := (Exchange.match_collectible_orders json_eq price_ge collectible_trade_time collectible_result).
#[local] Abbreviation collectible_matched := (Exchange.collectible_matched json_eq price_ge collectible_trade_time collectible_result).
#[local] Abbreviation collectible_quiet := (Exchange.collectible_quiet json_eq price_ge).
#[local] Abbreviation append_collectible_order := (Exchange.append_collectible_order json_eq json_str).
#[local] Abbreviation with_collectible_order := (Exchange.with_collectible_order json_eq json_str).
#[local] Abbreviation create_collectible_order :=
  (Exchange.create_collectible_order json_eq json_null json_str json_int float_ price_ge
     collectible_trade_time collectible_result).

Lemma collectible_settle_present (b s : CollectibleOrder) (st : State) :
  b ∈ Exchange.collectible_buy st → s ∈ Exchange.collectible_sell st →
  ∃ bs ss,
    list_remove b (Exchange.collectible_buy st) = Return bs ∧
    list_remove s (Exchange.collectible_sell st) = Return ss ∧
    collectible_settle b s st =
      (Return (), {| Exchange.buy := Exchange.buy st; Exchange.sell := Exchange.sell st;
                     Exchange.collectible_buy := bs;
                     Exchange.collectible_sell := ss;
                     Exchange.trades := Exchange.trades st ++ [collectible_trade_of b s] |}).
Proof.
  intros Hb Hs.
  destruct (list_remove_elem b _ Hb) as (bs & Hbs & _).
  destruct (list_remove_elem s _ Hs) as (ss & Hss & _).
  exists bs, ss. split; [exact Hbs|]. split; [exact Hss|].
  unfold Exchange.collectible_settle, Exchange.append_trade, Exchange.set_collectible_books, get_self, lift,
    mbind, M_bind.
  cbn. rewrite Hbs. cbn. rewrite Hss. reflexivity.
Qed.

Lemma collectible_match_against_cases (b : CollectibleOrder) (sells : list CollectibleOrder) (st : State) :
  b ∈ Exchange.collectible_buy st → (∀ s, s ∈ sells → s ∈ Exchange.collectible_sell st) →
  (collectible_match_against b sells st = (Return (), st) ∧ ∀ s, s ∈ sells → collectible_crosses b s = false) ∨
  (∃ s bs ss,
     s ∈ sells ∧ collectible_crosses b s = true ∧
     list_remove b (Exchange.collectible_buy st) = Return bs ∧
     list_remove s (Exchange.collectible_sell st) = Return ss ∧
     collectible_match_against b sells st =
       (Return (), {| Exchange.buy := Exchange.buy st; Exchange.sell := Exchange.sell st;
                     Exchange.collectible_buy := bs;
                     Exchange.collectible_sell := ss;
                     Exchange.trades := Exchange.trades st ++ [collectible_trade_of b s] |})).
Proof.
  intros Hb. induction sells as [|s rest IH]; intros Hsub.
  - left. split; [reflexivity|]. intros s Hs. inversion Hs.
  - cbn [Exchange.collectible_match_against]. destruct (collectible_crosses b s) eqn:Hc.
    + right. destruct (collectible_settle_present b s st Hb) as (bs & ss & Hbs & Hss & Hrun).
      { apply Hsub. left. }
      exists s, bs, ss. split; [left|]. auto.
    + destruct IH as [[Hrun Hno]|(s' & bs & ss & Hs' & Hc' & Hbs & Hss & Hrun)].
      { intros s' Hs'. apply Hsub. right. exact Hs'. }
      * left. split; [exact Hrun|].
        intros s' Hs'. apply elem_of_cons in Hs' as [->|Hs']; [exact Hc | auto].
      * right. exists s', bs, ss. split; [right; exact Hs'|]. auto.
Qed.

Lemma collectible_matched_refl (st : State) : collectible_matched st st.
Proof.
  split; [auto|]. split; [auto|]. split; [reflexivity|]. split; [reflexivity|].
  exists []. split; [symmetry; apply app_nil_r|].
  split; [cbn; lia|]. split; [cbn; lia|]. constructor.
Qed.

Lemma collectible_match_each_settles (todo : list CollectibleOrder) :
  ∀ st0 st : State,
    collectible_matched st0 st →
    NoDup (Exchange.collectible_buy st) → NoDup todo →
    (∀ b, b ∈ todo → b ∈ Exchange.collectible_buy st) →
    (∀ b s, b ∈ Exchange.collectible_buy st → s ∈ Exchange.collectible_sell st →
            b ∈ todo ∨ collectible_crosses b s = false) →
    ∃ st', collectible_match_each todo st = (Return (), st') ∧ collectible_matched st0 st' ∧ collectible_quiet st'.
Proof.
  induction todo as [|b rest IH]; intros st0 st Hm Hnd Hndt Hsub Hdone.
  - exists st. split; [reflexivity|]. split; [exact Hm|].
    intros b s Hb Hs. destruct (Hdone b s Hb Hs) as [Hin|?]; [inversion Hin | assumption].
  - apply list.NoDup_cons in Hndt as [Hbrest Hndrest].
    assert (Hb : b ∈ Exchange.collectible_buy st) by (apply Hsub; left).
    cbn [Exchange.collectible_match_each]. unfold mbind, M_bind, get_self at 1. cbv beta iota.
    destruct (collectible_match_against_cases b (Exchange.collectible_sell st) st Hb (λ _ H, H))
      as [[Hrun Hno]|(s & bs & ss & Hs & Hc & Hbs & Hss & Hrun)]; rewrite Hrun.
    + apply (IH st0 st Hm Hnd Hndrest).
      * intros x Hx. apply Hsub. right. exact Hx.
      * intros x s Hx Hs. destruct (Hdone x s Hx Hs) as [Hin|?]; [|right; assumption].
        apply elem_of_cons in Hin as [->|Hin]; [right; apply Hno, Hs | left; exact Hin].
    + destruct (list_remove_elem b _ Hb) as (bs' & Hbs' & Hlenb & Hsubb & Hkeepb & Hndb).
      rewrite Hbs in Hbs'. injection Hbs' as <-.
      destruct (list_remove_elem s _ Hs) as (ss' & Hss' & Hlens & Hsubs & _).
      rewrite Hss in Hss'. injection Hss' as <-.
      destruct (Hndb Hnd) as [Hndbs Hbbs].
      apply IH.
      * destruct Hm as (Hmb & Hms & Hcb & Hcs & new & Htr & Hlb & Hls & Hall).
        split; [intros x Hx; apply Hmb, Hsubb, Hx|].
        split; [intros x Hx; apply Hms, Hsubs, Hx|].
        split; [exact Hcb|]. split; [exact Hcs|].
        exists (new ++ [collectible_trade_of b s])%list. cbn.
        split; [rewrite Htr, <- app_assoc; reflexivity|].
        rewrite length_app. cbn.
        split; [lia|]. split; [lia|].
        apply Forall_app. split; [exact Hall|].
        constructor; [|constructor].
        exists b, s. auto.
      * exact Hndbs.
      * exact Hndrest.
      * intros x Hx. cbn. apply Hkeepb; [apply Hsub; right; exact Hx|].
        intros ->. contradiction.
      * cbn. intros x s' Hx Hs'.
        destruct (Hdone x s' (Hsubb _ Hx) (Hsubs _ Hs')) as [Hin|?]; [|right; assumption].
        apply elem_of_cons in Hin as [->|Hin]; [contradiction | left; exact Hin].
Qed.

Lemma match_collectible_orders_settles (st : State) :
  NoDup (Exchange.collectible_buy st) →
  ∃ st', match_collectible_orders st = (Return (), st') ∧ collectible_matched st st' ∧ collectible_quiet st'.
Proof.
  intros Hnd.
  unfold Exchange.match_collectible_orders, mbind, M_bind, get_self. cbv beta iota.
  apply collectible_match_each_settles; auto using collectible_matched_refl.
Qed.

Lemma append_collectible_order_runs (order : CollectibleOrder) (st : State) :
  append_collectible_order order st = (Return (), with_collectible_order order st).
Proof.
  unfold Exchange.with_collectible_order, Exchange.append_collectible_order, mbind, M_bind, get_self.
  cbv beta iota. destruct (json_eq _ _); reflexivity.
Qed.

Lemma with_collectible_order_fresh (order : CollectibleOrder) (st : State) :
  NoDup (Exchange.c_id <$> Exchange.collectible_buy st) →
  Exchange.c_id order ∉ (Exchange.c_id <$> Exchange.collectible_buy st) →
  NoDup (Exchange.collectible_buy (with_collectible_order order st)).
Proof.
  intros Hnd Hfresh.
  apply (list.NoDup_fmap_1 Exchange.c_id).
  unfold Exchange.with_collectible_order, Exchange.append_collectible_order, mbind, M_bind, get_self.
  cbv beta iota. destruct (json_eq _ _); cbn; [|exact Hnd].
  rewrite fmap_app. apply list.NoDup_app. split; [exact Hnd|].
  split; [|apply NoDup_singleton].
  intros x Hx Hx'. apply list_elem_of_singleton in Hx'. subst x. contradiction.
Qed.

(** X20. [match_collectible_orders] on books whose collectible buy orders have
    pairwise different ids never raises; it only takes orders out of the
    collectible books, one buy and one sell for each trade it appends, every
    new trade pairs a buy and a sell order of the books for the same
    collectible with buy price >= sell price and is recorded at the sell
    price, and no buy order left collectible_crosses a sell order left. *)
Theorem match_collectible_orders_clears_the_book (st : State) :
  NoDup (Exchange.c_id <$> Exchange.collectible_buy st) →
  ∃ st', match_collectible_orders st = (Return (), st') ∧ collectible_matched st st' ∧ collectible_quiet st'.
Proof.
  intros Hnd. apply match_collectible_orders_settles. exact (list.NoDup_fmap_1 _ _ Hnd).
Qed.

(** X21. [create_collectible_order] raises with the books untouched when
    [float(...)] raises on the price, whatever the order type; answers 400
    with the books untouched for a type other than "collectible_buy" and
    "collectible_sell"; and answers 201 with the order as built from the
    request (a missing "id" gives the collectible id [None]) after appending
    it to its book and running the matching engine, so that no collectible
    buy order left collectible_crosses a collectible sell order left. *)
Theorem create_collectible_order_answers (new_id : string) (now : time)
    (data : gmap string json) (st : State) :
  NoDup (Exchange.c_id <$> Exchange.collectible_buy st) →
  new_id ∉ (Exchange.c_id <$> Exchange.collectible_buy st) →
  let order_type := default json_null (data !! "type") in
  (∀ e, float_ (default (json_int 0) (data !! "price")) = Raise e →
        create_collectible_order new_id now data st = (Raise e, st)) ∧
  (∀ p, float_ (default (json_int 0) (data !! "price")) = Return p →
        json_eq order_type (json_str "collectible_buy") = false →
        json_eq order_type (json_str "collectible_sell") = false →
        create_collectible_order new_id now data st =
          (Return (Exchange.Error "Tipo de orden inválido", 400), st)) ∧
  (∀ p, float_ (default (json_int 0) (data !! "price")) = Return p →
        json_eq order_type (json_str "collectible_buy") ||
        json_eq order_type (json_str "collectible_sell") = true →
        let order := {| Exchange.c_id := new_id;
                        Exchange.c_user := default json_null (data !! "user");
                        Exchange.c_type := order_type;
                        Exchange.collectible_id := default json_null (data !! "id");
                        Exchange.c_price := p;
                        Exchange.c_timestamp := now |} in
        ∃ st', create_collectible_order new_id now data st =
                 (Return (Exchange.CollectibleSuccess order, 201), st') ∧
               collectible_matched (with_collectible_order order st) st' ∧ collectible_quiet st').
Proof.
  intros Hnd Hfresh order_type.
  split; [|split].
  - intros e Hp. unfold Exchange.create_collectible_order, mbind, M_bind, lift.
    rewrite Hp. reflexivity.
  - intros p Hp Hb Hs. unfold Exchange.create_collectible_order, mbind, M_bind, lift.
    rewrite Hp. fold order_type. rewrite Hb, Hs. reflexivity.
  - intros p Hp Hty order.
    destruct (match_collectible_orders_settles (with_collectible_order order st))
      as (st' & Hrun & Hm & Hq).
    { apply with_collectible_order_fresh; assumption. }
    exists st'. split; [|split; assumption].
    unfold Exchange.create_collectible_order, mbind, M_bind, lift.
    rewrite Hp. fold order_type. rewrite Hty. cbn [negb]. fold order.
    rewrite append_collectible_order_runs, Hrun. reflexivity.
Qed.

End CollectibleMatching.

(** * The wallet server *)

Section WalletRoutes.
Context `{P : Platform} {E : Ecdsa} {R : @Runtime P}.
Context {core_json : Type} (post : transaction → result (core_json * Z)).

Lemma Wallet_init_generated generated w :
  Wallet_init VNone generated = Return w →
  w_mnemonic w = generated ∧
  w_address w = VStr (sha256_hexdigest (w_public_key w)) ∧
  (generated ≠ "" → ∀ generated', Wallet_init (VStr generated) generated' = Return w).
Proof.
  unfold Wallet_init. cbn [truthy].
  destruct (SigningKey_from_string _) as [sk|e] eqn:Hsk; [|discriminate].
  intros [= <-]. split; [reflexivity|]. split; [reflexivity|].
  intros Hne generated'. cbn [w_mnemonic].
  rewrite (proj2 (String.eqb_neq generated "")) by exact Hne. cbn [negb].
  rewrite Hsk. reflexivity.
Qed.

Lemma Wallet_export_fields w :
  Wallet_export w ≠ ∅ ∧
  Wallet_export w !! "mnemonic" = Some (VStr (w_mnemonic w)) ∧
  Wallet_export w !! "address" = Some (w_address w).
Proof.
  split; [apply insert_non_empty|]. split; reflexivity.
Qed.

Lemma get_wallet_of_entry (users : Users) name entry mnemonic generated w :
  users !! name = Some entry →
  entry !! "mnemonic" = Some mnemonic →
  Wallet_init mnemonic generated = Return w →
  get_wallet_by_username (VStr name) generated users =
    (Return (Some {| w_mnemonic := w.(w_mnemonic);
                     w_private_key := w.(w_private_key);
                     w_public_key := w.(w_public_key);
                     w_address := tx_get_or entry "address" w.(w_address) |}), users).
Proof.
  intros Hentry Hm Hw.
  unfold get_wallet_by_username, key_of, tx_item.
  unfold get_self, lift, mbind, M_bind, mret, M_ret. cbn [py_hash].
  rewrite Hentry.
  assert (Hne : entry ≠ ∅) by (intros ->; rewrite lookup_empty in Hm; discriminate).
  rewrite (bool_decide_eq_false_2 _ Hne).
  rewrite bool_decide_eq_false_2 by (rewrite Hm; discriminate).
  cbn [orb]. rewrite Hm, Hw. reflexivity.
Qed.

(** X22. A user that [POST /user/create] has registered can be loaded again:
    for a new, non-empty user name, the route answers 201 and stores the
    exported wallet under the name, leaving the other users as they were;
    [get_wallet_by_username] then rebuilds from the stored mnemonic the very
    wallet that was created (same keys, same address), and a second
    creation under that name is answered 400 with the users unchanged. *)
Theorem create_user_round_trip data generated name w (users : Users) :
  data !! "username" = Some (VStr name) → name ≠ "" →
  users !! name = None →
  generated ≠ "" →
  Wallet_init VNone generated = Return w →
  let users' := <[name := Wallet_export w]> users in
  create_user data generated users =
    (Return (@UserCreated core_json name (w_mnemonic w) (w_address w)
               (Wallet_public_key_hex w), 201), users') ∧
  (∀ other, other ≠ name → users' !! other = users !! other) ∧
  (∀ generated', get_wallet_by_username (VStr name) generated' users' =
                   (Return (Some w), users')) ∧
  (∀ generated', create_user data generated' users' =
                   (Return (@WalletError core_json "username ya existe", 400), users')).
Proof.
  intros Hname Hne Hfree Hgen Hw users'.
  assert (Hu : tx_get data "username" = VStr name)
    by (unfold tx_get; rewrite Hname; reflexivity).
  assert (Htruthy : truthy (VStr name) = true).
  { cbn. rewrite (proj2 (String.eqb_neq name "")) by exact Hne. reflexivity. }
  destruct (Wallet_init_generated generated w Hw) as (Hm & Ha & Hagain).
  destruct (Wallet_export_fields w) as (Hexp & Hem & Hea).
  split; [|split; [|split]].
  - unfold create_user. rewrite Hu, Htruthy. cbn [negb].
    unfold ensure_username_available, set_user.
    unfold get_self, lift, mbind, M_bind, mret, M_ret.
    rewrite (bool_decide_eq_true_2 _ Hfree). cbn [negb]. rewrite Hw. reflexivity.
  - intros other Hother. unfold users'. apply lookup_insert_ne. congruence.
  - intros generated'.
    rewrite (get_wallet_of_entry users' name (Wallet_export w) (VStr (w_mnemonic w))
               generated' w).
    + unfold tx_get_or. rewrite Hea. cbn [default]. destruct w; reflexivity.
    + apply lookup_insert_eq.
    + exact Hem.
    + rewrite Hm. apply Hagain, Hgen.
  - intros generated'. unfold create_user. rewrite Hu, Htruthy. cbn [negb].
    unfold ensure_username_available.
    unfold get_self, lift, mbind, M_bind, mret, M_ret.
    rewrite bool_decide_eq_false_2; [reflexivity|].
    unfold users'. rewrite lookup_insert_eq. discriminate.
Qed.





(** X24. The refusals of [POST /tx/send], the users untouched in each and
    nothing posted: a missing, empty or otherwise falsy ['username'] or
    ['to'] is answered 400; an ['amount'] that [int] rejects or that is not
    positive is answered 400; a user name that is not registered, or that is
    not a string, is answered 404; and a user name that is a list or a dict
    makes the route raise [TypeError], the look-up in [users] needing a
    hashable key. *)
Theorem send_tx_refusals data generated k (users : Users) :
  (truthy (tx_get data "username") = false ∨ truthy (tx_get data "to") = false →
   send_tx post data generated k users =
     (Return (WalletError "Campos requeridos", 400), users)) ∧
  (truthy (tx_get data "username") = true → truthy (tx_get data "to") = true →
   (∃ e, py_int (tx_get data "amount") = Raise e) ∨
   (∃ n, py_int (tx_get data "amount") = Return n ∧ n ≤ 0) →
   send_tx post data generated k users =
     (Return (WalletError "amount inválido", 400), users)) ∧
  (∀ n, truthy (tx_get data "username") = true → truthy (tx_get data "to") = true →
        py_int (tx_get data "amount") = Return n → 0 < n →
        match tx_get data "username" with
        | VStr name => users !! name = None
        | VList _ | VDict _ => False
        | _ => True
        end →
        send_tx post data generated k users =
          (Return (WalletError "usuario no encontrado", 404), users)) ∧
  (∀ n, truthy (tx_get data "username") = true → truthy (tx_get data "to") = true →
        py_int (tx_get data "amount") = Return n → 0 < n →
        py_hash (tx_get data "username") = None →
        send_tx post data generated k users = (Raise TypeError, users)).
Proof.
  split; [|split; [|split]].
  - intros Hbad. unfold send_tx.
    destruct Hbad as [-> | ->]; [reflexivity|]. rewrite orb_true_r. reflexivity.
  - intros Hu Ht Hbad. unfold send_tx. rewrite Hu, Ht. cbn [negb orb].
    destruct Hbad as [[e ->]|[n [-> Hle]]]; [reflexivity|].
    destruct (Z.leb_spec n 0) as [_|?]; [reflexivity | lia].
  - intros n Hu Ht Hn Hpos Hname. unfold send_tx. rewrite Hu, Ht. cbn [negb orb].
    rewrite Hn. destruct (Z.leb_spec n 0) as [?|_]; [lia|].
    unfold get_wallet_by_username, key_of.
    unfold get_self, mbind, M_bind, mret, M_ret.
    destruct (tx_get data "username") as [|b|m|name|l|d]; cbn [py_hash];
      try contradiction; try reflexivity.
    rewrite Hname. reflexivity.
  - intros n Hu Ht Hn Hpos Hhash. unfold send_tx. rewrite Hu, Ht. cbn [negb orb].
    rewrite Hn. destruct (Z.leb_spec n 0) as [?|_]; [lia|].
    unfold get_wallet_by_username, key_of.
    unfold get_self, raise, mbind, M_bind, mret, M_ret.
    rewrite Hhash. reflexivity.
Qed.

End WalletRoutes.

(** * The properties above on the sample data *)

Section MoreInstances.
#[local] Existing Instance demo_platform.

Lemma demo_pay_validated :
  validated Demo.bootstrapped (Demo.pay "A" 1000).
Proof. exists "OK". vm_compute. reflexivity. Defined.

Lemma demo_pay_returns :
  add_block Demo.clock [Demo.pay "A" 1000] Demo.bootstrapped =
    (Return (build_block (Demo.clock 0%nat) (chain Demo.bootstrapped)
               [Demo.pay "A" 1000]).(hash), Demo.paid).
Proof.
  assert (Hr : (add_block Demo.clock [Demo.pay "A" 1000] Demo.bootstrapped).1 =
               Return (build_block (Demo.clock 0%nat) (chain Demo.bootstrapped)
                         [Demo.pay "A" 1000]).(hash)) by (vm_compute; reflexivity).
  rewrite <- Hr. apply surjective_pairing.
Defined.


Lemma collectibles_permanent_witness :
  reachable_from Demo.with_art Demo.art_moved ∧
  collectibles_kept (collectibles Demo.with_art) (collectibles Demo.art_moved) ∧
  verify_transaction Demo.create_art Demo.art_moved =
    (Return (false, "ID inválido o ya existe"), Demo.art_moved).
Proof.
  assert (Hreach : reachable_from Demo.with_art Demo.art_moved).
  { eapply reachable_from_add_block with (clock := Demo.clock) (txs := [Demo.transfer_art]);
      [apply reachable_from_start | apply surjective_pairing]. }
  split; [exact Hreach|].
  destruct ((@collectibles_are_permanent demo_platform) _ _ Hreach) as [Hkept Hdup].
  split; [exact Hkept|].
  apply (Hdup Demo.create_art (VStr "art1") (KStr "art1")); try reflexivity.
  exists Demo.art. reflexivity.
Defined.

Lemma duplicate_create_witness :
  collectibles Demo.bootstrapped !! KStr "art1" = None ∧
  let b := build_block (Demo.clock 0%nat) (chain Demo.bootstrapped)
             [Demo.create_art; Sample.create_copy] in
  add_block Demo.clock [Demo.create_art; Sample.create_copy] Demo.bootstrapped =
    (Return b.(hash),
     with_block b
       (with_collectibles
          (<[KStr "art1" := created (Demo.clock 2%nat) Sample.create_copy
                              (VStr "art1") (VStr "B")]>
             (collectibles Demo.bootstrapped)) Demo.bootstrapped)).
Proof.
  assert (Hfresh : collectibles Demo.bootstrapped !! KStr "art1" = None) by reflexivity.
  split; [exact Hfresh|].
  exact ((@duplicate_create_in_one_batch demo_platform) Demo.clock
           Demo.create_art Sample.create_copy (VStr "art1") (VStr "art1") (KStr "art1")
           (VStr "A") (VStr "B") Demo.bootstrapped
           eq_refl eq_refl eq_refl eq_refl eq_refl eq_refl eq_refl eq_refl Hfresh
           eq_refl eq_refl eq_refl eq_refl).
Defined.

Lemma demo_pay_movable : movable_token (Demo.pay "A" 1000) "h(pk)" "A" 1000.
Proof.
  unfold movable_token. split; [reflexivity|]. split; [reflexivity|].
  split; [discriminate|]. split; [reflexivity|].
  exists (VInt 1000). split; reflexivity.
Defined.

Lemma effect_failure_witness :
  validated Demo.with_art (Demo.pay "A" 1000) ∧
  validated Demo.with_art Sample.transfer_nowhere ∧
  add_block Demo.clock [Demo.pay "A" 1000; Sample.transfer_nowhere] Demo.with_art =
    (Raise (KeyError (KStr "to")),
     with_balances (transfer (KStr "h(pk)") (KStr "A") 1000 (balances Demo.with_art))
       Demo.with_art).
Proof.
  assert (H1 : validated Demo.with_art (Demo.pay "A" 1000))
    by (exists "OK"; vm_compute; reflexivity).
  assert (H2 : validated Demo.with_art Sample.transfer_nowhere)
    by (exists "OK"; vm_compute; reflexivity).
  split; [exact H1|]. split; [exact H2|].
  exact ((@effect_failure_keeps_earlier_effects demo_platform) Demo.clock
           (Demo.pay "A" 1000) Sample.transfer_nowhere "h(pk)" "A" 1000
           Demo.with_art demo_pay_movable H1 eq_refl H2 eq_refl).
Defined.

Lemma token_transfer_witness :
  validated Demo.bootstrapped (Demo.pay "A" 1000) ∧
  ∃ from to n self',
    movable_token (Demo.pay "A" 1000) from to n ∧
    0 < n ∧ n ≤ default 0 (balances Demo.bootstrapped !! KStr from) ∧
    apply_effect 7 (Demo.pay "A" 1000) Demo.bootstrapped = (Return (), self') ∧
    chain self' = chain Demo.bootstrapped ∧
    collectibles self' = collectibles Demo.bootstrapped ∧
    (∀ k, k ≠ KStr from → k ≠ KStr to →
          balances self' !! k = balances Demo.bootstrapped !! k) ∧
    (from ≠ to →
       balances self' !! KStr from =
         Some (default 0 (balances Demo.bootstrapped !! KStr from) - n) ∧
       balances self' !! KStr to =
         Some (default 0 (balances Demo.bootstrapped !! KStr to) + n)) ∧
    (from = to →
       balances self' !! KStr from =
         Some (default 0 (balances Demo.bootstrapped !! KStr from))).
Proof.
  split; [exact demo_pay_validated|].
  exact ((@token_transfer_frame demo_platform) 7 (Demo.pay "A" 1000)
           Demo.bootstrapped Demo.bootstrapped eq_refl eq_refl demo_pay_validated).
Defined.

Lemma demo_bootstrapped_solvent : solvent (balances Demo.bootstrapped).
Proof.
  assert (Hb : balances Demo.bootstrapped = {[KStr "h(pk)" := SUPPLY_TOTAL]})
    by reflexivity.
  intros k v Hk. rewrite Hb in Hk.
  apply lookup_singleton_Some in Hk as [_ <-]. unfold SUPPLY_TOTAL. lia.
Defined.

Lemma solvent_witness :
  is_genesis_token (Demo.pay "A" 1000) = false ∧
  solvent (balances Demo.bootstrapped) ∧
  solvent (balances Demo.paid).
Proof.
  split; [reflexivity|]. split; [exact demo_bootstrapped_solvent|].
  exact ((@single_transaction_keeps_solvent demo_platform) Demo.clock (Demo.pay "A" 1000)
           Demo.bootstrapped _ _ eq_refl demo_bootstrapped_solvent demo_pay_returns).
Defined.

Lemma bootstrap_witness :
  chain (@empty_ledger demo_platform) = [] ∧
  let b := build_block (Demo.clock 0%nat) [] [genesis_tx Demo.fundador] in
  let self' :=
    {| chain := [b];
       balances := <[KStr "h(pk)" := SUPPLY_TOTAL]> (balances empty_ledger);
       collectibles := collectibles empty_ledger |} in
  ensure_founder_and_genesis Demo.clock Demo.fundador empty_ledger = (Return (), self') ∧
  ensure_founder_and_genesis Demo.clock Demo.fundador self' = (Return (), self').
Proof.
  split; [reflexivity|]. intros b self'.
  destruct ((@bootstrap_on_empty_chain demo_platform) Demo.clock Demo.clock Demo.fundador
              empty_ledger eq_refl) as (H1 & H2 & _).
  split; [exact H1 | exact H2].
Defined.

Lemma overdraft_plain : plain_transfer Sample.overdraft "nobody" "A" 7.
Proof.
  unfold plain_transfer. split; [reflexivity|]. split; [discriminate|].
  split; [reflexivity|]. exists (VInt 7). split; reflexivity.
Defined.

Lemma legacy_never_rejects_witness :
  plain_transfer Sample.overdraft "nobody" "A" 7 ∧
  (MCoins.add_block 1 [Sample.overdraft] Demo.legacy).1 =
    Return (build_block 1 (MCoins.chain Demo.legacy) [Sample.overdraft]).(hash) ∧
  MCoins.balances (MCoins.add_block 1 [Sample.overdraft] Demo.legacy).2 !! KStr "nobody" =
    Some (default 0 (MCoins.balances Demo.legacy !! KStr "nobody") - 7).
Proof.
  split; [exact overdraft_plain|].
  destruct ((@legacy_add_block_never_rejects demo_platform) 1 [Sample.overdraft] Demo.legacy)
    as [(bal & Hrun & _) Hone].
  { constructor; [|constructor]. exists "nobody", "A", 7. exact overdraft_plain. }
  split.
  - rewrite Hrun. reflexivity.
  - apply (Hone _ _ _ _ eq_refl overdraft_plain). discriminate.
Defined.

Lemma legacy_burn_witness :
  let debited := <[KStr "h(pk)" := default 0 (MCoins.balances Demo.legacy !! KStr "h(pk)") - 5]>
                   (MCoins.balances Demo.legacy) in
  MCoins.add_block 1 [Sample.burn] Demo.legacy =
    (Raise (KeyError (KStr "to")),
     {| MCoins.chain := MCoins.chain Demo.legacy; MCoins.balances := debited |}) ∧
  sum_balances debited = sum_balances (MCoins.balances Demo.legacy) - 5.
Proof.
  apply ((@legacy_missing_recipient_burns demo_platform) 1 Sample.burn "h(pk)" (VInt 5) 5
           Demo.legacy); try reflexivity.
  discriminate.
Defined.


Lemma transaction_refusals_witness :
  @new_transaction demo_platform Sample.runtime Demo.clock Demo.memo Demo.bootstrapped =
    (Return (ErrorBody "Tipo de transacción desconocido", 400), Demo.bootstrapped) ∧
  @new_transaction demo_platform Sample.runtime Demo.clock
      Sample.incomplete Demo.bootstrapped =
    (Return (ErrorBody "Faltan campos: to, signature", 400), Demo.bootstrapped) ∧
  @new_transaction demo_platform Sample.runtime Demo.clock Demo.forged Demo.bootstrapped =
    (Return (ErrorBody "La dirección 'from' no corresponde a la clave pública 'pubkey'", 400),
     Demo.bootstrapped).
Proof.
  split; [|split].
  - apply (proj1 (@new_transaction_refusals demo_platform Sample.runtime Demo.clock
                    Demo.memo Demo.bootstrapped)); reflexivity.
  - rewrite (proj1 (proj2 (@new_transaction_refusals demo_platform Sample.runtime Demo.clock
                             Sample.incomplete
                             Demo.bootstrapped)) eq_refl ltac:(discriminate)).
    reflexivity.
  - apply (proj2 (proj2 (@new_transaction_refusals demo_platform Sample.runtime Demo.clock
                           Demo.forged Demo.bootstrapped))
             (VStr "h(pk)") (VStr "mallory") (VInt 10) 10 (VStr "other") (VStr "ok"));
      reflexivity.
Defined.

Lemma transaction_issues_witness :
  let tx := token_tx (VStr "GENESIS") (VStr "mallory") 5 (VStr "pk") (VStr "GENESIS") in
  let blk := build_block (Demo.clock 0%nat) (chain Demo.bootstrapped) [tx] in
  let after := <[KStr "mallory" := default 0 (balances Demo.bootstrapped !! KStr "mallory") + 5]>
                 (balances Demo.bootstrapped) in
  @new_transaction demo_platform Sample.runtime Demo.clock Demo.mint Demo.bootstrapped =
    (Return (TransactionBody blk.(hash) after (collectibles Demo.bootstrapped), 201),
     with_block blk (with_balances after Demo.bootstrapped)) ∧
  sum_balances after = sum_balances (balances Demo.bootstrapped) + 5.
Proof.
  exact (@new_transaction_issues_for_genesis demo_platform Sample.runtime Demo.clock
           Demo.mint (VStr "mallory") (KStr "mallory") (VInt 5) 5 (VStr "pk") (VStr "GENESIS")
           Demo.bootstrapped eq_refl eq_refl eq_refl eq_refl eq_refl eq_refl eq_refl eq_refl
           eq_refl).
Defined.

Lemma sample_founder_file :
  @founder_file_of demo_platform Sample.ecdsa Sample.founder_file "unused"
    Sample.founder_wallet "h(pk)".
Proof.
  exists "pk". split; [reflexivity|]. split; [discriminate|].
  split; [reflexivity|]. split; [reflexivity|]. split; [reflexivity | discriminate].
Defined.

Lemma sample_ecdsa_agrees (message : string) :
  @ecdsa_agrees demo_platform Sample.ecdsa Sample.founder_wallet message tt.
Proof.
  split; [reflexivity|]. split; [reflexivity|].
  exists (String.list_byte_of_string "pk"), true. split; reflexivity.
Defined.


Lemma fund_refusals_witness :
  @fund_user demo_platform Sample.ecdsa Sample.runtime Demo.clock
      (Sample.fund_request "" 1000) (Some Sample.founder_file) "unused" tt
      Demo.bootstrapped =
    (Return (ErrorBody "Campo 'to' requerido (string)", 400), Demo.bootstrapped) ∧
  @fund_user demo_platform Sample.ecdsa Sample.runtime Demo.clock
      (Sample.fund_request "A" 0) (Some Sample.founder_file) "unused" tt
      Demo.bootstrapped =
    (Return (ErrorBody "Campo 'amount' debe ser entero positivo", 400), Demo.bootstrapped) ∧
  @fund_user demo_platform Sample.ecdsa Sample.runtime Demo.clock
      (Sample.fund_request "A" 1000) None "unused" tt Demo.bootstrapped =
    (Return (ErrorBody "Wallet del fundador no disponible", 500), Demo.bootstrapped) ∧
  @fund_user demo_platform Sample.ecdsa Sample.runtime Demo.clock
      (Sample.fund_request "A" 100000001) (Some Sample.founder_file) "unused" tt
      Demo.bootstrapped =
    (Return (ErrorBody "Saldo insuficiente", 400), Demo.bootstrapped).
Proof.
  split; [|split; [|split]].
  - apply (proj1 (@fund_user_refusals demo_platform Sample.runtime Sample.ecdsa Demo.clock
                    (Sample.fund_request "" 1000) "unused" tt Demo.bootstrapped)).
    right. reflexivity.
  - apply (proj1 (proj2 (@fund_user_refusals demo_platform Sample.runtime Sample.ecdsa
                           Demo.clock (Sample.fund_request "A" 0) "unused" tt
                           Demo.bootstrapped)) _ "A"); [reflexivity | discriminate |].
    right. exists 0. split; [reflexivity | lia].
  - apply (proj1 (proj2 (proj2 (@fund_user_refusals demo_platform Sample.runtime
                                  Sample.ecdsa Demo.clock (Sample.fund_request "A" 1000)
                                  "unused" tt Demo.bootstrapped))) None "A" 1000);
      [reflexivity | discriminate | reflexivity | lia | exact I].
  - apply (proj2 (proj2 (proj2 (@fund_user_refusals demo_platform Sample.runtime
                                  Sample.ecdsa Demo.clock (Sample.fund_request "A" 100000001)
                                  "unused" tt Demo.bootstrapped)))
             Sample.founder_file Sample.founder_wallet "h(pk)" "A" 100000001);
      [reflexivity | discriminate | reflexivity | lia | exact sample_founder_file
      | exact (sample_ecdsa_agrees _) | vm_compute; reflexivity].
Defined.

(** A buy order for 5 at 10 meets the resting sell order for 5 at 9: the
    trade is recorded at 9, both orders leave the books, and the buy order for
    3 at 8 stays. *)
Example scenario_exchange :
  Exchange.create_order py_eq VNone VStr VInt (@py_int demo_platform Sample.runtime)
      Sample.float_ Z.geb Sample.trade_time Sample.wallet_result
      "b1" 0 (Sample.order_request "alice" "buy" 5 10) Sample.books =
    (Return (Exchange.Success (Sample.order "b1" "alice" "buy" 5 10), 201),
     {| Exchange.buy := [Sample.order "b0" "carol" "buy" 3 8];
        Exchange.sell := [];
        Exchange.collectible_buy := Exchange.collectible_buy Sample.books;
        Exchange.collectible_sell := Exchange.collectible_sell Sample.books;
        Exchange.trades :=
          [Exchange.TokenTrade (VStr "alice") (VStr "bob") 5 9 1
             (VDict [("status", VStr "success")])] |}).
Proof. vm_compute. reflexivity. Qed.

Lemma match_orders_witness :
  let st := Exchange.with_order py_eq VStr (Sample.order "b1" "alice" "buy" 5 10)
              Sample.books in
  NoDup (Exchange.id <$> Exchange.buy st) ∧
  ∃ st', Exchange.match_orders Z.geb Sample.trade_time Sample.wallet_result st =
           (Return (), st') ∧
         Exchange.matched Z.geb Sample.trade_time Sample.wallet_result st st' ∧
         Exchange.quiet Z.geb st'.
Proof.
  intros st.
  assert (Hnd : NoDup (Exchange.id <$> Exchange.buy st))
    by (apply (bool_decide_unpack _); vm_compute; exact I).
  split; [exact Hnd|].
  exact (match_orders_clears_the_book Z.geb Sample.trade_time Sample.wallet_result st Hnd).
Defined.

Lemma create_order_witness :
  NoDup (Exchange.id <$> Exchange.buy Sample.books) ∧
  ("b1" ∉ (Exchange.id <$> Exchange.buy Sample.books)) ∧
  ∃ st', Exchange.create_order py_eq VNone VStr VInt (@py_int demo_platform Sample.runtime)
           Sample.float_ Z.geb Sample.trade_time Sample.wallet_result
           "b1" 0 (Sample.order_request "alice" "buy" 5 10) Sample.books =
           (Return (Exchange.Success (Sample.order "b1" "alice" "buy" 5 10), 201), st') ∧
         Exchange.matched Z.geb Sample.trade_time Sample.wallet_result
           (Exchange.with_order py_eq VStr (Sample.order "b1" "alice" "buy" 5 10)
              Sample.books) st' ∧
         Exchange.quiet Z.geb st'.
Proof.
  assert (Hnd : NoDup (Exchange.id <$> Exchange.buy Sample.books))
    by (apply (bool_decide_unpack _); vm_compute; exact I).
  assert (Hfresh : "b1" ∉ (Exchange.id <$> Exchange.buy Sample.books))
    by (apply (bool_decide_unpack _); vm_compute; exact I).
  split; [exact Hnd|]. split; [exact Hfresh|].
  exact (proj2 (proj2 (proj2
           (create_order_answers py_eq VNone VStr VInt (@py_int demo_platform Sample.runtime)
              Sample.float_ Z.geb Sample.trade_time Sample.wallet_result
              "b1" 0 (Sample.order_request "alice" "buy" 5 10) Sample.books Hnd Hfresh)))
           5 10 eq_refl eq_refl eq_refl).
Defined.

Lemma match_collectible_orders_witness :
  let st := Exchange.with_collectible_order py_eq VStr
              (Sample.collectible_order "cb1" "alice" "collectible_buy" "art1" 40)
              Sample.books in
  NoDup (Exchange.c_id <$> Exchange.collectible_buy st) ∧
  ∃ st', Exchange.match_collectible_orders py_eq Z.geb Sample.collectible_trade_time
           Sample.collectible_result st = (Return (), st') ∧
         Exchange.collectible_matched py_eq Z.geb Sample.collectible_trade_time
           Sample.collectible_result st st' ∧
         Exchange.collectible_quiet py_eq Z.geb st'.
Proof.
  intros st.
  assert (Hnd : NoDup (Exchange.c_id <$> Exchange.collectible_buy st))
    by (apply (bool_decide_unpack _); vm_compute; exact I).
  split; [exact Hnd|].
  exact (match_collectible_orders_clears_the_book py_eq Z.geb Sample.collectible_trade_time
           Sample.collectible_result st Hnd).
Defined.

Lemma create_collectible_order_witness :
  NoDup (Exchange.c_id <$> Exchange.collectible_buy Sample.books) ∧
  ("cb1" ∉ (Exchange.c_id <$> Exchange.collectible_buy Sample.books)) ∧
  ∃ st', Exchange.create_collectible_order py_eq VNone VStr VInt Sample.float_ Z.geb
           Sample.collectible_trade_time Sample.collectible_result
           "cb1" 0 (Sample.collectible_order_request "alice" "collectible_buy" "art1" 40)
           Sample.books =
           (Return (Exchange.CollectibleSuccess
                      (Sample.collectible_order "cb1" "alice" "collectible_buy" "art1" 40),
                    201), st') ∧
         Exchange.collectible_matched py_eq Z.geb Sample.collectible_trade_time
           Sample.collectible_result
           (Exchange.with_collectible_order py_eq VStr
              (Sample.collectible_order "cb1" "alice" "collectible_buy" "art1" 40)
              Sample.books) st' ∧
         Exchange.collectible_quiet py_eq Z.geb st'.
Proof.
  assert (Hnd : NoDup (Exchange.c_id <$> Exchange.collectible_buy Sample.books))
    by (apply (bool_decide_unpack _); vm_compute; exact I).
  assert (Hfresh : "cb1" ∉ (Exchange.c_id <$> Exchange.collectible_buy Sample.books))
    by (apply (bool_decide_unpack _); vm_compute; exact I).
  split; [exact Hnd|]. split; [exact Hfresh|].
  exact (proj2 (proj2
           (create_collectible_order_answers py_eq VNone VStr VInt Sample.float_ Z.geb
              Sample.collectible_trade_time Sample.collectible_result
              "cb1" 0 (Sample.collectible_order_request "alice" "collectible_buy" "art1" 40)
              Sample.books Hnd Hfresh))
           40 eq_refl eq_refl).
Defined.

Lemma create_user_witness :
  @Wallet_init demo_platform Sample.ecdsa VNone "seed" = Return Sample.new_wallet ∧
  let users' := <["alice" := @Wallet_export Sample.ecdsa Sample.new_wallet]> (∅ : Users) in
  @create_user demo_platform Sample.ecdsa (@body demo_platform)
      (Sample.create_request "alice") "seed" ∅ =
    (Return (UserCreated "alice" "seed" (VStr "h(seed)") "seed", 201), users') ∧
  @get_wallet_by_username demo_platform Sample.ecdsa (VStr "alice") "unused" users' =
    (Return (Some Sample.new_wallet), users') ∧
  @create_user demo_platform Sample.ecdsa (@body demo_platform)
      (Sample.create_request "alice") "other" users' =
    (Return (WalletError "username ya existe", 400), users').
Proof.
  assert (Hw : @Wallet_init demo_platform Sample.ecdsa VNone "seed" = Return Sample.new_wallet)
    by reflexivity.
  split; [exact Hw|]. intros users'.
  destruct (@create_user_round_trip demo_platform Sample.ecdsa (@body demo_platform)
              (Sample.create_request "alice") "seed" "alice" Sample.new_wallet ∅
              eq_refl ltac:(discriminate) eq_refl ltac:(discriminate) Hw)
    as (Hcreate & _ & Hget & Hdup).
  split; [exact Hcreate|]. split; [exact (Hget "unused") | exact (Hdup "other")].
Defined.



Lemma send_tx_refusals_witness :
  @send_tx demo_platform Sample.ecdsa Sample.runtime _ Sample.post
      (Sample.send_request (VStr "nobody") "A" 1000) "unused" tt Sample.users =
    (Return (WalletError "usuario no encontrado", 404), Sample.users) ∧
  @send_tx demo_platform Sample.ecdsa Sample.runtime _ Sample.post
      (Sample.send_request (VList [VStr "gen"]) "A" 1000) "unused" tt Sample.users =
    (Raise TypeError, Sample.users) ∧
  @send_tx demo_platform Sample.ecdsa Sample.runtime _ Sample.post
      (Sample.send_request (VStr "gen") "A" 0) "unused" tt Sample.users =
    (Return (WalletError "amount inválido", 400), Sample.users).
Proof.
  split; [|split].
  - apply (proj1 (proj2 (proj2 (@send_tx_refusals demo_platform Sample.ecdsa Sample.runtime _
                                  Sample.post (Sample.send_request (VStr "nobody") "A" 1000)
                                  "unused" tt Sample.users))) 1000);
      [reflexivity | reflexivity | reflexivity | lia | reflexivity].
  - apply (proj2 (proj2 (proj2 (@send_tx_refusals demo_platform Sample.ecdsa Sample.runtime _
                                  Sample.post
                                  (Sample.send_request (VList [VStr "gen"]) "A" 1000)
                                  "unused" tt Sample.users))) 1000);
      [reflexivity | reflexivity | reflexivity | lia | reflexivity].
  - apply (proj1 (proj2 (@send_tx_refusals demo_platform Sample.ecdsa Sample.runtime _
                           Sample.post (Sample.send_request (VStr "gen") "A" 0)
                           "unused" tt Sample.users))); [reflexivity | reflexivity |].
    right. exists 0. split; [reflexivity | lia].
Defined.

End MoreInstances.
